(** * The prewarm fork server of kitty (kitty/prewarm.py)

    A shallow embedding of the controller-side client [PrewarmProcess], of the
    supervisor event loop [main] with its nested handlers, of [fork] and
    [child_main], and of the read-only stream [MemoryViewReadWrapperBytes],
    followed by the properties of the specification that concern them, and
    by further properties of the code: of the frames that go from one
    process to the other, of the buffers of the supervisor, of the maps in
    which it keeps its children, and of the descriptors of the client.

    Conventions of the embedding.
    - Python [int] is [Z]; file descriptors and pids are [Z].
    - Python [bytes] is [list byte].  A Python [str] is represented by its
      UTF-8 encoding, so [str.encode()] and [bytes.decode()] are the identity:
      the only characters the code inspects are ASCII (newline, colon, space,
      digits, sign), and their bytes never occur inside a multi-byte UTF-8
      sequence.  Input that is not UTF-8 is outside the model.
    - A Python [dict] is a stdpp [gmap].
    - System calls are recorded, in program order, in a log kept in the state
      of the process that issues them; what the operating system answers is
      supplied by the caller of the embedded function. *)

From Stdlib Require Import ZArith Lia.
From Stdlib Require Import Strings.String Strings.Byte.
From Stdlib Require Import DecimalZ DecimalPos DecimalFacts.
From stdpp Require Import base list gmap.
From Equations Require Import Equations.

Local Open Scope Z_scope.

Abbreviation bytes := (list byte).
Abbreviation str := (list byte).

(** A literal, written as a Rocq string. *)
Definition lit (s : string) : bytes := list_byte_of_string s.

(** ** Python built-ins used by prewarm.py *)

Module Py.

Definition NL : byte := "010"%byte.
Definition COLON : byte := ":"%byte.
Definition SPACE : byte := " "%byte.

(** [len(b)] *)
Definition len {A} (l : list A) : Z := Z.of_nat (length l).

(** [b.find(c)] for a one-byte needle: the least index of [c], or -1. *)
Fixpoint find (c : byte) (b : bytes) : Z :=
  match b with
  | [] => -1
  | x :: r =>
      if Byte.eqb x c then 0
      else let i := find c r in if i <? 0 then -1 else i + 1
  end.

(** [l[a:b]] with Python's treatment of negative and out-of-range bounds. *)
Definition clamp_index (n i : Z) : Z :=
  if i <? 0 then Z.max 0 (i + n) else Z.min i n.

Definition slice {A} (l : list A) (a b : Z) : list A :=
  let a' := clamp_index (len l) a in
  let b' := clamp_index (len l) b in
  take (Z.to_nat (b' - a')) (drop (Z.to_nat a') l).

(** [l[:i]] and [l[i:]] *)
Definition slice_to {A} (l : list A) (i : Z) : list A :=
  take (Z.to_nat (clamp_index (len l) i)) l.
Definition slice_from {A} (l : list A) (i : Z) : list A :=
  drop (Z.to_nat (clamp_index (len l) i)) l.

(** [a == b] on [str] and [bytes] *)
Fixpoint eqb (a b : str) : bool :=
  match a, b with
  | [], [] => true
  | x :: a', y :: b' => Byte.eqb x y && eqb a' b'
  | _, _ => false
  end.

(** [s.startswith(p)] *)
Fixpoint startswith (p s : str) : bool :=
  match p, s with
  | [], _ => true
  | _ :: _, [] => false
  | x :: p', y :: s' => Byte.eqb x y && startswith p' s'
  end.

(** [s.partition(sep)] for a one-character separator. *)
Definition partition (sep : byte) (s : str) : str * str * str :=
  let i := find sep s in
  if i <? 0 then (s, [], [])
  else (slice_to s i, [sep], slice_from s (i + 1)).

(** [s.split(sep)] for a one-character separator. *)
Fixpoint split (sep : byte) (s : str) : list str :=
  match s with
  | [] => [[]]
  | x :: r =>
      if Byte.eqb x sep then [] :: split sep r
      else match split sep r with
           | [] => [[x]]
           | w :: ws => (x :: w) :: ws
           end
  end.

(** [s.split(sep, 1)] *)
Definition split1 (sep : byte) (s : str) : list str :=
  let i := find sep s in
  if i <? 0 then [s] else [slice_to s i; slice_from s (i + 1)].

(** [s.replace(a, b)] for one-character [a] and [b]. *)
Definition replace (a b : byte) (s : str) : str :=
  map (fun x => if Byte.eqb x a then b else x) s.

(** [str(n)], also what an f-string inserts for an [int]. *)
Definition digit_byte (d : Z) : byte :=
  match d with
  | 0 => "0" | 1 => "1" | 2 => "2" | 3 => "3" | 4 => "4"
  | 5 => "5" | 6 => "6" | 7 => "7" | 8 => "8" | _ => "9"
  end%byte.

Fixpoint str_of_uint (d : Decimal.uint) : str :=
  match d with
  | Decimal.Nil => []
  | Decimal.D0 r => digit_byte 0 :: str_of_uint r
  | Decimal.D1 r => digit_byte 1 :: str_of_uint r
  | Decimal.D2 r => digit_byte 2 :: str_of_uint r
  | Decimal.D3 r => digit_byte 3 :: str_of_uint r
  | Decimal.D4 r => digit_byte 4 :: str_of_uint r
  | Decimal.D5 r => digit_byte 5 :: str_of_uint r
  | Decimal.D6 r => digit_byte 6 :: str_of_uint r
  | Decimal.D7 r => digit_byte 7 :: str_of_uint r
  | Decimal.D8 r => digit_byte 8 :: str_of_uint r
  | Decimal.D9 r => digit_byte 9 :: str_of_uint r
  end.

Definition str_of_int (n : Z) : str :=
  match Z.to_int n with
  | Decimal.Pos d => str_of_uint d
  | Decimal.Neg d => "-"%byte :: str_of_uint d
  end.

(** [int(s)] in base 10: surrounding white space is stripped, one sign is
    allowed, and the digits may be grouped by single underscores.  [None]
    stands for [ValueError].  Only ASCII digits and white space are
    modelled. *)
Definition is_space (b : byte) : bool :=
  match b with
  | " " | "009" | "010" | "011" | "012" | "013"
  | "028" | "029" | "030" | "031" => true
  | _ => false
  end%byte.

Definition digit_val (b : byte) : option Z :=
  let c := Z.of_N (Byte.to_N b) in
  if (48 <=? c) && (c <=? 57) then Some (c - 48) else None.

Fixpoint lstrip (s : str) : str :=
  match s with
  | x :: r => if is_space x then lstrip r else s
  | [] => []
  end.

Definition strip (s : str) : str := rev (lstrip (rev (lstrip s))).

(** [digits acc after_digit s]: the value of the digit string [s] read
    after the prefix of value [acc]; [after_digit] tells whether the
    previous character was a digit (an underscore is only legal there, and
    the literal must end in a digit). *)
Fixpoint digits (acc : Z) (after_digit : bool) (s : str) : option Z :=
  match s with
  | [] => if after_digit then Some acc else None
  | x :: r =>
      match digit_val x with
      | Some d => digits (10 * acc + d) true r
      | None =>
          if Byte.eqb x "_"%byte && after_digit then
            match r with
            | [] => None
            | _ => digits acc false r
            end
          else None
      end
  end.

Definition int (s : str) : option Z :=
  match strip s with
  | [] => None
  | x :: r =>
      if Byte.eqb x "-"%byte then Z.opp <$> digits 0 false r
      else if Byte.eqb x "+"%byte then digits 0 false r
      else digits 0 false (x :: r)
  end.

(** The characters of [str(n)]: decimal digits, after a minus sign for a
    negative [n]. *)
Definition decimal_char (b : byte) : bool :=
  match digit_val b with Some _ => true | None => Byte.eqb b "-"%byte end.

(** [c not in s] *)
Definition free_of (c : byte) (s : bytes) : Prop := find c s = -1.

End Py.

(** ** [class MemoryViewReadWrapperBytes(io.BufferedIOBase)] *)

Module ReadWrapper.

Record MemoryViewReadWrapperBytes := mk {
  mw : bytes;
  pos : Z
}.

(** [__init__] *)
Definition init (m : bytes) : MemoryViewReadWrapperBytes :=
  {| mw := m; pos := 0 |}.

(** [read(size=-1)]: the bytes returned and the wrapper afterwards.
    [size = None] is Python's [None]. *)
Definition read (self : MemoryViewReadWrapperBytes) (size : option Z)
  : bytes * MemoryViewReadWrapperBytes :=
  let size :=
    match size with
    | None => Z.max 0 (Py.len (mw self) - pos self)
    | Some n => if n <? 0 then Z.max 0 (Py.len (mw self) - pos self) else n
    end in
  let oldpos := pos self in
  let self' := {| mw := mw self;
                  pos := Z.min (Py.len (mw self)) (pos self + size) |} in
  if pos self' <=? oldpos then ([], self')
  else (Py.slice (mw self') oldpos (pos self'), self').

(** [readall] *)
Definition readall (self : MemoryViewReadWrapperBytes) :=
  read self (Some (-1)).

(** [readinto(b)] for a buffer [b]: the buffer afterwards, the count
    returned and the wrapper afterwards ([b[:n] = data]). *)
Definition readinto (self : MemoryViewReadWrapperBytes) (b : bytes)
  : bytes * Z * MemoryViewReadWrapperBytes :=
  let '(data, self') := read self (Some (Py.len b)) in
  let n := Py.len data in
  (data ++ Py.slice_from b n, n, self').

(** A sequence of [read] calls on one wrapper: the results in order and
    the wrapper afterwards. *)
Fixpoint reads (self : MemoryViewReadWrapperBytes) (sizes : list (option Z))
  : list bytes * MemoryViewReadWrapperBytes :=
  match sizes with
  | [] => ([], self)
  | sz :: rest =>
      let '(d, self1) := read self sz in
      let '(ds, self2) := reads self1 rest in
      (d :: ds, self2)
  end.

(** [size] asks for everything that is left. *)
Definition unbounded (size : option Z) : bool :=
  match size with None => true | Some n => n <? 0 end.

End ReadWrapper.

(** ** Exceptions and results *)

(** The exceptions that prewarm.py raises, catches or lets through.  Each
    carries what [str(e)] shows; [SystemExit] carries its exit status and,
    for [SystemExit(err_msg)], the message printed to stderr. *)
Inductive exc : Type :=
| SystemExit (status : Z) (msg : str)
| KeyboardInterrupt
| EOFError (msg : str)
| BrokenPipeError (msg : str)
| OSError (msg : str)
| FileNotFoundError (msg : str)
| KeyError (key : str)
| ValueError (msg : str)
| TypeError (msg : str)
| AttributeError (msg : str)
| UnboundLocalError (msg : str)
| JSONDecodeError (msg : str)
| PrewarmProcessFailed (msg : str).

(** [isinstance(e, Exception)]: everything but [SystemExit] and
    [KeyboardInterrupt], which derive from [BaseException] only. *)
Definition is_Exception (e : exc) : bool :=
  match e with
  | SystemExit _ _ | KeyboardInterrupt => false
  | _ => true
  end.

(** [isinstance(e, OSError)] *)
Definition is_OSError (e : exc) : bool :=
  match e with
  | OSError _ | FileNotFoundError _ | BrokenPipeError _ => true
  | _ => false
  end.

(** [str(e)] *)
Definition exc_str (e : exc) : str :=
  match e with
  | SystemExit _ m => m
  | KeyboardInterrupt => []
  | EOFError m | BrokenPipeError m | OSError m | FileNotFoundError m
  | KeyError m | ValueError m | TypeError m | AttributeError m
  | UnboundLocalError m | JSONDecodeError m | PrewarmProcessFailed m => m
  end.

Inductive result (A : Type) : Type :=
| Ok (a : A)
| Raise (e : exc).
Arguments Ok {A} a.
Arguments Raise {A} e.

(** Sequencing stops at the first exception. *)
#[global] Instance result_bind : MBind result := fun A B f m =>
  match m with
  | Ok a => f a
  | Raise e => Raise e
  end.
#[global] Instance result_ret : MRet result := fun A a => Ok a.

(** ** System calls *)

(** [select.POLLIN] and friends, with their Linux values. *)
Definition POLLIN : Z := 1.
Definition POLLOUT : Z := 4.
Definition POLLERR : Z := 8.
Definition POLLHUP : Z := 16.
Definition POLLNVAL : Z := 32.

(** [error_events = select.POLLERR | select.POLLNVAL | select.POLLHUP] *)
Definition error_events : Z := Z.lor (Z.lor POLLERR POLLNVAL) POLLHUP.

(** [if a & b:] *)
Definition has (event mask : Z) : bool := negb (Z.land event mask =? 0).

(** The calls a process makes that are visible outside it. *)
Inductive syscall : Type :=
| SysPipe (r w : Z)
| SysSetInheritable (fd : Z) (inheritable : bool)
| SysRead (fd : Z) (n : Z)
| SysWrite (fd : Z) (data : bytes)
| SysClose (fd : Z)
| SysFork (child_pid : Z)
| SysPollRegister (fd : Z) (eventmask : Z)
| SysPollUnregister (fd : Z)
| SysShmUnlink (name : str).

(** ** JSON values *)

(** What [json.loads] returns and [json.dumps] accepts; numbers are the
    integers, the only numbers prewarm.py puts into a request. *)
#[warnings="-register-all"]
Inductive json : Type :=
| JNull
| JBool (b : bool)
| JNum (n : Z)
| JStr (s : str)
| JList (l : list json)
| JDict (d : list (str * json)).

(** The [json] module of Python's standard library, as far as prewarm.py
    uses it.  [json_loads] gives [None] where Python raises
    [JSONDecodeError]. *)
Class JsonCodec : Type := {
  json_dumps : json -> str;
  json_loads : bytes -> option json
}.

Module Json.

(** [d[key]] on the items of a dict *)
Fixpoint lookup (key : str) (d : list (str * json)) : option json :=
  match d with
  | [] => None
  | (k, v) :: r => if Py.eqb k key then Some v else lookup key r
  end.

(** [cmd.get(key, default)]; anything but a dict has no [get]. *)
Definition get (cmd : json) (key : str) (default : json) : result json :=
  match cmd with
  | JDict d => Ok (match lookup key d with Some v => v | None => default end)
  | _ => Raise (AttributeError (lit "object has no attribute 'get'"))
  end.

(** [cmd[key]] *)
Definition getitem (cmd : json) (key : str) : result json :=
  match cmd with
  | JDict d => match lookup key d with
               | Some v => Ok v
               | None => Raise (KeyError key)
               end
  | _ => Raise (TypeError (lit "indices must be integers"))
  end.

(** [cmd[key] = v]: an existing key keeps its place, a new one goes last. *)
Fixpoint setitem (key : str) (v : json) (d : list (str * json))
  : list (str * json) :=
  match d with
  | [] => [(key, v)]
  | (k, x) :: r => if Py.eqb k key then (k, v) :: r else (k, x) :: setitem key v r
  end.

(** [bool(v)], the test of [if v:] *)
Definition truthy (v : json) : bool :=
  match v with
  | JNull => false
  | JBool b => b
  | JNum n => negb (n =? 0)
  | JStr s => negb (Py.eqb s [])
  | JList l => match l with [] => false | _ => true end
  | JDict d => match d with [] => false | _ => true end
  end.

End Json.

(** ** [kitty.shm.SharedMemory] *)

Module SharedMemory.

(** Modelled from the spec: kitty/shm.py is not among the sources.  The
    width of the size prefix; the layout of a region is
    [size:uint32_le | json_payload:size bytes | stdin_payload]. *)
Definition num_bytes_for_size : Z := 4.

(** Modelled from the spec: kitty/shm.py is not among the sources.  A
    mapped region with its read/write offset and its unlink-on-exit
    flag. *)
Record t := mk {
  name : str;
  mmap : bytes;
  pos : Z;
  unlink_on_exit : bool
}.

Definition set_unlink_on_exit (b : bool) (shm : t) : t :=
  {| name := name shm; mmap := mmap shm; pos := pos shm;
     unlink_on_exit := b |}.

(** Modelled from the spec: kitty/shm.py is not among the sources.
    [SharedMemory(size=size, unlink_on_exit=u)] allocates a region of
    exactly [size] bytes under a fresh [name]. *)
Definition create (name : str) (size : Z) (u : bool) : t :=
  {| name := name; mmap := replicate (Z.to_nat size) "000"%byte; pos := 0;
     unlink_on_exit := u |}.

(** Modelled from the spec: kitty/shm.py is not among the sources.
    [SharedMemory(name=name, unlink_on_exit=u)] maps the existing region
    [region] of that name, at offset 0. *)
Definition attach (name : str) (region : bytes) (u : bool) : t :=
  {| name := name; mmap := region; pos := 0; unlink_on_exit := u |}.

(** Modelled from the spec: kitty/shm.py is not among the sources.
    [shm.tell()], the region's current offset. *)
Definition tell (shm : t) : Z := pos shm.

(** Modelled from the spec: kitty/shm.py is not among the sources.  The
    size prefix is an unsigned 32-bit little-endian integer. *)
Definition byte_of (n : Z) : byte :=
  default "000"%byte (Byte.of_N (Z.to_N (n mod 256))).

Definition pack_size (n : Z) : result bytes :=
  if (0 <=? n) && (n <? 2 ^ 32) then
    Ok [byte_of n; byte_of (n / 2 ^ 8); byte_of (n / 2 ^ 16);
        byte_of (n / 2 ^ 24)]
  else Raise (ValueError (lit "size does not fit the prefix")).

Definition unpack_size (b : bytes) : Z :=
  foldr (fun x acc => Z.of_N (Byte.to_N x) + 2 ^ 8 * acc) 0 b.

(** Modelled from the spec: kitty/shm.py is not among the sources.
    [shm.write(data)] stores [data] at the current offset and advances
    it; data that does not fit the region is an error. *)
Definition write (shm : t) (data : bytes) : result t :=
  if (0 <=? pos shm) && (pos shm + Py.len data <=? Py.len (mmap shm)) then
    Ok {| name := name shm;
          mmap := take (Z.to_nat (pos shm)) (mmap shm) ++ data ++
                  drop (Z.to_nat (pos shm + Py.len data)) (mmap shm);
          pos := pos shm + Py.len data;
          unlink_on_exit := unlink_on_exit shm |}
  else Raise (ValueError (lit "data does not fit the region")).

(** Modelled from the spec: kitty/shm.py is not among the sources.
    [shm.read(n)] takes [n] bytes at the current offset and advances it;
    asking for more than the region holds is [ShmTruncated]. *)
Definition read (shm : t) (n : Z) : result (bytes * t) :=
  if (0 <=? pos shm) && (0 <=? n) && (pos shm + n <=? Py.len (mmap shm)) then
    Ok (Py.slice (mmap shm) (pos shm) (pos shm + n),
        {| name := name shm; mmap := mmap shm; pos := pos shm + n;
           unlink_on_exit := unlink_on_exit shm |})
  else Raise (ValueError (lit "ShmTruncated")).

(** Modelled from the spec: kitty/shm.py is not among the sources.
    [shm.write_data_with_size(data)]: the size prefix, then the data. *)
Definition write_data_with_size (shm : t) (data : bytes) : result t :=
  prefix ← pack_size (Py.len data);
  shm ← write shm prefix;
  write shm data.

(** Modelled from the spec: kitty/shm.py is not among the sources.
    [shm.read_data_with_size()]: read a size prefix of fixed width, then
    that many bytes. *)
Definition read_data_with_size (shm : t) : result (bytes * t) :=
  '(prefix, shm) ← read shm num_bytes_for_size;
  read shm (unpack_size prefix).

End SharedMemory.

(** ** [fork(shm_address, ready_fd)], up to [os.fork()] and in the parent *)

(** What the operating system answers while the supervisor serves one
    [fork:] command.  [os.fork()] in the supervisor returns the pid of the
    child, which is positive, or raises [OSError]. *)
Record fork_world := {
  fw_ready_pipe : Z * Z;           (* [os.pipe()] in [handle_input]: [(r, w)] *)
  fw_region : option bytes;        (* the region named by the payload, if it can be mapped *)
  fw_death_pipe : Z * Z;           (* [os.pipe()] in [fork]: [(r, w)] *)
  fw_fork : option positive;       (* [os.fork()]: the child's pid, [None] for [OSError] *)
  fw_event : Z                     (* the event [poll()] reports on the death pipe *)
}.

(** What [fork] has computed when it reaches [os.fork()]: the request, its
    [stdin_size], the offset of the stdin bytes and the unlink-on-exit flag
    left on [shm]. *)
Record request := {
  rq_cmd : json;
  rq_sz : json;
  rq_pos : Z;
  rq_unlink_on_exit : bool
}.

Section Fork.

Context {codec : JsonCodec}.

(** The [with SharedMemory(name=shm_address, unlink_on_exit=True) as shm]
    block that opens [fork].  Leaving the block, normally or by an
    exception, unlinks the region when the flag is still set. *)
Definition read_request (region : option bytes) (shm_address : str)
  : result request * list syscall :=
  match region with
  | None => (Raise (FileNotFoundError shm_address), [])
  | Some region =>
      let shm := SharedMemory.attach shm_address region true in
      match SharedMemory.read_data_with_size shm with
      | Raise e => (Raise e, [SysShmUnlink shm_address])
      | Ok (data, shm) =>
          match json_loads data with
          | None =>
              (Raise (JSONDecodeError (lit "Expecting value")),
               [SysShmUnlink shm_address])
          | Some cmd =>
              match Json.get cmd (lit "stdin_size") (JNum 0) with
              | Raise e => (Raise e, [SysShmUnlink shm_address])
              | Ok sz =>
                  if Json.truthy sz then
                    (Ok {| rq_cmd := cmd; rq_sz := sz;
                           rq_pos := SharedMemory.tell shm;
                           rq_unlink_on_exit := false |}, [])
                  else
                    (Ok {| rq_cmd := cmd; rq_sz := sz; rq_pos := 0;
                           rq_unlink_on_exit := true |},
                     [SysShmUnlink shm_address])
              end
          end
      end
  end.

(** [fork] as the supervisor sees it: the value returned, or the exception
    raised, and the system calls made. *)
Definition fork (w : fork_world) (shm_address : str) (ready_fd : Z)
  : result (Z * Z) * list syscall :=
  match read_request (fw_region w) shm_address with
  | (Raise e, log) => (Raise e, log)
  | (Ok rq, log) =>
      let '(r, wr) := fw_death_pipe w in
      let log := log ++ [SysPipe r wr; SysSetInheritable r false] in
      match fw_fork w with
      | None =>
          (* [except OSError:], then [child_pid] is read unbound *)
          (Raise (UnboundLocalError
                    (lit "local variable 'child_pid' referenced before assignment")),
           log ++ (if Json.truthy (rq_sz rq)
                   then [SysShmUnlink shm_address] else []))
      | Some child_pid =>
          let log := log ++ [SysFork (Z.pos child_pid); SysClose wr;
                             SysPollRegister r POLLIN] in
          if has (fw_event w) POLLIN then
            (Ok (Z.pos child_pid, r), log ++ [SysRead r 1])
          else
            (Raise (ValueError (lit "Child process pipe failed")), log)
      end
  end.

End Fork.

(** ** [main(notify_child_death_fd)]: the supervisor *)

Module Supervisor.

(** [io.DEFAULT_BUFFER_SIZE] *)
Definition DEFAULT_BUFFER_SIZE : Z := 8192.

(** The local variables of [main] that its nested functions share, the
    poll set, the configuration of the process, and the system calls made
    so far.  [child_id_counter] is the next value of [count()];
    [forks] counts the [fork:] commands served and selects the answers of
    the operating system. *)
Record state := mk {
  input_buf : bytes;
  output_buf : bytes;
  child_death_buf : bytes;
  child_ready_fds : gmap Z Z;
  child_death_fds : gmap Z Z;
  child_id_map : gmap Z Z;
  child_id_counter : Z;
  poll : gmap Z Z;
  KITTY_PREWARM_CONFIG : option str;
  kitty_opts : option (json * json);
  sys : list syscall;
  forks : nat
}.

Definition set_input_buf (v : bytes) (s : state) : state :=
  mk v (output_buf s) (child_death_buf s) (child_ready_fds s)
     (child_death_fds s) (child_id_map s) (child_id_counter s) (poll s)
     (KITTY_PREWARM_CONFIG s) (kitty_opts s) (sys s) (forks s).
Definition set_output_buf (v : bytes) (s : state) : state :=
  mk (input_buf s) v (child_death_buf s) (child_ready_fds s)
     (child_death_fds s) (child_id_map s) (child_id_counter s) (poll s)
     (KITTY_PREWARM_CONFIG s) (kitty_opts s) (sys s) (forks s).
Definition set_child_death_buf (v : bytes) (s : state) : state :=
  mk (input_buf s) (output_buf s) v (child_ready_fds s)
     (child_death_fds s) (child_id_map s) (child_id_counter s) (poll s)
     (KITTY_PREWARM_CONFIG s) (kitty_opts s) (sys s) (forks s).
Definition set_child_ready_fds (v : gmap Z Z) (s : state) : state :=
  mk (input_buf s) (output_buf s) (child_death_buf s) v
     (child_death_fds s) (child_id_map s) (child_id_counter s) (poll s)
     (KITTY_PREWARM_CONFIG s) (kitty_opts s) (sys s) (forks s).
Definition set_child_death_fds (v : gmap Z Z) (s : state) : state :=
  mk (input_buf s) (output_buf s) (child_death_buf s) (child_ready_fds s)
     v (child_id_map s) (child_id_counter s) (poll s)
     (KITTY_PREWARM_CONFIG s) (kitty_opts s) (sys s) (forks s).
Definition set_child_id_map (v : gmap Z Z) (s : state) : state :=
  mk (input_buf s) (output_buf s) (child_death_buf s) (child_ready_fds s)
     (child_death_fds s) v (child_id_counter s) (poll s)
     (KITTY_PREWARM_CONFIG s) (kitty_opts s) (sys s) (forks s).
Definition set_child_id_counter (v : Z) (s : state) : state :=
  mk (input_buf s) (output_buf s) (child_death_buf s) (child_ready_fds s)
     (child_death_fds s) (child_id_map s) v (poll s)
     (KITTY_PREWARM_CONFIG s) (kitty_opts s) (sys s) (forks s).
Definition set_poll (v : gmap Z Z) (s : state) : state :=
  mk (input_buf s) (output_buf s) (child_death_buf s) (child_ready_fds s)
     (child_death_fds s) (child_id_map s) (child_id_counter s) v
     (KITTY_PREWARM_CONFIG s) (kitty_opts s) (sys s) (forks s).
Definition set_config (v : option str) (s : state) : state :=
  mk (input_buf s) (output_buf s) (child_death_buf s) (child_ready_fds s)
     (child_death_fds s) (child_id_map s) (child_id_counter s) (poll s)
     v (kitty_opts s) (sys s) (forks s).
Definition set_kitty_opts (v : option (json * json)) (s : state) : state :=
  mk (input_buf s) (output_buf s) (child_death_buf s) (child_ready_fds s)
     (child_death_fds s) (child_id_map s) (child_id_counter s) (poll s)
     (KITTY_PREWARM_CONFIG s) v (sys s) (forks s).
Definition set_forks (v : nat) (s : state) : state :=
  mk (input_buf s) (output_buf s) (child_death_buf s) (child_ready_fds s)
     (child_death_fds s) (child_id_map s) (child_id_counter s) (poll s)
     (KITTY_PREWARM_CONFIG s) (kitty_opts s) (sys s) v.
(** Record the system calls [l], made now. *)
Definition did (l : list syscall) (s : state) : state :=
  mk (input_buf s) (output_buf s) (child_death_buf s) (child_ready_fds s)
     (child_death_fds s) (child_id_map s) (child_id_counter s) (poll s)
     (KITTY_PREWARM_CONFIG s) (kitty_opts s) (sys s ++ l) (forks s).

(** How a handler ends: it returns, or it raises with the state as it was
    at the [raise]. *)
Inductive outcome : Type :=
| Returns (s : state)
| Raises (e : exc) (s : state).

Definition then_ (o : outcome) (k : state -> outcome) : outcome :=
  match o with
  | Returns s => k s
  | Raises e s => Raises e s
  end.

Definition final (o : outcome) : state :=
  match o with Returns s | Raises _ s => s end.

(** [poll.register(fd, eventmask)] and [poll.unregister(fd)]; the latter
    raises [KeyError] for a descriptor that is not registered. *)
Definition poll_register (fd eventmask : Z) (s : state) : state :=
  did [SysPollRegister fd eventmask] (set_poll (<[fd := eventmask]> (poll s)) s).

Definition poll_unregister (fd : Z) (s : state) : outcome :=
  match poll s !! fd with
  | Some _ => Returns (did [SysPollUnregister fd] (set_poll (delete fd (poll s)) s))
  | None => Raises (KeyError (Py.str_of_int fd)) s
  end.

(** One element of the list [poll.poll()] returns, with what the operating
    system answers to the call its handler makes: the bytes [os.read]
    returns, or the count [os.write] returns. *)
Record io_event := {
  ev_fd : Z;
  ev_mask : Z;
  ev_read : bytes;
  ev_wrote : Z
}.

Definition inspect {A} (a : A) : {b : A | a = b} := exist _ a eq_refl.

Section Main.

Context {codec : JsonCodec}.

(** The argument of [main], the descriptors of [sys.__stdin__] and
    [sys.__stdout__], and the answers of the operating system to the
    successive [fork:] commands. *)
Variables (notify_child_death_fd stdin_fd stdout_fd : Z).
Variable os_fork : nat -> fork_world.

(** The module-level [reload_kitty_config()], on the environment and the
    options of the supervisor process. *)
Definition reload_kitty_config (s : state) : outcome :=
  match KITTY_PREWARM_CONFIG s with
  | None => Raises (KeyError (lit "'KITTY_PREWARM_CONFIG'")) s
  | Some v =>
      let s := set_config None s in
      match json_loads v with
      | None => Raises (JSONDecodeError (lit "Expecting value")) s
      | Some d =>
          match Json.getitem d (lit "paths") with
          | Raise e => Raises e s
          | Ok paths =>
              match Json.getitem d (lit "overrides") with
              | Raise e => Raises e s
              | Ok overrides =>
                  Returns (set_kitty_opts (Some (paths, overrides)) s)
              end
          end
      end
  end.

(** [check_event(event, err_msg)]: the exception it raises, if any. *)
Definition check_event (event : Z) (err_msg : str) : option exc :=
  if has event POLLHUP then Some (SystemExit 0 [])
  else if has event error_events then Some (SystemExit 1 err_msg)
  else None.

(** The body of the [while] loop of [handle_input], for one decoded
    [line]. *)
Definition handle_line (line : str) (s : state) : outcome :=
  let '(cmd, _, payload) := Py.partition Py.COLON line in
  if Py.eqb cmd (lit "reload_kitty_config") then
    reload_kitty_config (set_config (Some payload) s)
  else if Py.eqb cmd (lit "ready") then
    match Py.int payload with
    | None => Raises (ValueError (lit "invalid literal for int() with base 10")) s
    | Some child_id =>
        (* [cfd = child_ready_fds.pop(child_id)], without a default *)
        match child_ready_fds s !! child_id with
        | None => Raises (KeyError (Py.str_of_int child_id)) s
        | Some cfd =>
            Returns (did [SysWrite cfd (lit "1"); SysClose cfd]
                       (set_child_ready_fds (delete child_id (child_ready_fds s)) s))
        end
    end
  else if Py.eqb cmd (lit "fork") then
    let w := os_fork (forks s) in
    let '(r, wr) := fw_ready_pipe w in
    let s := did [SysPipe r wr; SysSetInheritable wr false]
                 (set_forks (S (forks s)) s) in
    match fork w payload r with
    | (Raise e, log) =>
        let s := did log s in
        if is_Exception e then
          let es := Py.replace Py.NL Py.SPACE (exc_str e) in
          Returns (did [SysClose r]
                     (set_output_buf
                        (output_buf s ++ lit "ERR:" ++ es ++ [Py.NL]) s))
        else Raises e (did [SysClose r] s)
    | (Ok (child_pid, child_death_fd), log) =>
        let s := did log s in
        let child_id := child_id_counter s in
        let s := set_child_id_counter (child_id + 1) s in
        let s := set_child_id_map (<[child_id := child_pid]> (child_id_map s)) s in
        let s := set_child_ready_fds (<[child_id := wr]> (child_ready_fds s)) s in
        let s := set_child_death_fds
                   (<[child_death_fd := child_id]> (child_death_fds s)) s in
        let s := poll_register child_death_fd POLLIN s in
        let s := set_output_buf
                   (output_buf s ++ lit "CHILD:" ++ Py.str_of_int child_id ++
                    [Py.COLON] ++ Py.str_of_int child_pid ++ [Py.NL]) s in
        Returns (did [SysClose r] s)
    end
  else if Py.eqb cmd (lit "echo") then
    Returns (set_output_buf (output_buf s ++ payload ++ [Py.NL]) s)
  else Returns s.

(** The loop [while (idx := input_buf.find(b'\\n')) > -1] of
    [handle_input], on the buffer [buf]; the buffer that is left is
    stored in the state. *)
Equations? lines_loop (buf : bytes) (s : state) : outcome
  by wf (length buf) lt :=
  lines_loop buf s with inspect (Py.find Py.NL buf >? -1) => {
    | exist _ true Hidx =>
        let idx := Py.find Py.NL buf in
        let line := Py.slice_to buf idx in
        let rest := Py.slice_from buf (idx + 1) in
        match handle_line line (set_input_buf rest s) with
        | Returns s' => lines_loop rest s'
        | Raises e s' => Raises e s'
        end
    | exist _ false Hidx => Returns (set_input_buf buf s) }.
Proof.
  subst rest idx. apply Z.gtb_lt in Hidx.
  assert (Py.find Py.NL buf < Py.len buf) as Hlt.
  { clear. unfold Py.len.
    induction buf as [|x b IH]; simpl; [lia|].
    destruct (Byte.eqb x Py.NL); [lia|].
    destruct (Z.ltb_spec (Py.find Py.NL b) 0); lia. }
  unfold Py.slice_from, Py.clamp_index, Py.len in *.
  rewrite length_drop.
  destruct (Z.ltb_spec (Py.find Py.NL buf + 1) 0); lia.
Qed.

(** [handle_input(event)]; [d] is what [os.read] returns. *)
Definition handle_input (event : Z) (d : bytes) (s : state) : outcome :=
  match check_event event (lit "Polling of STDIN failed") with
  | Some e => Raises e s
  | None =>
      if negb (has event POLLIN) then Returns s
      else
        let s := did [SysRead stdin_fd DEFAULT_BUFFER_SIZE] s in
        match d with
        | [] => Raises (SystemExit 0 []) s
        | _ => lines_loop (input_buf s ++ d) s
        end
  end.

(** [handle_output(event)]; [n] is what [os.write] returns. *)
Definition handle_output (event : Z) (n : Z) (s : state) : outcome :=
  match check_event event (lit "Polling of STDOUT failed") with
  | Some e => Raises e s
  | None =>
      if negb (has event POLLOUT) then Returns s
      else
        let r :=
          match output_buf s with
          | [] => Returns s
          | _ =>
              let s := did [SysWrite stdout_fd (Py.slice_to (output_buf s) n)] s in
              if n =? 0 then Raises (SystemExit 0 []) s
              else Returns (set_output_buf (Py.slice_from (output_buf s) n) s)
          end in
        then_ r (fun s =>
          match output_buf s with
          | [] => poll_unregister stdout_fd s
          | _ => Returns s
          end)
  end.

(** [handle_notify_child_death(event)]; [n] is what [os.write]
    returns. *)
Definition handle_notify_child_death (event : Z) (n : Z) (s : state)
  : outcome :=
  match check_event event (lit "Polling of notify child death fd failed") with
  | Some e => Raises e s
  | None =>
      if negb (has event POLLOUT) then Returns s
      else
        let r :=
          match child_death_buf s with
          | [] => Returns s
          | _ =>
              let s := did [SysWrite notify_child_death_fd
                              (Py.slice_to (child_death_buf s) n)] s in
              if n =? 0 then Raises (SystemExit 0 []) s
              else Returns (set_child_death_buf
                              (Py.slice_from (child_death_buf s) n) s)
          end in
        then_ r (fun s =>
          match child_death_buf s with
          | [] => poll_unregister notify_child_death_fd s
          | _ => Returns s
          end)
  end.

(** [handle_child_death(dead_child_fd, dead_child_id)] *)
Definition handle_child_death (dead_child_fd dead_child_id : Z) (s : state)
  : outcome :=
  then_ (poll_unregister dead_child_fd s) (fun s : state =>
    (* [del child_death_fds[dead_child_fd]] *)
    match child_death_fds s !! dead_child_fd with
    | None => Raises (KeyError (Py.str_of_int dead_child_fd)) s
    | Some _ =>
        let s := set_child_death_fds (delete dead_child_fd (child_death_fds s)) s in
        (* [xfd = child_ready_fds.pop(dead_child_id, None)]; the name
           [xfd] is a constructor of [byte], hence [x_fd] *)
        let s :=
          match child_ready_fds s !! dead_child_id with
          | Some x_fd =>
              did [SysClose x_fd]
                  (set_child_ready_fds (delete dead_child_id (child_ready_fds s)) s)
          | None => s
          end in
        (* [dead_child_pid = child_id_map.pop(dead_child_id)] *)
        match child_id_map s !! dead_child_id with
        | None => Raises (KeyError (Py.str_of_int dead_child_id)) s
        | Some dead_child_pid =>
            let s := set_child_id_map (delete dead_child_id (child_id_map s)) s in
            Returns (set_child_death_buf
                       (child_death_buf s ++ Py.str_of_int dead_child_pid ++
                        [Py.NL]) s)
        end
    end).

(** The body of [for (q, event) in poll.poll()]. *)
Definition dispatch (ev : io_event) (s : state) : outcome :=
  let q := ev_fd ev in
  let event := ev_mask ev in
  if q =? stdin_fd then handle_input event (ev_read ev) s
  else if q =? stdout_fd then handle_output event (ev_wrote ev) s
  else if q =? notify_child_death_fd then
    handle_notify_child_death event (ev_wrote ev) s
  else
    match child_death_fds s !! q with
    | Some dead_child_id =>
        if has event POLLHUP then handle_child_death q dead_child_id s
        else Returns s
    | None => Returns s
    end.

Fixpoint dispatch_all (evs : list io_event) (s : state) : outcome :=
  match evs with
  | [] => Returns s
  | ev :: rest => then_ (dispatch ev s) (dispatch_all rest)
  end.

(** The head of a turn of [while True]: stdout and the notification
    descriptor are polled for writing while there is something to write. *)
Definition arm (s : state) : state :=
  let s := match output_buf s with
           | [] => s
           | _ => poll_register stdout_fd POLLOUT s
           end in
  match child_death_buf s with
  | [] => s
  | _ => poll_register notify_child_death_fd POLLOUT s
  end.

(** One turn of [while True]; [evs] is what [poll.poll()] returns. *)
Definition tick (evs : list io_event) (s : state) : outcome :=
  dispatch_all evs (arm s).

(** The turns of the loop for the successive answers of [poll.poll()],
    as long as none raises. *)
Fixpoint run (ticks : list (list io_event)) (s : state) : outcome :=
  match ticks with
  | [] => Returns s
  | evs :: rest => then_ (tick evs s) (run rest)
  end.

(** What [os.pipe()] can answer in [fork]: stdin, stdout and the
    notification descriptor stay open for the life of the supervisor, so the
    read end of a new death pipe is none of them. *)
Definition pipes_are_new : Prop :=
  forall n, let fd := (fw_death_pipe (os_fork n)).1 in
            fd <> stdin_fd /\ fd <> stdout_fd /\ fd <> notify_child_death_fd.

(** The death detectors in a state of the loop: each is polled and is the
    only detector of its child, whose pid is in the id map and whose id
    the counter has passed. *)
Definition tracked (s : state) : Prop :=
  forall fd id, child_death_fds s !! fd = Some id ->
    (fd <> stdin_fd /\ fd <> stdout_fd /\ fd <> notify_child_death_fd) /\
    is_Some (poll s !! fd) /\ is_Some (child_id_map s !! id) /\
    id < child_id_counter s /\
    (forall fd', child_death_fds s !! fd' = Some id -> fd' = fd).

(** The supervisor closes no death detector, so the read ends that
    [os.pipe()] answers in [fork] are all different. *)
Definition detectors_are_distinct : Prop :=
  forall n m, (fw_death_pipe (os_fork n)).1 = (fw_death_pipe (os_fork m)).1 ->
              n = m.

(** The account of the children in a state of the loop: every child whose
    pid is held has a death detector that is polled, every child that
    awaits its release is one whose pid is held, and every death detector
    is the read end of the pipe of an earlier [fork:] command. *)
Definition accounted (s : state) : Prop :=
  (forall id pid, child_id_map s !! id = Some pid ->
     exists fd, child_death_fds s !! fd = Some id /\ is_Some (poll s !! fd)) /\
  (forall id fd, child_ready_fds s !! id = Some fd ->
     is_Some (child_id_map s !! id)) /\
  (forall fd id, child_death_fds s !! fd = Some id ->
     exists n, (n < forks s)%nat /\ fd = (fw_death_pipe (os_fork n)).1).

(** Stdout and the notification descriptor are registered with the
    poll only while there is something to write to them. *)
Definition busy (s : state) : Prop :=
  (is_Some (poll s !! stdout_fd) -> output_buf s <> []) /\
  (is_Some (poll s !! notify_child_death_fd) -> child_death_buf s <> []).

(** The state in which the loop starts: [prewarm()] has consumed the
    configuration, only stdin is polled, and [count()] is at 0. *)
Definition start (opts : option (json * json)) : state :=
  {| input_buf := []; output_buf := []; child_death_buf := [];
     child_ready_fds := ∅; child_death_fds := ∅; child_id_map := ∅;
     child_id_counter := 0;
     poll := {[ stdin_fd := POLLIN ]};
     KITTY_PREWARM_CONFIG := None; kitty_opts := opts;
     sys := [SysPollRegister stdin_fd POLLIN]; forks := 0 |}.

(** How the process leaves [main] once the loop has raised [e]: the
    [except] clauses choose the exception that goes on, and [finally]
    closes the readiness descriptors that are left. *)
Definition leave (e : exc) (s : state) : exc * state :=
  let e' :=
    match e with
    | KeyboardInterrupt | EOFError _ | BrokenPipeError _ => SystemExit 1 []
    | _ => e
    end in
  (e', did (SysClose <$> (snd <$> map_to_list (child_ready_fds s))) s).

End Main.

End Supervisor.

(** ** [class PrewarmProcess]: the client in the controller *)

Module PrewarmProcess.

(** [@dataclass class Child] *)
Record Child := mkChild {
  child_id : Z;
  child_process_pid : Z
}.

(** The attributes of a [PrewarmProcess], and the system calls it has
    made.  The descriptors of the worker's pipes and the poll object exist
    once [ensure_worker] has run. *)
Record t := mk {
  from_worker_fd : Z;
  in_worker_fd : Z;
  children : gmap Z Child;
  write_to_process_fd : Z;
  read_from_process_fd : Z;
  poll : gmap Z Z;
  sys : list syscall
}.

Definition set_children (v : gmap Z Child) (self : t) : t :=
  mk (from_worker_fd self) (in_worker_fd self) v (write_to_process_fd self)
     (read_from_process_fd self) (poll self) (sys self).
Definition set_poll (v : gmap Z Z) (self : t) : t :=
  mk (from_worker_fd self) (in_worker_fd self) (children self)
     (write_to_process_fd self) (read_from_process_fd self) v (sys self).
Definition did (l : list syscall) (self : t) : t :=
  mk (from_worker_fd self) (in_worker_fd self) (children self)
     (write_to_process_fd self) (read_from_process_fd self) (poll self)
     (sys self ++ l).

(** [get_options()], as far as [prewarm_config] reads it. *)
Record options := {
  config_paths : list str;
  config_overrides : list str
}.

(** Readings of [time.monotonic()] are in nanoseconds; [seconds n] is the
    float [n] of the source. *)
Definition seconds (n : Z) : Z := n * 1000000000.

(** One test of the [while] condition of [send_to_prewarm_process]
    followed by one turn of its body: the time elapsed since [st], and the
    list [poll.poll(0.2)] returns, each event with the count [os.write]
    returns if it is called for it. *)
Record send_tick := {
  snd_elapsed : Z;
  snd_events : list (Z * Z * Z)
}.

(** The same for the reply loop of [__call__]: each event comes with the
    bytes [os.read] returns if it is called for it. *)
Record reply_tick := {
  rpl_elapsed : Z;
  rpl_events : list (Z * Z * bytes)
}.

(** How a method ends: it returns [a], it raises, or the description of
    the environment ends before the method does. *)
Inductive ending (A : Type) : Type :=
| Returned (a : A) (self : t)
| Raised (e : exc) (self : t)
| Waiting (self : t).
Arguments Returned {A} a self.
Arguments Raised {A} e self.
Arguments Waiting {A} self.

Definition self_of {A} (r : ending A) : t :=
  match r with Returned _ s | Raised _ s | Waiting s => s end.

(** What the operating system answers during one [__call__]. *)
Record call_world := {
  os_spawn : Z * Z;              (* [process.stdin.fileno()], [process.stdout.fileno()] *)
  os_ttyname : result str;       (* [os.ttyname(tty_fd)] *)
  os_getcwd : str;
  os_environ : list (str * str);
  os_shm_name : str;             (* the name of the region that is created *)
  os_send : list send_tick;
  os_reply : list reply_tick
}.

Definition inspect {A} (a : A) : {b : A | a = b} := exist _ a eq_refl.

Section Methods.

Context {codec : JsonCodec}.

(** [__init__(create_file_to_read_from_worker=False)]; [(r, w)] is what
    [safe_pipe()] returns. *)
Definition init (pipe : Z * Z) : t :=
  {| from_worker_fd := pipe.1; in_worker_fd := pipe.2; children := ∅;
     write_to_process_fd := -1; read_from_process_fd := -1; poll := ∅;
     sys := [SysPipe pipe.1 pipe.2] |}.

(** [worker_started] *)
Definition worker_started (self : t) : bool := in_worker_fd self =? -1.

(** [prewarm_config] *)
Definition prewarm_config (opts : options) : str :=
  json_dumps (JDict [(lit "paths", JList (JStr <$> config_paths opts));
                     (lit "overrides", JList (JStr <$> config_overrides opts))]).

(** [ensure_worker()]; [spawn] holds the descriptors of the pipes of the
    process that [subprocess.Popen] starts. *)
Definition ensure_worker (spawn : Z * Z) (self : t) : t :=
  if worker_started self then self
  else
    {| from_worker_fd := from_worker_fd self;
       in_worker_fd := -1;
       children := children self;
       write_to_process_fd := spawn.1;
       read_from_process_fd := spawn.2;
       poll := {[ spawn.2 := POLLIN ]};
       sys := sys self ++ [SysClose (in_worker_fd self);
                           SysPollRegister spawn.2 POLLIN] |}.

(** [poll_to_send(yes)] *)
Definition poll_to_send (yes : bool) (self : t) : result t :=
  if yes then
    Ok (did [SysPollRegister (write_to_process_fd self) POLLOUT]
          (set_poll (<[write_to_process_fd self := POLLOUT]> (poll self)) self))
  else
    match poll self !! write_to_process_fd self with
    | Some _ =>
        Ok (did [SysPollUnregister (write_to_process_fd self)]
              (set_poll (delete (write_to_process_fd self) (poll self)) self))
    | None => Raise (KeyError (Py.str_of_int (write_to_process_fd self)))
    end.

(** The [for] loop of [send_to_prewarm_process] over the events of one
    poll: the buffer that is left, or the exception raised. *)
Fixpoint send_events (evs : list (Z * Z * Z)) (output_buf : bytes) (self : t)
  : result bytes * t :=
  match evs with
  | [] => (Ok output_buf, self)
  | (fd, event, n) :: rest =>
      if has event error_events then
        (Raise (PrewarmProcessFailed
                  (lit "Failed doing I/O with prewarm process: {event}")), self)
      else if (fd =? write_to_process_fd self) && has event POLLOUT then
        send_events rest (Py.slice_from output_buf n)
          (did [SysWrite (write_to_process_fd self) (Py.slice_to output_buf n)] self)
      else send_events rest output_buf self
  end.

(** The end of [send_to_prewarm_process], after its loop. *)
Definition send_finish (output_buf : bytes) (self : t) : ending unit :=
  match poll_to_send false self with
  | Raise e => Raised e self
  | Ok self =>
      match output_buf with
      | [] => Returned tt self
      | _ => Raised (PrewarmProcessFailed
                       (lit "Timed out waiting to write to prewarm process")) self
      end
  end.

(** [send_to_prewarm_process(output_buf, timeout)].  Python tests the
    clock before the buffer, but the reading is only needed while the
    buffer is not empty. *)
Fixpoint send_to_prewarm_process (ticks : list send_tick)
  (output_buf : bytes) (timeout : Z) (self : t) : ending unit :=
  match output_buf with
  | [] => send_finish output_buf self
  | _ =>
      match ticks with
      | [] => Waiting self
      | tk :: ticks =>
          if snd_elapsed tk <? timeout then
            match poll_to_send true self with
            | Raise e => Raised e self
            | Ok self =>
                match send_events (snd_events tk) output_buf self with
                | (Raise e, self) => Raised e self
                | (Ok output_buf, self) =>
                    send_to_prewarm_process ticks output_buf timeout self
                end
            end
          else send_finish output_buf self
      end
  end.

(** [reload_kitty_config()] as the source has it: the argument of
    [send_to_prewarm_process] is a plain string literal, not an
    f-string. *)
Definition reload_kitty_config (opts : options) (ticks : list send_tick)
  (self : t) : ending unit :=
  if worker_started self then
    send_to_prewarm_process ticks
      (lit "reload_kitty_config:{self.prewarm_config}" ++ [Py.NL])
      (seconds 2) self
  else Returned tt self.

(** [add_child(child_id, pid)] *)
Definition add_child (child_id pid : Z) (self : t) : Child * t :=
  let c := mkChild child_id pid in
  (c, set_children (<[child_id := c]> (children self)) self).

(** [mark_child_as_ready(child_id)] *)
Definition mark_child_as_ready (ticks : list send_tick) (child_id : Z)
  (self : t) : ending bool :=
  match children self !! child_id with
  | None => Returned false self
  | Some c =>
      let self := set_children (delete child_id (children self)) self in
      match send_to_prewarm_process ticks
              (lit "ready:" ++ Py.str_of_int child_id ++ [Py.NL])
              (seconds 2) self with
      | Returned _ self => Returned true self
      | Raised e self => Raised e self
      | Waiting self => Waiting self
      end
  end.

(** The dictionary [cmd] that [__call__] builds. *)
Definition request_of (tty_name cwd : str) (argv : list str)
  (env : list (str * str)) (stdin_data : option bytes) : json :=
  JDict ([(lit "tty_name", JStr tty_name);
          (lit "cwd", JStr cwd);
          (lit "argv", JList (JStr <$> argv));
          (lit "env", JDict ((fun kv => (kv.1, JStr kv.2)) <$> env))] ++
         match stdin_data with
         | Some d => [(lit "stdin_size", JNum (Py.len d))]
         | None => []
         end).

(** The region [__call__] allocates and fills: [total_size] is computed,
    the region is created, [write_data_with_size(data)] and, for stdin
    bytes that are not empty, [write(stdin_data)]. *)
Definition fill_region (name : str) (data : bytes)
  (stdin_data : option bytes) : result SharedMemory.t :=
  let total_size := 0 in
  let total_size :=
    match stdin_data with
    | Some d => total_size + Py.len d
    | None => total_size
    end in
  let total_size :=
    total_size + (Py.len data + SharedMemory.num_bytes_for_size) in
  let shm := SharedMemory.create name total_size true in
  shm ← SharedMemory.write_data_with_size shm data;
  match stdin_data with
  | Some ((_ :: _) as d) => SharedMemory.write shm d
  | _ => Ok shm
  end.

(** What one line of the worker's output means to [__call__]. *)
Inductive verdict : Type :=
| Forked (c : Child)
| Failed (e : exc)
| Undecided.

(** The body of the inner [while] loop of [__call__], for one [line]. *)
Definition reply_line (line : str) (self : t) : verdict * t :=
  if Py.startswith (lit "CHILD:") line then
    match Py.split Py.COLON line with
    | [_; cid; pid] =>
        match Py.int cid with
        | None => (Failed (ValueError (lit "invalid literal for int() with base 10")), self)
        | Some cid =>
            match Py.int pid with
            | None => (Failed (ValueError (lit "invalid literal for int() with base 10")), self)
            | Some pid =>
                let '(child, self) := add_child cid pid self in
                (Forked child, self)
            end
        end
    | _ => (Failed (ValueError (lit "wrong number of values to unpack")), self)
    end
  else if Py.startswith (lit "ERR:") line then
    (Failed (PrewarmProcessFailed
               (List.last (Py.split1 Py.COLON line) [])), self)
  else (Undecided, self).

(** The loop [while (idx := input_buf.find(b'\n')) > -1] of [__call__]:
    the verdict, the buffer that is left, and the client. *)
Equations? reply_lines (buf : bytes) (self : t) : verdict * bytes * t
  by wf (length buf) lt :=
  reply_lines buf self with inspect (Py.find Py.NL buf >? -1) => {
    | exist _ true Hidx =>
        let idx := Py.find Py.NL buf in
        let line := Py.slice_to buf idx in
        let rest := Py.slice_from buf (idx + 1) in
        match reply_line line self with
        | (Undecided, self) => reply_lines rest self
        | (v, self) => (v, rest, self)
        end
    | exist _ false Hidx => (Undecided, buf, self) }.
Proof.
  subst rest idx. apply Z.gtb_lt in Hidx.
  assert (Py.find Py.NL buf < Py.len buf) as Hlt.
  { clear. unfold Py.len.
    induction buf as [|x b IH]; simpl; [lia|].
    destruct (Byte.eqb x Py.NL); [lia|].
    destruct (Z.ltb_spec (Py.find Py.NL b) 0); lia. }
  unfold Py.slice_from, Py.clamp_index, Py.len in *.
  rewrite length_drop.
  destruct (Z.ltb_spec (Py.find Py.NL buf + 1) 0); lia.
Qed.

(** The [for] loop of [__call__] over the events of one poll. *)
Fixpoint reply_events (evs : list (Z * Z * bytes)) (input_buf : bytes)
  (self : t) : verdict * bytes * t :=
  match evs with
  | [] => (Undecided, input_buf, self)
  | (fd, event, d) :: rest =>
      if has event error_events then
        (Failed (PrewarmProcessFailed
                   (lit "Failed doing I/O with prewarm process")),
         input_buf, self)
      else if (fd =? read_from_process_fd self) && has event POLLIN then
        let self := did [SysRead (read_from_process_fd self) 8192] self in
        match reply_lines (input_buf ++ d) self with
        | (Undecided, input_buf, self) => reply_events rest input_buf self
        | r => r
        end
      else reply_events rest input_buf self
  end.

(** The loop [while time.monotonic() - st < 2] of [__call__] and the
    [raise] after it. *)
Fixpoint await_reply (ticks : list reply_tick) (input_buf : bytes)
  (self : t) : ending Child :=
  match ticks with
  | [] => Waiting self
  | tk :: ticks =>
      if rpl_elapsed tk <? seconds 2 then
        match reply_events (rpl_events tk) input_buf self with
        | (Forked c, _, self) => Returned c self
        | (Failed e, _, self) => Raised e self
        | (Undecided, input_buf, self) => await_reply ticks input_buf self
        end
      else Raised (PrewarmProcessFailed
                     (lit "Timed out waiting for I/O with prewarm process")) self
  end.

(** The reply loop of [__call__] with the region: from [input_buf = b''] to
    the [raise] after the loop.  Before it returns the child it clears the
    unlink-on-exit flag of [shm]. *)
Definition wait_for_reply (ticks : list reply_tick) (shm : SharedMemory.t)
  (self : t) : ending Child * SharedMemory.t :=
  match await_reply ticks [] self with
  | Returned c self => (Returned c self, SharedMemory.set_unlink_on_exit false shm)
  | r => (r, shm)
  end.

(** The body of the [with SharedMemory(...) as shm] block of [__call__]
    once the region is filled: how it ends, and [shm] as it is then. *)
Definition exchange (w : call_world) (shm : SharedMemory.t) (self : t)
  : ending Child * SharedMemory.t :=
  match send_to_prewarm_process (os_send w)
          (lit "fork:" ++ SharedMemory.name shm ++ [Py.NL]) (seconds 2) self with
  | Raised e self => (Raised e self, shm)
  | Waiting self => (Waiting self, shm)
  | Returned _ self => wait_for_reply (os_reply w) shm self
  end.

(** [__call__(tty_fd, argv, cwd, env, stdin_data)].  Leaving the [with]
    block unlinks the region when its flag is still set. *)
Definition call (w : call_world) (tty_fd : Z) (argv : list str) (cwd : str)
  (env : option (list (str * str))) (stdin_data : option bytes) (self : t)
  : ending Child :=
  let self := ensure_worker (os_spawn w) self in
  match os_ttyname w with
  | Raise e => Raised e self
  | Ok tty_name =>
      let env := match env with Some env => env | None => os_environ w end in
      let cwd := match cwd with [] => os_getcwd w | _ => cwd end in
      let cmd := request_of tty_name cwd argv env stdin_data in
      let data := json_dumps cmd in
      match fill_region (os_shm_name w) data stdin_data with
      | Raise e => Raised e (did [SysShmUnlink (os_shm_name w)] self)
      | Ok shm =>
          let '(r, shm) := exchange w shm self in
          let unlink self :=
            if SharedMemory.unlink_on_exit shm
            then did [SysShmUnlink (SharedMemory.name shm)] self else self in
          match r with
          | Returned c self => Returned c (unlink self)
          | Raised e self => Raised e (unlink self)
          | Waiting self => Waiting self
          end
      end
  end.

(** What a verdict does to the client: a child that is found is recorded. *)
Definition record (v : verdict) (self : t) : t :=
  match v with
  | Forked c => set_children (<[child_id c := c]> (children self)) self
  | _ => self
  end.

(** The verdict on a stream of bytes, and the bytes left over. *)
Definition scan (stream : bytes) : verdict * bytes :=
  (reply_lines stream (init (0, 0))).1.

(** A poll that finds the pipe of the worker writable right away, and
    a write that takes [n] bytes. *)
Definition writable (self : t) (n : Z) : send_tick :=
  {| snd_elapsed := 0;
     snd_events := [(write_to_process_fd self, POLLOUT, n)] |}.

(** The bytes the client has written to the worker so far. *)
Definition sent (self : t) : bytes :=
  concat (omap (fun c => match c with
                         | SysWrite fd d =>
                             if fd =? write_to_process_fd self then Some d else None
                         | _ => None
                         end) (sys self)).







(** A turn of the loop of a send that starts before the time is up, finds
    the pipe to the worker writable, and in which [os.write] takes at least
    one byte. *)
Definition takes (fd timeout : Z) (tk : send_tick) : Prop :=
  snd_elapsed tk < timeout /\
  exists n, 1 <= n /\ snd_events tk = [(fd, POLLOUT, n)].

(** [a == b] on lists of [str] *)
Fixpoint list_eqb (a b : list str) : bool :=
  match a, b with
  | [], [] => true
  | x :: a', y :: b' => Py.eqb x y && list_eqb a' b'
  | _, _ => false
  end.

(** [is_prewarmed_argv(argv)] for a list [argv]; [kitty_exe] is what
    [kitty_exe()] returns. *)
Definition is_prewarmed_argv (kitty_exe : str) (argv : list str) : bool :=
  if negb (list_eqb (Py.slice_to argv 2) [kitty_exe; lit "+runpy"]) then false
  else
    (Py.len argv >? 2) &&
    match argv !! 2%nat with
    | Some a => Py.startswith (lit "from kitty.prewarm import main; main(") a
    | None => false
    end.

(** The dictionary that [prewarm_config] serialises. *)
Definition config_value (opts : options) : json :=
  JDict [(lit "paths", JList (JStr <$> config_paths opts));
         (lit "overrides", JList (JStr <$> config_overrides opts))].

(** The command line that [ensure_worker] hands to [subprocess.Popen]. *)
Definition worker_argv (kitty_exe : str) (self : t) : list str :=
  [kitty_exe; lit "+runpy";
   lit "from kitty.prewarm import main; main(" ++
   Py.str_of_int (in_worker_fd self) ++ lit ")"].

(** [take_from_worker_fd()] *)
Definition take_from_worker_fd (self : t) : Z * t :=
  (from_worker_fd self,
   mk (-1) (in_worker_fd self) (children self) (write_to_process_fd self)
      (read_from_process_fd self) (poll self) (sys self)).

(** What [__del__] does, in program order. *)
Inductive del_step : Type :=
| DelClose (fd : Z)            (* [os.close(fd)], or [close()] of the file on [fd] *)
| DelWait                      (* [self.process.wait(timeout=1.0)] *)
| DelKill.                     (* [self.process.kill()] *)

(** [__del__()].  [from_worker] is the descriptor of the file
    [self.from_worker], an attribute that exists only after
    [__init__(create_file_to_read_from_worker=True)]; [wait_expires] tells
    whether [wait] raises [subprocess.TimeoutExpired].  The pipes of
    [self.process] are [write_to_process_fd] and [read_from_process_fd]. *)
Definition del (from_worker : option Z) (wait_expires : bool) (self : t)
  : list del_step * t :=
  let '(a1, self) :=
    if from_worker_fd self >? -1
    then ([DelClose (from_worker_fd self)], (take_from_worker_fd self).2)
    else ([], self) in
  let a2 := match from_worker with
            | Some fd => [DelClose fd]
            | None => []
            end in
  let a3 :=
    if worker_started self then
      [DelClose (write_to_process_fd self); DelClose (read_from_process_fd self);
       DelWait] ++ (if wait_expires then [DelKill] else [])
    else [] in
  (a1 ++ a2 ++ a3, self).

End Methods.

End PrewarmProcess.

(** ** The forked child: [fork] after [os.fork()] returned 0, and [child_main] *)

(** What the child process does, in program order. *)
Inductive action : Type :=
| SetInheritable (fd : Z) (inheritable : bool)
| Setsid
| FlushStd
| EstablishControllingTty (tty_name : json)
| Write (fd : Z) (data : bytes)
| ShmAttach (name : str)
| ShmUnlink (name : str)
| SetStdin (stream : ReadWrapper.MemoryViewReadWrapperBytes)
| ResetStdin
| Chdir (cwd : str)
| EnvironClear
| EnvironUpdate (env : list (str * json))
| SetArgv (argv : json)
| PollRegister (fd : Z) (eventmask : Z)
| PollReturned (events : list (Z * Z))
| Close (fd : Z)
| MainEntryPoint.

(** What the operating system and the dispatcher answer to the child.  A
    [poll.poll()] without timeout returns only once a registered descriptor
    has an event, so its answer has a first element. *)
Record child_world := {
  cw_tty : option exc;             (* the exception [establish_controlling_tty] raises, if any *)
  cw_region : option bytes;        (* the region, if it can be mapped again *)
  cw_poll : (Z * Z) * list (Z * Z);(* the answer of [poll.poll()] on the readiness descriptor *)
  cw_main : option exc             (* the exception [main_entry_point()] raises, if any *)
}.

(** [child_main(cmd, ready_fd)]: what it does, and the exception that ends
    it (it never returns). *)
Definition child_main (w : child_world) (cmd : json) (ready_fd : Z)
  : list action * exc :=
  match Json.get cmd (lit "cwd") JNull with
  | Raise e => ([], e)
  | Ok cwd =>
      match (if Json.truthy cwd then
               match cwd with
               | JStr d => Ok [Chdir d]
               | _ => Raise (TypeError (lit "chdir: path should be string"))
               end
             else Ok []) with
      | Raise e => ([], e)
      | Ok a1 =>
          match Json.get cmd (lit "env") JNull with
          | Raise e => (a1, e)
          | Ok env =>
              match (match env with
                     | JNull => Ok []
                     | JDict d => Ok [EnvironClear; EnvironUpdate d]
                     | _ => Raise (TypeError (lit "environ.update: not a mapping"))
                     end) with
              | Raise e => (a1 ++ [EnvironClear], e)
              | Ok a2 =>
                  match Json.get cmd (lit "argv") JNull with
                  | Raise e => (a1 ++ a2, e)
                  | Ok argv =>
                      match (if Json.truthy argv then
                               match argv with
                               | JNum _ | JBool _ =>
                                   Raise (TypeError (lit "object is not iterable"))
                               | _ => Ok [SetArgv argv]
                               end
                             else Ok []) with
                      | Raise e => (a1 ++ a2, e)
                      | Ok a3 =>
                          (a1 ++ a2 ++ a3 ++
                           [PollRegister ready_fd
                              (Z.lor (Z.lor POLLIN POLLERR) POLLHUP);
                            PollReturned ((cw_poll w).1 :: (cw_poll w).2);
                            Close ready_fd;
                            MainEntryPoint],
                           match cw_main w with
                           | Some e => e
                           | None => SystemExit 0 []
                           end)
                      end
                  end
              end
          end
      end
  end.

(** The rest of [fork] in the child, from [os.set_inheritable(w, False)]
    on; [rq] is what [fork] computed before [os.fork()] and [wr] the write
    end of the death pipe. *)
Definition fork_in_child (w : child_world) (rq : request) (wr : Z)
  (shm_address : str) (ready_fd : Z) : list action * exc :=
  let a0 := [SetInheritable wr false; Setsid] in
  match Json.get (rq_cmd rq) (lit "tty_name") JNull with
  | Raise e => (a0, e)
  | Ok tty_name =>
      match (if Json.truthy tty_name then
               match cw_tty w with
               | Some e => Raise e
               | None => Ok [FlushStd; EstablishControllingTty tty_name]
               end
             else Ok []) with
      | Raise e => (a0 ++ [FlushStd], e)
      | Ok a1 =>
          let a := a0 ++ a1 ++ [Write wr (lit "1")] in
          if rq_unlink_on_exit rq then
            let '(b, e) := child_main w (rq_cmd rq) ready_fd in (a ++ b, e)
          else
            match cw_region w with
            | None => (a, FileNotFoundError shm_address)
            | Some region =>
                let a := a ++ [ShmAttach shm_address] in
                match (match rq_sz rq with
                       | JNum n => Ok n
                       | JBool b => Ok (if b then 1 else 0)
                       | _ => Raise (TypeError (lit "unsupported operand type(s) for +"))
                       end) with
                | Raise e => (a ++ [ShmUnlink shm_address], e)
                | Ok sz =>
                    let stdin_data :=
                      Py.slice region (rq_pos rq) (rq_pos rq + sz) in
                    let a :=
                      match stdin_data with
                      | [] => a
                      | _ => a ++ [SetStdin (ReadWrapper.init stdin_data)]
                      end in
                    let '(b, e) := child_main w (rq_cmd rq) ready_fd in
                    (a ++ b ++ [ResetStdin; ShmUnlink shm_address], e)
                end
            end
      end
  end.

(** The four steps that end [child_main]: the readiness descriptor is
    registered for [POLLIN | POLLERR | POLLHUP], [poll()] returns (with at
    least one event), the descriptor is closed, the dispatcher is entered. *)
Definition gate (w : child_world) (ready_fd : Z) : list action :=
  [PollRegister ready_fd (Z.lor (Z.lor POLLIN POLLERR) POLLHUP);
   PollReturned ((cw_poll w).1 :: (cw_poll w).2);
   Close ready_fd;
   MainEntryPoint].

(** The dispatcher is not invoked in [l]. *)
Definition quiet (l : list action) : Prop := ~ In MainEntryPoint l.

(** ** A codec for ASCII text *)

(** [json.dumps] with its default separators and [ensure_ascii], and
    [json.loads], for values whose strings are ASCII and whose numbers are
    integers.  The properties below hold for every codec; this one is used to
    evaluate the model on concrete requests. *)
Module AsciiJson.

Definition hex_digit (n : Z) : byte :=
  match n with
  | 10 => "a" | 11 => "b" | 12 => "c" | 13 => "d" | 14 => "e" | 15 => "f"
  | _ => Py.digit_byte n
  end%byte.

Definition code (b : byte) : Z := Z.of_N (Byte.to_N b).

(** One character of a string literal. *)
Definition escape (b : byte) : str :=
  match b with
  | "034"%byte => "\"%byte :: ["034"%byte]
  | "\"%byte => lit "\\"
  | "010"%byte => lit "\n"
  | "013"%byte => lit "\r"
  | "009"%byte => lit "\t"
  | "008"%byte => lit "\b"
  | "012"%byte => lit "\f"
  | _ =>
      if (32 <=? code b) && (code b <? 127) then [b]
      else lit "\u00" ++ [hex_digit (code b / 16); hex_digit (code b mod 16)]
  end.

Definition quote (s : str) : str :=
  ["034"%byte] ++ concat (escape <$> s) ++ ["034"%byte].

Fixpoint join (sep : str) (l : list str) : str :=
  match l with
  | [] => []
  | [x] => x
  | x :: r => x ++ sep ++ join sep r
  end.

Fixpoint dumps (j : json) : str :=
  match j with
  | JNull => lit "null"
  | JBool true => lit "true"
  | JBool false => lit "false"
  | JNum n => Py.str_of_int n
  | JStr s => quote s
  | JList l => lit "[" ++ join (lit ", ") (map dumps l) ++ lit "]"
  | JDict d =>
      lit "{" ++
      join (lit ", ")
        (map (fun kv => let '(k, v) := kv in quote k ++ lit ": " ++ dumps v) d)
      ++ lit "}"
  end.

Fixpoint skip_ws (s : bytes) : bytes :=
  match s with
  | (" " | "009" | "010" | "013")%byte :: r => skip_ws r
  | _ => s
  end.

Definition hex_val (b : byte) : option Z :=
  match b with
  | "a" | "A" => Some 10 | "b" | "B" => Some 11 | "c" | "C" => Some 12
  | "d" | "D" => Some 13 | "e" | "E" => Some 14 | "f" | "F" => Some 15
  | _ => Py.digit_val b
  end%byte.

Definition is_byte (c x : byte) : bool := Byte.eqb x c.

Definition unescape (e : byte) : option byte :=
  match e with
  | "034" => Some "034" | "\" => Some "\" | "/" => Some "/"
  | "n" => Some "010" | "r" => Some "013" | "t" => Some "009"
  | "b" => Some "008" | "f" => Some "012"
  | _ => None
  end%byte.

(** The characters of a string literal after its opening quote. *)
Fixpoint parse_string (s : bytes) : option (str * bytes) :=
  match s with
  | [] => None
  | x :: r =>
      if is_byte "034" x then Some ([], r)
      else if is_byte "\" x then
        match r with
        | [] => None
        | e :: r1 =>
            if is_byte "u" e then
              match r1 with
              | a :: b :: c :: d :: r2 =>
                  match hex_val a, hex_val b, hex_val c, hex_val d with
                  | Some 0, Some 0, Some h, Some l =>
                      y ← Byte.of_N (Z.to_N (16 * h + l));
                      '(t, r') ← parse_string r2; Some (y :: t, r')
                  | _, _, _, _ => None
                  end
              | _ => None
              end
            else
              y ← unescape e;
              '(t, r') ← parse_string r1; Some (y :: t, r')
        end
      else if code x <? 32 then None
      else '(t, r') ← parse_string r; Some (x :: t, r')
  end.

(** The digits of a number. *)
Fixpoint parse_digits (acc : Z) (s : bytes) : Z * bytes :=
  match s with
  | x :: r =>
      match Py.digit_val x with
      | Some d => parse_digits (10 * acc + d) r
      | None => (acc, s)
      end
  | [] => (acc, s)
  end.

Definition parse_number (s : bytes) : option (json * bytes) :=
  match s with
  | x :: _ =>
      match Py.digit_val x with
      | Some _ => let '(n, r) := parse_digits 0 s in Some (JNum n, r)
      | None => None
      end
  | [] => None
  end.

(** The elements of an array after the first, up to the closing bracket;
    [value] parses one value. *)
Fixpoint parse_elements (value : bytes -> option (json * bytes)) (n : nat)
  (s : bytes) : option (list json * bytes) :=
  match n with
  | O => None
  | S n =>
      match skip_ws s with
      | [] => None
      | x :: r =>
          if is_byte "]" x then Some ([], r)
          else if is_byte "," x then
            '(v, r) ← value r;
            '(vs, r) ← parse_elements value n r;
            Some (v :: vs, r)
          else None
      end
  end.

Definition parse_member (value : bytes -> option (json * bytes)) (s : bytes)
  : option (str * json * bytes) :=
  match skip_ws s with
  | [] => None
  | x :: r =>
      if is_byte "034" x then
        '(k, r) ← parse_string r;
        match skip_ws r with
        | [] => None
        | y :: r => if is_byte ":" y then '(v, r) ← value r; Some (k, v, r) else None
        end
      else None
  end.

Fixpoint parse_members (value : bytes -> option (json * bytes)) (n : nat)
  (s : bytes) : option (list (str * json) * bytes) :=
  match n with
  | O => None
  | S n =>
      match skip_ws s with
      | [] => None
      | x :: r =>
          if is_byte "}" x then Some ([], r)
          else if is_byte "," x then
            '(k, v, r) ← parse_member value r;
            '(kvs, r) ← parse_members value n r;
            Some ((k, v) :: kvs, r)
          else None
      end
  end.

(** A later value of a key replaces an earlier one, as in a Python
    [dict]. *)
Definition dict_of (kvs : list (str * json)) : list (str * json) :=
  foldl (fun d kv => Json.setitem kv.1 kv.2 d) [] kvs.

Definition first_is (c : byte) (s : bytes) : bool :=
  match s with
  | x :: _ => is_byte c x
  | [] => false
  end.

Fixpoint parse_value (fuel : nat) (s : bytes) : option (json * bytes) :=
  match fuel with
  | O => None
  | S fuel =>
      let s := skip_ws s in
      if Py.startswith (lit "null") s then Some (JNull, drop 4 s)
      else if Py.startswith (lit "true") s then Some (JBool true, drop 4 s)
      else if Py.startswith (lit "false") s then Some (JBool false, drop 5 s)
      else if first_is "034" s then
        '(t, r) ← parse_string (drop 1 s); Some (JStr t, r)
      else if first_is "-" s then
        match parse_number (drop 1 s) with
        | Some (JNum n, r) => Some (JNum (- n), r)
        | _ => None
        end
      else if first_is "[" s then
        if first_is "]" (skip_ws (drop 1 s))
        then Some (JList [], drop 1 (skip_ws (drop 1 s)))
        else
          '(v, r) ← parse_value fuel (drop 1 s);
          '(vs, r) ← parse_elements (parse_value fuel) (S (length r)) r;
          Some (JList (v :: vs), r)
      else if first_is "{" s then
        if first_is "}" (skip_ws (drop 1 s))
        then Some (JDict [], drop 1 (skip_ws (drop 1 s)))
        else
          '(k, v, r) ← parse_member (parse_value fuel) (drop 1 s);
          '(kvs, r) ← parse_members (parse_value fuel) (S (length r)) r;
          Some (JDict (dict_of ((k, v) :: kvs)), r)
      else parse_number s
  end.

Definition loads (s : bytes) : option json :=
  match parse_value (S (length s)) s with
  | Some (v, r) => match skip_ws r with [] => Some v | _ => None end
  | None => None
  end.

Definition codec : JsonCodec := {| json_dumps := dumps; json_loads := loads |}.

End AsciiJson.

(** ** What the controller is told by a supervisor *)

Module Session.

Import Supervisor.

Definition inspect {A} (a : A) : {b : A | a = b} := exist _ a eq_refl.

Section Session.

Context {codec : JsonCodec}.
Variables (notify_child_death_fd stdin_fd stdout_fd : Z).
Variable os_fork : nat -> fork_world.

(** What handling a command appended to [output_buf]. *)
Definition emitted (s s' : state) : bytes :=
  drop (length (output_buf s)) (output_buf s').

(** The lines that [lines_loop] handles in [buf], in order, each with what
    handling it made the supervisor emit; the log ends where the loop ends,
    at the first line that raises or at the last complete line. *)
Equations? lines_log (buf : bytes) (s : state) : list (str * bytes)
  by wf (length buf) lt :=
  lines_log buf s with inspect (Py.find Py.NL buf >? -1) => {
    | exist _ true Hidx =>
        let idx := Py.find Py.NL buf in
        let line := Py.slice_to buf idx in
        let rest := Py.slice_from buf (idx + 1) in
        match handle_line os_fork line (set_input_buf rest s) with
        | Returns s' => (line, emitted s s') :: lines_log rest s'
        | Raises _ _ => []
        end
    | exist _ false Hidx => [] }.
Proof.
  subst rest idx. apply Z.gtb_lt in Hidx.
  assert (Py.find Py.NL buf < Py.len buf) as Hlt.
  { clear. unfold Py.len.
    induction buf as [|x b IH]; simpl; [lia|].
    destruct (Byte.eqb x Py.NL); [lia|].
    destruct (Z.ltb_spec (Py.find Py.NL b) 0); lia. }
  unfold Py.slice_from, Py.clamp_index, Py.len in *.
  rewrite length_drop.
  destruct (Z.ltb_spec (Py.find Py.NL buf + 1) 0); lia.
Qed.

(** The lines handled while one event of a poll is dispatched: those of
    [handle_input] when the event is on stdin and makes it read, none
    otherwise. *)
Definition dispatch_log (ev : io_event) (s : state) : list (str * bytes) :=
  if ev_fd ev =? stdin_fd then
    match check_event (ev_mask ev) [] with
    | Some _ => []
    | None =>
        if has (ev_mask ev) POLLIN then
          match ev_read ev with
          | [] => []
          | d => lines_log (input_buf s ++ d)
                   (did [SysRead stdin_fd DEFAULT_BUFFER_SIZE] s)
          end
        else []
    end
  else [].

(** The lines handled during the events of one poll, and during a run. *)
Fixpoint dispatch_all_log (evs : list io_event) (s : state)
  : list (str * bytes) :=
  match evs with
  | [] => []
  | ev :: rest =>
      dispatch_log ev s ++
      match dispatch notify_child_death_fd stdin_fd stdout_fd os_fork ev s with
      | Returns s' => dispatch_all_log rest s'
      | Raises _ _ => []
      end
  end.

Fixpoint run_log (ticks : list (list io_event)) (s : state)
  : list (str * bytes) :=
  match ticks with
  | [] => []
  | evs :: rest =>
      dispatch_all_log evs (arm notify_child_death_fd stdout_fd s) ++
      match tick notify_child_death_fd stdin_fd stdout_fd os_fork evs s with
      | Returns s' => run_log rest s'
      | Raises _ _ => []
      end
  end.

(** The command of a line, [cmd] in [handle_input]. *)
Definition command (line : str) : str := (Py.partition Py.COLON line).1.1.

(** The child that the reply loop of [PrewarmProcess.__call__] finds in
    the bytes [reply], if it finds one. *)
Definition child_in (reply : bytes) : option PrewarmProcess.Child :=
  match PrewarmProcess.reply_lines reply (PrewarmProcess.init (0, 0)) with
  | (PrewarmProcess.Forked c, _, _) => Some c
  | _ => None
  end.

(** The children announced in the replies to the [fork:] commands. *)
Definition announced (log : list (str * bytes)) : list PrewarmProcess.Child :=
  omap (fun lr => if Py.eqb (command lr.1) (lit "fork")
                  then child_in lr.2 else None) log.


(** The children announced in [log] carry the successive values of the
    counter from that of [s] on, and [o] ends with the counter advanced by
    their number. *)
Definition numbered (s : state) (log : list (str * bytes)) (o : outcome)
  : Prop :=
  (forall i c, announced log !! i = Some c ->
               PrewarmProcess.child_id c = child_id_counter s + Z.of_nat i) /\
  child_id_counter (final o)
  = child_id_counter s + Z.of_nat (length (announced log)).

(** The bytes written to the descriptor [fd] so far. *)
Definition written (fd : Z) (s : state) : bytes :=
  concat (omap (fun c => match c with
                         | SysWrite fd' d => if fd' =? fd then Some d else None
                         | _ => None
                         end) (sys s)).

(** The replies of the supervisor: those written to stdout, followed by
    those that wait in [output_buf]. *)
Definition replies (s : state) : bytes := written stdout_fd s ++ output_buf s.

(** No readiness descriptor of the state is stdout. *)
Definition ready_apart (s : state) : Prop :=
  forall id fd, child_ready_fds s !! id = Some fd -> fd <> stdout_fd.

(** From [s] the replies grow by what [log] records, and the readiness
    descriptors stay apart from stdout. *)
Definition delivers (s : state) (log : list (str * bytes)) (o : outcome)
  : Prop :=
  ready_apart s ->
  replies (final o) = replies s ++ concat (snd <$> log) /\
  (forall s', o = Returns s' -> ready_apart s').

(** The death notices of the supervisor: those written to the
    notification descriptor, followed by those that wait in
    [child_death_buf]. *)
Definition notices (s : state) : bytes :=
  written notify_child_death_fd s ++ child_death_buf s.

(** The pid whose death one event of a poll makes the supervisor record:
    that of the child of the death detector on which the event reports a
    hang-up, when [handle_child_death] returns. *)
Definition dispatch_deaths (ev : io_event) (s : state) : list Z :=
  if (ev_fd ev =? stdin_fd) || (ev_fd ev =? stdout_fd) ||
     (ev_fd ev =? notify_child_death_fd) then []
  else
    match child_death_fds s !! ev_fd ev with
    | Some dead_child_id =>
        if has (ev_mask ev) POLLHUP then
          match handle_child_death (ev_fd ev) dead_child_id s with
          | Returns _ => option_list (child_id_map s !! dead_child_id)
          | Raises _ _ => []
          end
        else []
    | None => []
    end.

(** The pids recorded during the events of one poll, and during a run. *)
Fixpoint dispatch_all_deaths (evs : list io_event) (s : state) : list Z :=
  match evs with
  | [] => []
  | ev :: rest =>
      dispatch_deaths ev s ++
      match dispatch notify_child_death_fd stdin_fd stdout_fd os_fork ev s with
      | Returns s' => dispatch_all_deaths rest s'
      | Raises _ _ => []
      end
  end.

Fixpoint run_deaths (ticks : list (list io_event)) (s : state) : list Z :=
  match ticks with
  | [] => []
  | evs :: rest =>
      dispatch_all_deaths evs (arm notify_child_death_fd stdout_fd s) ++
      match tick notify_child_death_fd stdin_fd stdout_fd os_fork evs s with
      | Returns s' => run_deaths rest s'
      | Raises _ _ => []
      end
  end.

(** The notice for one pid. *)
Definition notice (pid : Z) : bytes := Py.str_of_int pid ++ [Py.NL].

(** No readiness descriptor of the state is the notification descriptor. *)
Definition ready_off_notify (s : state) : Prop :=
  forall id fd, child_ready_fds s !! id = Some fd -> fd <> notify_child_death_fd.

(** From [s] the notices grow by those of [pids], and the readiness
    descriptors stay apart from the notification descriptor. *)
Definition notifies (s : state) (pids : list Z) (o : outcome) : Prop :=
  ready_off_notify s ->
  notices (final o) = notices s ++ concat (notice <$> pids) /\
  (forall s', o = Returns s' -> ready_off_notify s').

End Session.

End Session.

(** ** Concrete runs *)

(** The request of the first scenario of the specification, the worlds in
    which the supervisor serves it, and the events that feed the loops. *)
Module Scenario.

Import PrewarmProcess.

Definition tty_name : str := lit "/dev/pts/3".
Definition cwd : str := lit "/tmp".
Definition argv : list str := [lit "cmd"; lit "--flag"].
Definition env : list (str * str) := [(lit "X", lit "1")].
Definition shm_name : str := lit "shm0".

(** The region the controller fills for the request, without and with
    stdin bytes. *)
Definition region_of (stdin_data : option bytes) : bytes :=
  match fill_region shm_name
          (AsciiJson.dumps (request_of tty_name cwd argv env stdin_data))
          stdin_data with
  | Ok shm => SharedMemory.mmap shm
  | Raise _ => []
  end.

(** Every fork succeeds: the child gets the pid 4242. *)
Definition forks_succeed (_ : nat) : fork_world :=
  {| fw_ready_pipe := (5, 6); fw_region := Some (region_of None);
     fw_death_pipe := (7, 8); fw_fork := Some 4242%positive;
     fw_event := POLLIN |}.

(** The region is gone when the supervisor looks for it. *)
Definition region_is_missing (_ : nat) : fork_world :=
  {| fw_ready_pipe := (5, 6); fw_region := None;
     fw_death_pipe := (7, 8); fw_fork := Some 4242%positive;
     fw_event := POLLIN |}.

(** [poll()] reports that stdin is readable, and [os.read] returns [d]. *)
Definition stdin_readable (d : bytes) : Supervisor.io_event :=
  {| Supervisor.ev_fd := 0; Supervisor.ev_mask := POLLIN;
     Supervisor.ev_read := d; Supervisor.ev_wrote := 0 |}.

(** [poll()] reports a hang-up on the descriptor [fd]. *)
Definition hung_up (fd : Z) : Supervisor.io_event :=
  {| Supervisor.ev_fd := fd; Supervisor.ev_mask := POLLHUP;
     Supervisor.ev_read := []; Supervisor.ev_wrote := 0 |}.

(** The supervisor of a controller: stdin is 0, stdout is 1, and the
    death notifications go to descriptor 3. *)
Definition run (os_fork : nat -> fork_world)
  (ticks : list (list Supervisor.io_event)) : Supervisor.outcome :=
  Supervisor.run (codec := AsciiJson.codec) 3 0 1 os_fork ticks
    (Supervisor.start 0 None).

(** A client whose worker has been started, with the pipes 10 (to the
    worker) and 11 (from it). *)
Definition client : t := ensure_worker (10, 11) (init (3, 4)).

(** The child that the client was told about. *)
Definition client_with_child : t := (add_child 0 4242 client).2.

Definition opts : options :=
  {| config_paths := [lit "/a"]; config_overrides := [] |}.

(** The region as the controller holds it during [__call__]. *)
Definition shm : SharedMemory.t :=
  SharedMemory.attach shm_name (region_of None) true.



(** A child whose poll on the readiness descriptor reports [POLLIN]. *)
Definition released (region : option bytes) : child_world :=
  {| cw_tty := None; cw_region := region; cw_poll := ((5, POLLIN), []);
     cw_main := None |}.

End Scenario.

(** * Properties *)

(** ** Facts about the Python built-ins *)

Section PyFacts.

Lemma len_nonneg {A} (l : list A) : 0 <= Py.len l.
Proof. unfold Py.len. lia. Qed.

Lemma len_app {A} (a b : list A) : Py.len (a ++ b) = Py.len a + Py.len b.
Proof. unfold Py.len. rewrite length_app. lia. Qed.

Lemma len_cons {A} (x : A) (l : list A) : Py.len (x :: l) = 1 + Py.len l.
Proof. unfold Py.len. simpl. lia. Qed.

Lemma len_nil {A} : Py.len (@nil A) = 0.
Proof. reflexivity. Qed.

Lemma clamp_index_in_range n i : 0 <= i <= n -> Py.clamp_index n i = i.
Proof.
  intros H. unfold Py.clamp_index.
  destruct (Z.ltb_spec i 0); lia.
Qed.

Lemma slice_in_range {A} (l : list A) (a b : Z) :
  0 <= a <= b -> b <= Py.len l ->
  Py.slice l a b = take (Z.to_nat (b - a)) (drop (Z.to_nat a) l).
Proof.
  intros Ha Hb. unfold Py.slice.
  rewrite !clamp_index_in_range by lia. reflexivity.
Qed.

Lemma slice_to_app {A} (a b : list A) : Py.slice_to (a ++ b) (Py.len a) = a.
Proof.
  unfold Py.slice_to.
  rewrite clamp_index_in_range
    by (rewrite len_app; pose proof (len_nonneg a); pose proof (len_nonneg b); lia).
  unfold Py.len. rewrite Nat2Z.id. apply take_app_length.
Qed.

Lemma slice_from_app {A} (a b : list A) :
  Py.slice_from (a ++ b) (Py.len a) = b.
Proof.
  unfold Py.slice_from.
  rewrite clamp_index_in_range
    by (rewrite len_app; pose proof (len_nonneg a); pose proof (len_nonneg b); lia).
  unfold Py.len. rewrite Nat2Z.id. apply drop_app_length.
Qed.

Lemma slice_from_app_cons {A} (a : list A) (x : A) (b : list A) :
  Py.slice_from (a ++ x :: b) (Py.len a + 1) = b.
Proof.
  replace (a ++ x :: b) with ((a ++ [x]) ++ b) by (rewrite <- app_assoc; reflexivity).
  replace (Py.len a + 1) with (Py.len (a ++ [x]))
    by (rewrite len_app, len_cons, len_nil; lia).
  apply slice_from_app.
Qed.

Lemma slice_to_all {A} (l : list A) (n : Z) : Py.len l <= n -> Py.slice_to l n = l.
Proof.
  intros H. unfold Py.slice_to, Py.clamp_index.
  pose proof (len_nonneg l).
  destruct (Z.ltb_spec n 0); [lia|].
  rewrite Z.min_r by lia. unfold Py.len. rewrite Nat2Z.id. apply firstn_all.
Qed.

Lemma slice_from_all {A} (l : list A) (n : Z) :
  Py.len l <= n -> Py.slice_from l n = [].
Proof.
  intros H. unfold Py.slice_from, Py.clamp_index.
  pose proof (len_nonneg l).
  destruct (Z.ltb_spec n 0); [lia|].
  rewrite Z.min_r by lia. unfold Py.len. rewrite Nat2Z.id. apply drop_all.
Qed.

Lemma find_range c b : -1 <= Py.find c b < Py.len b.
Proof.
  unfold Py.len. induction b as [|x r IH]; simpl; [lia|].
  destruct (Byte.eqb x c); [lia|].
  destruct (Z.ltb_spec (Py.find c r) 0); lia.
Qed.

Lemma free_of_nil c : Py.free_of c [].
Proof. reflexivity. Qed.

Lemma free_of_cons c x s :
  Py.free_of c (x :: s) <-> Byte.eqb x c = false /\ Py.free_of c s.
Proof.
  unfold Py.free_of. simpl. pose proof (find_range c s).
  destruct (Byte.eqb x c); [split; [lia | intros [? _]; discriminate]|].
  destruct (Z.ltb_spec (Py.find c s) 0); split; intros; try split; try lia;
    try reflexivity.
Qed.

Lemma free_of_app c a b : Py.free_of c (a ++ b) <-> Py.free_of c a /\ Py.free_of c b.
Proof.
  induction a as [|x a IH]; simpl.
  - split; [intros; split; [apply free_of_nil | assumption] | tauto].
  - rewrite !free_of_cons, IH. tauto.
Qed.

Lemma find_app c a b : Py.free_of c a -> Py.find c (a ++ c :: b) = Py.len a.
Proof.
  induction a as [|x a IH]; intros Hf; simpl.
  - rewrite (byte_dec_lb eq_refl). reflexivity.
  - apply free_of_cons in Hf as [Hx Hf]. rewrite Hx, (IH Hf), len_cons.
    pose proof (len_nonneg a).
    destruct (Z.ltb_spec (Py.len a) 0); lia.
Qed.

Lemma partition_app c a b :
  Py.free_of c a -> Py.partition c (a ++ c :: b) = (a, [c], b).
Proof.
  intros Hf. unfold Py.partition. rewrite (find_app _ _ _ Hf).
  pose proof (len_nonneg a).
  destruct (Z.ltb_spec (Py.len a) 0); [lia|].
  rewrite slice_to_app, slice_from_app_cons. reflexivity.
Qed.

Lemma partition_free c a : Py.free_of c a -> Py.partition c a = (a, [], []).
Proof. intros Hf. unfold Py.partition. rewrite Hf. reflexivity. Qed.

Lemma eqb_eq a b : Py.eqb a b = true <-> a = b.
Proof.
  revert b. induction a as [|x a IH]; intros [|y b]; simpl;
    try (split; [discriminate | congruence]); [tauto|].
  rewrite andb_true_iff, IH. split.
  - intros [H ->]. apply byte_dec_bl in H. congruence.
  - intros [= -> ->]. split; [apply byte_dec_lb|]; reflexivity.
Qed.

Lemma eqb_refl a : Py.eqb a a = true.
Proof. apply eqb_eq. reflexivity. Qed.

Lemma replace_free a b s : a <> b -> Py.free_of a (Py.replace a b s).
Proof.
  intros Hab. induction s as [|x s IH]; simpl; [apply free_of_nil|].
  apply free_of_cons. split; [|exact IH].
  destruct (Byte.eqb x a) eqn:E.
  - destruct (Byte.eqb b a) eqn:E'; [|reflexivity].
    apply byte_dec_bl in E'. congruence.
  - exact E.
Qed.

Lemma str_of_uint_chars d : Forall (fun b => Py.decimal_char b = true) (Py.str_of_uint d).
Proof. induction d; simpl; constructor; auto. Qed.

Lemma str_of_int_chars n : Forall (fun b => Py.decimal_char b = true) (Py.str_of_int n).
Proof.
  unfold Py.str_of_int. destruct (Z.to_int n); [|constructor; [reflexivity|]];
    apply str_of_uint_chars.
Qed.

Lemma of_uint_digit (d : Decimal.uint) :
  match d with
  | Decimal.Nil => True
  | Decimal.D0 l => Z.of_uint d = 0 * 10 ^ Z.of_N (Unsigned.usize l) + Z.of_uint l
  | Decimal.D1 l => Z.of_uint d = 1 * 10 ^ Z.of_N (Unsigned.usize l) + Z.of_uint l
  | Decimal.D2 l => Z.of_uint d = 2 * 10 ^ Z.of_N (Unsigned.usize l) + Z.of_uint l
  | Decimal.D3 l => Z.of_uint d = 3 * 10 ^ Z.of_N (Unsigned.usize l) + Z.of_uint l
  | Decimal.D4 l => Z.of_uint d = 4 * 10 ^ Z.of_N (Unsigned.usize l) + Z.of_uint l
  | Decimal.D5 l => Z.of_uint d = 5 * 10 ^ Z.of_N (Unsigned.usize l) + Z.of_uint l
  | Decimal.D6 l => Z.of_uint d = 6 * 10 ^ Z.of_N (Unsigned.usize l) + Z.of_uint l
  | Decimal.D7 l => Z.of_uint d = 7 * 10 ^ Z.of_N (Unsigned.usize l) + Z.of_uint l
  | Decimal.D8 l => Z.of_uint d = 8 * 10 ^ Z.of_N (Unsigned.usize l) + Z.of_uint l
  | Decimal.D9 l => Z.of_uint d = 9 * 10 ^ Z.of_N (Unsigned.usize l) + Z.of_uint l
  end.
Proof.
  destruct d; try exact I; unfold Z.of_uint; simpl Pos.of_uint;
    try (rewrite Unsigned.of_uint_acc_rev, <- Unsigned.of_uint_alt;
         rewrite N2Z.inj_add, N2Z.inj_mul, N2Z.inj_pow; simpl Z.of_N; lia).
  lia.
Qed.

Lemma digits_str_of_uint (d : Decimal.uint) (acc : Z) :
  Py.digits acc true (Py.str_of_uint d)
  = Some (acc * 10 ^ Z.of_N (Unsigned.usize d) + Z.of_uint d).
Proof.
  revert acc. induction d; intros acc;
    try (pose proof (of_uint_digit d) as Hd);
    [ simpl; f_equal; unfold Z.of_uint; simpl; lia | .. ];
    match goal with
    | |- context [Py.str_of_uint (?D d)] =>
        pose proof (of_uint_digit (D d)) as H; cbv beta iota in H;
        rewrite H; cbn [Py.str_of_uint Py.digits];
        match goal with
        | |- context [Py.digit_val (Py.digit_byte ?k)] =>
            change (Py.digit_val (Py.digit_byte k)) with (Some k)
        end;
        cbv iota; rewrite IHd; f_equal;
        cbn [Unsigned.usize]; rewrite N2Z.inj_succ, Z.pow_succ_r by lia; lia
    end.
Qed.

Lemma digits_of_uint (d : Decimal.uint) :
  d <> Decimal.Nil -> Py.digits 0 false (Py.str_of_uint d) = Some (Z.of_uint d).
Proof.
  intros Hd. destruct d; [congruence | ..];
    cbn [Py.str_of_uint Py.digits];
    match goal with
    | |- context [Py.digit_val (Py.digit_byte ?k)] =>
        change (Py.digit_val (Py.digit_byte k)) with (Some k)
    end;
    cbv iota; rewrite digits_str_of_uint;
    match goal with
    | |- context [Z.of_uint (?D d)] =>
        pose proof (of_uint_digit (D d)) as H; cbv beta iota in H; rewrite H
    end; f_equal; lia.
Qed.

Lemma decimal_char_not_space b : Py.decimal_char b = true -> Py.is_space b = false.
Proof. destruct b; cbv; congruence. Qed.

Lemma lstrip_id s : Forall (fun b => Py.is_space b = false) s -> Py.lstrip s = s.
Proof. intros H. destruct H as [|x s Hx _]; simpl; [|rewrite Hx]; reflexivity. Qed.

Lemma strip_id s : Forall (fun b => Py.is_space b = false) s -> Py.strip s = s.
Proof.
  intros H. unfold Py.strip. rewrite (lstrip_id s H), lstrip_id.
  - apply rev_involutive.
  - apply Forall_rev. exact H.
Qed.

Lemma int_str_of_int (n : Z) : Py.int (Py.str_of_int n) = Some n.
Proof.
  unfold Py.int. rewrite strip_id.
  2:{ eapply Forall_impl; [apply str_of_int_chars|]. apply decimal_char_not_space. }
  rewrite <- (DecimalZ.of_to n) at 2.
  unfold Py.str_of_int.
  destruct n as [|p|p]; simpl Z.to_int; cbv iota; [reflexivity | |].
  - pose proof (Unsigned.to_uint_nonnil p) as Hn.
    pose proof (digits_of_uint _ Hn) as Hd.
    destruct (Pos.to_uint p) eqn:E; [congruence | ..]; exact Hd.
  - pose proof (Unsigned.to_uint_nonnil p) as Hn.
    change (Byte.eqb "-" "-") with true. cbv iota.
    rewrite (digits_of_uint _ Hn). reflexivity.
Qed.

Lemma decimal_char_not c b :
  Py.decimal_char c = false -> Py.decimal_char b = true -> Byte.eqb b c = false.
Proof.
  intros Hc Hb. destruct (Byte.eqb b c) eqn:E; [|reflexivity].
  apply byte_dec_bl in E. congruence.
Qed.

Lemma free_of_Forall c s :
  Forall (fun b => Byte.eqb b c = false) s -> Py.free_of c s.
Proof.
  induction 1 as [|x s Hx _ IH]; [apply free_of_nil|].
  apply free_of_cons. split; assumption.
Qed.

(** [str(n)] contains no separator of the line protocol. *)
Lemma str_of_int_free c n : Py.decimal_char c = false -> Py.free_of c (Py.str_of_int n).
Proof.
  intros Hc. apply free_of_Forall.
  eapply Forall_impl; [apply str_of_int_chars|].
  intros b. apply decimal_char_not. exact Hc.
Qed.

Lemma split_free c s : Py.free_of c s -> Py.split c s = [s].
Proof.
  induction s as [|x s IH]; intros Hf; [reflexivity|].
  apply free_of_cons in Hf as [Hx Hf]. simpl. rewrite Hx, (IH Hf). reflexivity.
Qed.

Lemma split_app c a b :
  Py.free_of c a -> Py.split c (a ++ c :: b) = a :: Py.split c b.
Proof.
  induction a as [|x a IH]; intros Hf; simpl.
  - rewrite (byte_dec_lb eq_refl). reflexivity.
  - apply free_of_cons in Hf as [Hx Hf]. rewrite Hx, (IH Hf). reflexivity.
Qed.

Lemma split1_app c a b :
  Py.free_of c a -> Py.split1 c (a ++ c :: b) = [a; b].
Proof.
  intros Hf. unfold Py.split1. rewrite (find_app _ _ _ Hf).
  pose proof (len_nonneg a).
  destruct (Z.ltb_spec (Py.len a) 0); [lia|].
  rewrite slice_to_app, slice_from_app_cons. reflexivity.
Qed.

Lemma startswith_app p s : Py.startswith p (p ++ s) = true.
Proof.
  induction p as [|x p IH]; simpl; [reflexivity|].
  rewrite (byte_dec_lb eq_refl). exact IH.
Qed.

End PyFacts.

(** ** The read-only stream *)

Section ReadWrapperFacts.

Import ReadWrapper.

(** What holds of a wrapper however it has been read: the memory view is
    untouched, the position is within it, and the reads so far returned
    what lies before the position. *)
Lemma reads_invariant (m : bytes) (sizes : list (option Z)) (s0 : MemoryViewReadWrapperBytes) :
  mw s0 = m -> 0 <= pos s0 <= Py.len m ->
  let '(rs, s) := reads s0 sizes in
  mw s = m /\ pos s0 <= pos s <= Py.len m /\
  take (Z.to_nat (pos s0)) m ++ concat rs = take (Z.to_nat (pos s)) m.
Proof.
  revert s0. induction sizes as [|sz sizes IH]; intros s0 Hm Hp; simpl.
  - rewrite app_nil_r. repeat split; try assumption; lia.
  - destruct (read s0 sz) as [d s1] eqn:Hr.
    assert (mw s1 = m /\ pos s0 <= pos s1 <= Py.len m /\
            d = take (Z.to_nat (pos s1 - pos s0)) (drop (Z.to_nat (pos s0)) m))
      as (Hm1 & Hp1 & Hd).
    { unfold read in Hr. rewrite Hm in Hr.
      set (size := match sz with
                   | Some n => if n <? 0 then Z.max 0 (Py.len m - pos s0) else n
                   | None => Z.max 0 (Py.len m - pos s0)
                   end) in *.
      assert (0 <= size) as Hsize.
      { subst size. destruct sz as [n|]; [destruct (Z.ltb_spec n 0)|]; lia. }
      simpl in Hr.
      destruct (Z.leb_spec (Z.min (Py.len m) (pos s0 + size)) (pos s0)) as [Hle|Hgt];
        injection Hr as <- <-; simpl.
      - repeat split; try lia.
        replace (Z.min (Py.len m) (pos s0 + size) - pos s0) with 0 by lia.
        reflexivity.
      - repeat split; try lia.
        apply slice_in_range; lia. }
    specialize (IH s1 Hm1 ltac:(lia)).
    destruct (reads s1 sizes) as [ds s2]. destruct IH as (Hm2 & Hp2 & Hc).
    repeat split; try assumption; try lia.
    simpl. rewrite app_assoc, <- Hc. f_equal.
    rewrite Hd.
    replace (Z.to_nat (pos s1)) with (Z.to_nat (pos s0) + Z.to_nat (pos s1 - pos s0))%nat by lia.
    apply take_take_drop.
Qed.

End ReadWrapperFacts.

Section ReadWrapperStream.

Import ReadWrapper.

(** C10, as amended.  Let a fresh wrapper over the memory view [m] have
    been read any number of times, and let it then be read with [size].
    A [size] of [None] or below zero returns all the bytes that remain;
    any other [size] returns exactly [min(size, len(m) - pos)] bytes, taken
    in order from the current position; the position does not decrease
    and never exceeds [len(m)]; a read at the end of the stream returns the
    empty byte string; and if this read returns the empty byte string and
    its [size] is not 0, the results of all the reads, concatenated, are
    [bytes(m)]. *)
Theorem read_wrapper_is_a_stream (m : bytes) (sizes : list (option Z))
  (size : option Z) :
  let '(rs, s) := reads (init m) sizes in
  let '(d, s') := read s size in
  (unbounded size = true -> d = drop (Z.to_nat (pos s)) m) /\
  (forall n, size = Some n -> 0 <= n ->
     d = take (Z.to_nat (Z.min n (Py.len m - pos s))) (drop (Z.to_nat (pos s)) m) /\
     Py.len d = Z.min n (Py.len m - pos s)) /\
  (pos s <= pos s' <= Py.len m) /\
  (pos s = Py.len m -> d = []) /\
  (d = [] -> size <> Some 0 -> concat (rs ++ [d]) = m).
Proof.
  pose proof (reads_invariant m sizes (init m) eq_refl
                ltac:(simpl; pose proof (len_nonneg m); lia)) as Hinv.
  destruct (reads (init m) sizes) as [rs s]. destruct Hinv as (Hm & Hp & Hc).
  simpl in Hc, Hp.
  destruct (read s size) as [d s'] eqn:Hr.
  unfold read in Hr. rewrite Hm in Hr.
  set (sz := match size with
             | Some n => if n <? 0 then Z.max 0 (Py.len m - pos s) else n
             | None => Z.max 0 (Py.len m - pos s)
             end) in *.
  assert (0 <= sz) as Hsz.
  { subst sz. destruct size as [n|]; [destruct (Z.ltb_spec n 0)|]; lia. }
  assert (d = take (Z.to_nat (pos s' - pos s)) (drop (Z.to_nat (pos s)) m) /\
          pos s' = Z.min (Py.len m) (pos s + sz)) as [Hd Hp'].
  { simpl in Hr.
    destruct (Z.leb_spec (Z.min (Py.len m) (pos s + sz)) (pos s));
      injection Hr as <- <-; simpl; split; try reflexivity.
    - replace (Z.min (Py.len m) (pos s + sz) - pos s) with 0 by lia. reflexivity.
    - apply slice_in_range; lia. }
  assert (Py.len d = pos s' - pos s) as Hlen.
  { rewrite Hd. unfold Py.len. rewrite length_take, length_drop.
    unfold Py.len in *. lia. }
  repeat split.
  - intros Hu. rewrite Hd.
    assert (sz = Py.len m - pos s) as ->.
    { subst sz. destruct size as [n|]; simpl in Hu;
        [apply Z.ltb_lt in Hu; destruct (Z.ltb_spec n 0)|]; lia. }
    apply take_ge. rewrite length_drop. unfold Py.len in *. lia.
  - rewrite Hd. f_equal. subst sz. subst size.
    destruct (Z.ltb_spec n 0); lia.
  - rewrite Hlen. subst sz. subst size. destruct (Z.ltb_spec n 0); lia.
  - lia.
  - lia.
  - intros He. rewrite Hd.
    replace (pos s' - pos s) with 0 by lia. reflexivity.
  - intros Hnil Hsize.
    assert (pos s = Py.len m) as Hend.
    { rewrite Hnil in Hlen. change (Py.len []) with 0 in Hlen.
      subst sz. destruct size as [n|];
        [destruct (Z.ltb_spec n 0); [lia|]; assert (n <> 0) by congruence|];
        lia. }
    rewrite concat_app, Hnil. simpl. rewrite app_nil_r, Hc, Hend.
    unfold Py.len. rewrite Nat2Z.id. apply firstn_all.
Qed.

Lemma read_wrapper_is_a_stream_witness :
  concat ((reads (init (lit "hello")) [Some 2; Some 0; None]).1 ++ [[]])
  = lit "hello".
Proof.
  pose proof (read_wrapper_is_a_stream (lit "hello") [Some 2; Some 0; None]
                (Some 3)) as H.
  cbv in H. destruct H as (_ & _ & _ & _ & H).
  apply H; [reflexivity | discriminate].
Defined.

(** C10 as it was stated fails: [read(0)] returns the empty byte string
    wherever the position is, so a sequence of reads can end with an empty
    result before all the bytes have been returned. *)
Lemma read_zero_ends_a_sequence_early :
  let rs := (reads (init (lit "a")) [Some 0]).1 in
  last rs = Some [] /\ concat rs <> lit "a".
Proof. split; [reflexivity | discriminate]. Qed.

End ReadWrapperStream.

(** ** The supervisor *)

Section SupervisorFacts.

Import Supervisor.

Context {codec : JsonCodec}.
Variables (notify_child_death_fd stdin_fd stdout_fd : Z).
Variable os_fork : nat -> fork_world.

Abbreviation handle_line := (handle_line os_fork).
Abbreviation lines_loop := (lines_loop os_fork).

Lemma lines_loop_step (buf : bytes) (s : state) :
  lines_loop buf s =
  if Py.find Py.NL buf >? -1 then
    match handle_line (Py.slice_to buf (Py.find Py.NL buf))
            (set_input_buf (Py.slice_from buf (Py.find Py.NL buf + 1)) s) with
    | Returns s' => lines_loop (Py.slice_from buf (Py.find Py.NL buf + 1)) s'
    | Raises e s' => Raises e s'
    end
  else Returns (set_input_buf buf s).
Proof.
  rewrite lines_loop_equation_1.
  destruct (inspect (Py.find Py.NL buf >? -1)) as [[] H];
    simp lines_loop; rewrite H; reflexivity.
Qed.

(** One complete line at the head of the buffer is handled, and the loop
    goes on with what follows it. *)
Lemma lines_loop_line (line rest : bytes) (s : state) :
  Py.free_of Py.NL line ->
  lines_loop (line ++ Py.NL :: rest) s =
  match handle_line line (set_input_buf rest s) with
  | Returns s' => lines_loop rest s'
  | Raises e s' => Raises e s'
  end.
Proof.
  intros Hf. rewrite lines_loop_step, (find_app _ _ _ Hf).
  pose proof (len_nonneg line).
  destruct (Z.gtb_spec (Py.len line) (-1)); [|lia].
  rewrite slice_to_app, slice_from_app_cons. reflexivity.
Qed.

(** A buffer without a newline is kept for the next read. *)
Lemma lines_loop_partial (buf : bytes) (s : state) :
  Py.free_of Py.NL buf -> lines_loop buf s = Returns (set_input_buf buf s).
Proof. intros Hf. rewrite lines_loop_step, Hf. reflexivity. Qed.

(** The command and the payload of a line. *)
Lemma partition_command (cmd payload : str) :
  Py.free_of Py.COLON cmd ->
  Py.partition Py.COLON (cmd ++ Py.COLON :: payload) = (cmd, [Py.COLON], payload).
Proof. apply partition_app. Qed.

(** [ready:<child_id>] for a child that is in the readiness map: one byte
    is written to its descriptor, the descriptor is closed, and the entry
    is dropped. *)
Lemma ready_releases_pending_child (payload : str) (child_id cfd : Z) (s : state) :
  Py.int payload = Some child_id ->
  child_ready_fds s !! child_id = Some cfd ->
  handle_line (lit "ready:" ++ payload) s =
  Returns (did [SysWrite cfd (lit "1"); SysClose cfd]
             (set_child_ready_fds (delete child_id (child_ready_fds s)) s)).
Proof.
  intros Hint Hfd. unfold Supervisor.handle_line.
  change (lit "ready:" ++ payload) with (lit "ready" ++ Py.COLON :: payload).
  rewrite partition_command by reflexivity.
  change (Py.eqb (lit "ready") (lit "reload_kitty_config")) with false.
  change (Py.eqb (lit "ready") (lit "ready")) with true.
  cbv iota. rewrite Hint, Hfd. reflexivity.
Qed.

(** [ready:<child_id>] for a child that is not in the readiness map:
    [child_ready_fds.pop(child_id)] raises [KeyError]. *)
Lemma ready_for_absent_child_raises (payload : str) (child_id : Z) (s : state) :
  Py.int payload = Some child_id ->
  child_ready_fds s !! child_id = None ->
  handle_line (lit "ready:" ++ payload) s =
  Raises (KeyError (Py.str_of_int child_id)) s.
Proof.
  intros Hint Hfd. unfold Supervisor.handle_line.
  change (lit "ready:" ++ payload) with (lit "ready" ++ Py.COLON :: payload).
  rewrite partition_command by reflexivity.
  change (Py.eqb (lit "ready") (lit "reload_kitty_config")) with false.
  change (Py.eqb (lit "ready") (lit "ready")) with true.
  cbv iota. rewrite Hint, Hfd. reflexivity.
Qed.

(** What [fork:<payload>] does, by the way [fork] ends. *)
Lemma fork_line (payload : str) (s : state) :
  handle_line (lit "fork:" ++ payload) s =
  let w := os_fork (forks s) in
  let s1 := did [SysPipe (fw_ready_pipe w).1 (fw_ready_pipe w).2;
                 SysSetInheritable (fw_ready_pipe w).2 false]
                (set_forks (S (forks s)) s) in
  match fork w payload (fw_ready_pipe w).1 with
  | (Raise e, log) =>
      if is_Exception e then
        Returns (did [SysClose (fw_ready_pipe w).1]
                   (set_output_buf
                      (output_buf s ++ lit "ERR:" ++
                       Py.replace Py.NL Py.SPACE (exc_str e) ++ [Py.NL])
                      (did log s1)))
      else Raises e (did [SysClose (fw_ready_pipe w).1] (did log s1))
  | (Ok (child_pid, child_death_fd), log) =>
      Returns
        (did [SysClose (fw_ready_pipe w).1]
           (set_output_buf
              (output_buf s ++ lit "CHILD:" ++ Py.str_of_int (child_id_counter s) ++
               [Py.COLON] ++ Py.str_of_int child_pid ++ [Py.NL])
              (poll_register child_death_fd POLLIN
                 (set_child_death_fds
                    (<[child_death_fd := child_id_counter s]> (child_death_fds s))
                    (set_child_ready_fds
                       (<[child_id_counter s := (fw_ready_pipe w).2]> (child_ready_fds s))
                       (set_child_id_map
                          (<[child_id_counter s := child_pid]> (child_id_map s))
                          (set_child_id_counter (child_id_counter s + 1)
                             (did log s1))))))))
  end.
Proof.
  unfold Supervisor.handle_line.
  change (lit "fork:" ++ payload) with (lit "fork" ++ Py.COLON :: payload).
  rewrite partition_command by reflexivity.
  change (Py.eqb (lit "fork") (lit "reload_kitty_config")) with false.
  change (Py.eqb (lit "fork") (lit "ready")) with false.
  change (Py.eqb (lit "fork") (lit "fork")) with true.
  cbv iota zeta.
  destruct (fw_ready_pipe (os_fork (forks s))) as [r wr]. simpl fst. simpl snd.
  destruct (fork (os_fork (forks s)) payload r) as [[[child_pid child_death_fd]|e] log];
    reflexivity.
Qed.


(** Whatever makes [fork] fail in the supervisor, the failure is an
    [Exception], which [handle_input] catches. *)
Lemma fork_raises_Exception (w : fork_world) (shm_address : str) (r : Z) (e : exc) :
  (fork w shm_address r).1 = Raise e -> is_Exception e = true.
Proof.
  unfold fork, read_request.
  destruct (fw_region w) as [region|]; [|intros [= <-]; reflexivity].
  destruct (SharedMemory.read_data_with_size _) as [[data shm]|e0] eqn:Hread.
  2:{ intros [= <-]. unfold SharedMemory.read_data_with_size in Hread.
      unfold mbind, result_bind, SharedMemory.read in Hread.
      repeat match type of Hread with
             | context [if ?c then _ else _] => destruct c
             | (let '(_, _) := ?x in _) = _ => destruct x
             end; try discriminate; injection Hread as <-; reflexivity. }
  destruct (json_loads data) as [cmd|]; [|intros [= <-]; reflexivity].
  destruct (Json.get cmd (lit "stdin_size") (JNum 0)) as [sz|e0] eqn:Hget.
  2:{ intros [= <-]. destruct cmd; simpl in Hget; try discriminate;
        injection Hget as <-; reflexivity. }
  destruct (Json.truthy sz), (fw_death_pipe w) as [r0 w0],
    (fw_fork w) as [pid|]; simpl;
    try destruct (has (fw_event w) POLLIN); simpl;
    intros [= <-]; reflexivity.
Qed.

(** The three failures of a fork request that the specification names. *)
Lemma fork_fails_when_region_is_missing (w : fork_world) (shm_address : str) (r : Z) :
  fw_region w = None ->
  (fork w shm_address r).1 = Raise (FileNotFoundError shm_address).
Proof. intros H. unfold fork, read_request. rewrite H. reflexivity. Qed.

Lemma fork_fails_when_json_is_malformed (w : fork_world) (shm_address : str)
  (r : Z) (region data : bytes) (shm : SharedMemory.t) :
  fw_region w = Some region ->
  SharedMemory.read_data_with_size (SharedMemory.attach shm_address region true)
  = Ok (data, shm) ->
  json_loads data = None ->
  (fork w shm_address r).1 = Raise (JSONDecodeError (lit "Expecting value")).
Proof.
  intros H1 H2 H3. unfold fork, read_request. rewrite H1, H2, H3. reflexivity.
Qed.

Lemma fork_fails_when_the_syscall_fails (w : fork_world) (shm_address : str)
  (r : Z) (rq : request) (log : list syscall) :
  read_request (fw_region w) shm_address = (Ok rq, log) ->
  fw_fork w = None ->
  (fork w shm_address r).1 =
  Raise (UnboundLocalError
           (lit "local variable 'child_pid' referenced before assignment")).
Proof.
  intros H1 H2. unfold fork. rewrite H1, H2.
  destruct (fw_death_pipe w). reflexivity.
Qed.

Abbreviation handle_input := (handle_input stdin_fd os_fork).

(** Reading [d] when nothing is pending and the event is [POLLIN] runs the
    line loop on [d]. *)
Lemma handle_input_reads (d : bytes) (s : state) :
  input_buf s = [] -> d <> [] ->
  handle_input POLLIN d s =
  lines_loop d (did [SysRead stdin_fd DEFAULT_BUFFER_SIZE] s).
Proof.
  intros Hb Hd. unfold Supervisor.handle_input.
  change (check_event POLLIN _) with (@None exc).
  change (negb (has POLLIN POLLIN)) with false. cbv iota.
  destruct d; [congruence|]. simpl input_buf. rewrite Hb. reflexivity.
Qed.


Abbreviation dispatch := (dispatch notify_child_death_fd stdin_fd stdout_fd os_fork).

(** The hang-up of a death detector that is polled, for a child whose pid
    is known: what [handle_child_death] does to the state. *)
Lemma hang_up_of_a_detector (fd event dead_child_id pid : Z) (rd : bytes)
  (n : Z) (s : state) :
  fd <> stdin_fd -> fd <> stdout_fd -> fd <> notify_child_death_fd ->
  has event POLLHUP = true ->
  child_death_fds s !! fd = Some dead_child_id ->
  is_Some (poll s !! fd) ->
  child_id_map s !! dead_child_id = Some pid ->
  exists s',
    dispatch {| ev_fd := fd; ev_mask := event; ev_read := rd; ev_wrote := n |} s
    = Returns s' /\
    child_death_fds s' = delete fd (child_death_fds s) /\
    child_ready_fds s' = delete dead_child_id (child_ready_fds s) /\
    child_id_map s' = delete dead_child_id (child_id_map s) /\
    child_death_buf s' = child_death_buf s ++ Py.str_of_int pid ++ [Py.NL] /\
    poll s' = delete fd (poll s) /\
    sys s' = sys s ++ [SysPollUnregister fd] ++
             match child_ready_fds s !! dead_child_id with
             | Some ready_fd => [SysClose ready_fd]
             | None => []
             end /\
    (forall fd', fd' <> fd -> child_death_fds s' !! fd' = child_death_fds s !! fd') /\
    (forall id, id <> dead_child_id ->
       child_ready_fds s' !! id = child_ready_fds s !! id /\
       child_id_map s' !! id = child_id_map s !! id) /\
    output_buf s' = output_buf s /\
    child_id_counter s' = child_id_counter s.
Proof.
  intros H1 H2 H3 Hhup Hfd [mask Hpoll] Hpid.
  unfold Supervisor.dispatch. simpl ev_fd. simpl ev_mask.
  destruct (Z.eqb_spec fd stdin_fd); [contradiction|].
  destruct (Z.eqb_spec fd stdout_fd); [contradiction|].
  destruct (Z.eqb_spec fd notify_child_death_fd); [contradiction|].
  rewrite Hfd, Hhup.
  unfold handle_child_death, poll_unregister. rewrite Hpoll. simpl.
  rewrite Hfd. simpl.
  destruct (child_ready_fds s !! dead_child_id) as [ready_fd|] eqn:Hready;
    simpl; rewrite Hpid; (eexists; split; [reflexivity|]); simpl;
    repeat split;
    try reflexivity;
    try (rewrite <- app_assoc; reflexivity);
    try (intros; apply lookup_delete_ne; congruence);
    try (rewrite delete_id by assumption; reflexivity);
    try (rewrite app_nil_r; reflexivity).
Qed.

End SupervisorFacts.

(** ** The client *)

Section ClientFacts.

Import PrewarmProcess.

Lemma reply_lines_unfold (buf : bytes) (self : t) :
  reply_lines buf self =
  if Py.find Py.NL buf >? -1 then
    match reply_line (Py.slice_to buf (Py.find Py.NL buf)) self with
    | (Undecided, self') =>
        reply_lines (Py.slice_from buf (Py.find Py.NL buf + 1)) self'
    | (v, self') => (v, Py.slice_from buf (Py.find Py.NL buf + 1), self')
    end
  else (Undecided, buf, self).
Proof.
  rewrite reply_lines_equation_1.
  destruct (inspect (Py.find Py.NL buf >? -1)) as [[] H];
    simp reply_lines; rewrite H; [|reflexivity].
  cbv zeta. destruct (reply_line _ self) as [[] ?]; reflexivity.
Qed.

Lemma reply_lines_line (line rest : bytes) (self : t) :
  Py.free_of Py.NL line ->
  reply_lines (line ++ Py.NL :: rest) self =
  match reply_line line self with
  | (Undecided, self') => reply_lines rest self'
  | (v, self') => (v, rest, self')
  end.
Proof.
  intros Hf. rewrite reply_lines_unfold, (find_app _ _ _ Hf).
  pose proof (len_nonneg line).
  destruct (Z.gtb_spec (Py.len line) (-1)); [|lia].
  rewrite slice_to_app, slice_from_app_cons. reflexivity.
Qed.

Lemma reply_lines_partial (buf : bytes) (self : t) :
  Py.free_of Py.NL buf -> reply_lines buf self = (Undecided, buf, self).
Proof. intros Hf. rewrite reply_lines_unfold, Hf. reflexivity. Qed.

(** A line [CHILD:<cid>:<pid>] whose fields are integers records the
    child. *)
Lemma reply_line_child (cid pid : str) (a b : Z) (self : t) :
  Py.free_of Py.COLON cid -> Py.free_of Py.COLON pid ->
  Py.int cid = Some a -> Py.int pid = Some b ->
  reply_line (lit "CHILD:" ++ cid ++ [Py.COLON] ++ pid) self =
  (Forked (mkChild a b),
   set_children (<[a := mkChild a b]> (children self)) self).
Proof.
  intros Hc Hp Ha Hb. unfold reply_line.
  rewrite startswith_app.
  change (lit "CHILD:" ++ cid ++ [Py.COLON] ++ pid)
    with (lit "CHILD" ++ Py.COLON :: cid ++ Py.COLON :: pid).
  rewrite split_app by reflexivity.
  rewrite split_app by assumption.
  rewrite split_free by assumption.
  rewrite Ha, Hb. reflexivity.
Qed.

(** A line [ERR:<msg>] fails the call with [msg]. *)
Lemma reply_line_err (msg : str) (self : t) :
  reply_line (lit "ERR:" ++ msg) self = (Failed (PrewarmProcessFailed msg), self).
Proof.
  unfold reply_line.
  change (Py.startswith (lit "CHILD:") (lit "ERR:" ++ msg)) with false.
  rewrite startswith_app.
  change (lit "ERR:" ++ msg) with (lit "ERR" ++ Py.COLON :: msg).
  rewrite split1_app by reflexivity. reflexivity.
Qed.

(** What the reply loop makes of the two frames of the supervisor. *)
Lemma reply_lines_child_frame (a b : Z) (rest : bytes) (self : t) :
  reply_lines (lit "CHILD:" ++ Py.str_of_int a ++ [Py.COLON] ++
               Py.str_of_int b ++ [Py.NL] ++ rest) self =
  (Forked (mkChild a b), rest,
   set_children (<[a := mkChild a b]> (children self)) self).
Proof.
  replace (lit "CHILD:" ++ Py.str_of_int a ++ [Py.COLON] ++
           Py.str_of_int b ++ [Py.NL] ++ rest)
    with ((lit "CHILD:" ++ Py.str_of_int a ++ [Py.COLON] ++ Py.str_of_int b)
          ++ Py.NL :: rest)
    by (repeat (rewrite <- app_assoc || rewrite <- app_comm_cons); reflexivity).
  rewrite reply_lines_line.
  - rewrite (reply_line_child _ _ a b); try apply int_str_of_int;
      try (apply str_of_int_free; reflexivity). reflexivity.
  - repeat (apply free_of_app; split); try reflexivity;
      apply str_of_int_free; reflexivity.
Qed.

Lemma reply_lines_err_frame (msg rest : bytes) (self : t) :
  Py.free_of Py.NL msg ->
  reply_lines (lit "ERR:" ++ msg ++ [Py.NL] ++ rest) self =
  (Failed (PrewarmProcessFailed msg), rest, self).
Proof.
  intros Hf.
  replace (lit "ERR:" ++ msg ++ [Py.NL] ++ rest)
    with ((lit "ERR:" ++ msg) ++ Py.NL :: rest)
    by (repeat (rewrite <- app_assoc || rewrite <- app_comm_cons); reflexivity).
  rewrite reply_lines_line
    by (apply free_of_app; split; [reflexivity | assumption]).
  rewrite reply_line_err. reflexivity.
Qed.

End ClientFacts.

(** ** Child ids *)

Section ChildIds.

Import Supervisor.

Context {codec : JsonCodec}.
Variables (notify_child_death_fd stdin_fd stdout_fd : Z).
Variable os_fork : nat -> fork_world.

Abbreviation handle_line := (handle_line os_fork).

Lemma emitted_app (s s' : state) (frame : bytes) :
  output_buf s' = output_buf s ++ frame -> Session.emitted s s' = frame.
Proof. intros H. unfold Session.emitted. rewrite H. apply drop_app_length. Qed.

Lemma child_in_child_frame (a b : Z) :
  Session.child_in (lit "CHILD:" ++ Py.str_of_int a ++ [Py.COLON] ++
                    Py.str_of_int b ++ [Py.NL])
  = Some (PrewarmProcess.mkChild a b).
Proof.
  unfold Session.child_in.
  replace (lit "CHILD:" ++ Py.str_of_int a ++ [Py.COLON] ++ Py.str_of_int b ++ [Py.NL])
    with (lit "CHILD:" ++ Py.str_of_int a ++ [Py.COLON] ++ Py.str_of_int b ++
          [Py.NL] ++ []) by reflexivity.
  rewrite reply_lines_child_frame. reflexivity.
Qed.

Lemma child_in_err_frame (msg : str) :
  Py.free_of Py.NL msg ->
  Session.child_in (lit "ERR:" ++ msg ++ [Py.NL]) = None.
Proof.
  intros Hf. unfold Session.child_in.
  replace (lit "ERR:" ++ msg ++ [Py.NL])
    with (lit "ERR:" ++ msg ++ [Py.NL] ++ []) by reflexivity.
  rewrite reply_lines_err_frame by assumption. reflexivity.
Qed.

(** A fork command that succeeds announces the child under the next id
    and advances the counter; one that fails announces nothing and leaves
    the counter alone. *)
Lemma fork_command_ids (line : str) (s s' : state) :
  Py.eqb (Session.command line) (lit "fork") = true ->
  handle_line line s = Returns s' ->
  (exists pid,
      Session.child_in (Session.emitted s s')
      = Some (PrewarmProcess.mkChild (child_id_counter s) pid) /\
      child_id_counter s' = child_id_counter s + 1) \/
  (Session.child_in (Session.emitted s s') = None /\
   child_id_counter s' = child_id_counter s).
Proof.
  unfold Session.command, Supervisor.handle_line.
  destruct (Py.partition Py.COLON line) as [[cmd sep] payload]. simpl.
  intros Hcmd. apply eqb_eq in Hcmd. subst cmd.
  change (Py.eqb (lit "fork") (lit "reload_kitty_config")) with false.
  change (Py.eqb (lit "fork") (lit "ready")) with false.
  change (Py.eqb (lit "fork") (lit "fork")) with true.
  cbv iota.
  destruct (fw_ready_pipe (os_fork (forks s))) as [r wr].
  destruct (fork (os_fork (forks s)) payload r)
    as [[[child_pid child_death_fd]|e] log].
  - intros [= <-]. left. exists child_pid. split; [|reflexivity].
    erewrite emitted_app; [apply child_in_child_frame|].
    simpl. reflexivity.
  - destruct (is_Exception e); [|discriminate].
    intros [= <-]. right. split; [|reflexivity].
    erewrite emitted_app;
      [apply (child_in_err_frame (Py.replace Py.NL Py.SPACE (exc_str e)));
       apply replace_free; discriminate|].
    simpl. reflexivity.
Qed.

(** No other command touches the counter. *)
Lemma other_command_ids (line : str) (s s' : state) :
  Py.eqb (Session.command line) (lit "fork") = false ->
  handle_line line s = Returns s' ->
  child_id_counter s' = child_id_counter s.
Proof.
  unfold Session.command, Supervisor.handle_line.
  destruct (Py.partition Py.COLON line) as [[cmd sep] payload]. simpl.
  intros Hcmd. rewrite Hcmd.
  destruct (Py.eqb cmd (lit "reload_kitty_config")).
  { unfold reload_kitty_config. simpl.
    destruct (json_loads payload) as [d|]; [|discriminate].
    destruct (Json.getitem d (lit "paths")); [|discriminate].
    destruct (Json.getitem d (lit "overrides")); [|discriminate].
    intros [= <-]. reflexivity. }
  destruct (Py.eqb cmd (lit "ready")).
  { destruct (Py.int payload) as [child_id|]; [|discriminate].
    destruct (child_ready_fds s !! child_id); [|discriminate].
    intros [= <-]. reflexivity. }
  destruct (Py.eqb cmd (lit "echo")); intros [= <-]; reflexivity.
Qed.

(** A command that raises leaves the counter as it was. *)
Lemma raising_command_ids (line : str) (e : exc) (s s' : state) :
  handle_line line s = Raises e s' ->
  child_id_counter s' = child_id_counter s.
Proof.
  unfold Supervisor.handle_line.
  destruct (Py.partition Py.COLON line) as [[cmd sep] payload].
  destruct (Py.eqb cmd (lit "reload_kitty_config")).
  { unfold reload_kitty_config. simpl.
    destruct (json_loads payload) as [d|]; [|intros [= <- <-]; reflexivity].
    destruct (Json.getitem d (lit "paths")); [|intros [= <- <-]; reflexivity].
    destruct (Json.getitem d (lit "overrides")); [discriminate|].
    intros [= <- <-]. reflexivity. }
  destruct (Py.eqb cmd (lit "ready")).
  { destruct (Py.int payload) as [child_id|]; [|intros [= <- <-]; reflexivity].
    destruct (child_ready_fds s !! child_id); [discriminate|].
    intros [= <- <-]. reflexivity. }
  destruct (Py.eqb cmd (lit "fork")).
  { destruct (fw_ready_pipe (os_fork (forks s))) as [r wr].
    destruct (fork (os_fork (forks s)) payload r)
      as [[[child_pid child_death_fd]|e0] log]; [discriminate|].
    destruct (is_Exception e0); [discriminate|].
    intros [= <- <-]. reflexivity. }
  destruct (Py.eqb cmd (lit "echo")); discriminate.
Qed.

Lemma lines_log_step (buf : bytes) (s : state) :
  Session.lines_log os_fork buf s =
  if Py.find Py.NL buf >? -1 then
    match handle_line (Py.slice_to buf (Py.find Py.NL buf))
            (set_input_buf (Py.slice_from buf (Py.find Py.NL buf + 1)) s) with
    | Returns s' =>
        (Py.slice_to buf (Py.find Py.NL buf), Session.emitted s s')
        :: Session.lines_log os_fork (Py.slice_from buf (Py.find Py.NL buf + 1)) s'
    | Raises _ _ => []
    end
  else [].
Proof.
  rewrite Session.lines_log_equation_1.
  destruct (Session.inspect (Py.find Py.NL buf >? -1)) as [[] H];
    simp lines_log; rewrite H; reflexivity.
Qed.

Lemma numbered_nil (s : state) (o : outcome) :
  child_id_counter (final o) = child_id_counter s -> Session.numbered s [] o.
Proof.
  intros H. split; [intros i c; simpl; rewrite lookup_nil; discriminate|].
  simpl. lia.
Qed.

Lemma numbered_from (s s0 : state) (log : list (str * bytes)) (o : outcome) :
  child_id_counter s = child_id_counter s0 ->
  Session.numbered s0 log o -> Session.numbered s log o.
Proof. unfold Session.numbered. intros ->. exact id. Qed.

Lemma numbered_app (s s1 : state) (l1 l2 : list (str * bytes)) (o : outcome) :
  Session.numbered s l1 (Returns s1) -> Session.numbered s1 l2 o ->
  Session.numbered s (l1 ++ l2) o.
Proof.
  unfold Session.numbered, Session.announced. simpl.
  intros [H1 C1] [H2 C2]. rewrite omap_app, length_app. split; [|lia].
  intros i c Hi. apply lookup_app_Some in Hi as [Hi | [Hge Hi]].
  - apply H1, Hi.
  - rewrite (H2 _ c Hi), C1. lia.
Qed.

(** One command handled, then the rest of the log. *)
Lemma numbered_line (line : str) (s s' : state) (log : list (str * bytes))
  (o : outcome) :
  handle_line line s = Returns s' -> Session.numbered s' log o ->
  Session.numbered s ((line, Session.emitted s s') :: log) o.
Proof.
  intros Hline [IHi IHc]. unfold Session.numbered, Session.announced in *.
  cbn [omap list_omap fst snd].
  destruct (Py.eqb (Session.command line) (lit "fork")) eqn:Hcmd.
  - destruct (fork_command_ids line s s' Hcmd Hline)
      as [(pid & Hin & Hcnt) | (Hin & Hcnt)]; rewrite Hin.
    + split; [|rewrite IHc, Hcnt, length_cons; lia].
      intros [|i] c.
      * intros [= <-]. simpl. lia.
      * intros Hi. simpl in Hi. rewrite (IHi i c Hi), Hcnt. lia.
    + rewrite <- Hcnt. split; assumption.
  - rewrite <- (other_command_ids line s s' Hcmd Hline). split; assumption.
Qed.

(** The loop over the lines of the input buffer. *)
Lemma lines_numbered (buf : bytes) :
  forall s, Session.numbered s (Session.lines_log os_fork buf s)
              (lines_loop os_fork buf s).
Proof.
  remember (length buf) as n eqn:Hn. revert buf Hn.
  induction n as [n IH] using lt_wf_ind. intros buf -> s. rewrite lines_log_step, lines_loop_step.
  destruct (Z.gtb_spec (Py.find Py.NL buf) (-1)) as [Hidx|Hidx];
    [|apply numbered_nil; reflexivity].
  set (rest := Py.slice_from buf (Py.find Py.NL buf + 1)).
  destruct (handle_line _ (set_input_buf rest s)) as [s'|e s'] eqn:Hline.
  - apply (numbered_from _ (set_input_buf rest s)); [reflexivity|].
    apply (numbered_line _ _ _ _ _ Hline). apply (IH (length rest)); [|reflexivity].
    subst rest. pose proof (find_range Py.NL buf).
    unfold Py.slice_from, Py.clamp_index, Py.len in *. rewrite length_drop.
    destruct (Z.ltb_spec (Py.find Py.NL buf + 1) 0); lia.
  - apply numbered_nil. simpl.
    apply (raising_command_ids _ _ _ _ Hline).
Qed.

(** The handlers of the other descriptors leave the counter alone. *)
Lemma poll_unregister_counter (fd : Z) (s : state) :
  child_id_counter (final (poll_unregister fd s)) = child_id_counter s.
Proof. unfold poll_unregister. destruct (poll s !! fd); reflexivity. Qed.

Lemma handle_output_counter (event n : Z) (s : state) :
  child_id_counter (final (handle_output stdout_fd event n s))
  = child_id_counter s.
Proof.
  unfold handle_output. destruct (check_event event _); [reflexivity|].
  destruct (has event POLLOUT); [|reflexivity]. simpl.
  destruct (output_buf s) as [|b out] eqn:Hout; simpl.
  - rewrite Hout. apply poll_unregister_counter.
  - destruct (n =? 0); [reflexivity|]. simpl.
    destruct (Py.slice_from _ n); [|reflexivity].
    rewrite poll_unregister_counter. reflexivity.
Qed.

Lemma handle_notify_child_death_counter (event n : Z) (s : state) :
  child_id_counter
    (final (handle_notify_child_death notify_child_death_fd event n s))
  = child_id_counter s.
Proof.
  unfold handle_notify_child_death.
  destruct (check_event event _); [reflexivity|].
  destruct (has event POLLOUT); [|reflexivity]. simpl.
  destruct (child_death_buf s) as [|b out] eqn:Hout; simpl.
  - rewrite Hout. apply poll_unregister_counter.
  - destruct (n =? 0); [reflexivity|]. simpl.
    destruct (Py.slice_from _ n); [|reflexivity].
    rewrite poll_unregister_counter. reflexivity.
Qed.

Lemma handle_child_death_counter (fd id : Z) (s : state) :
  child_id_counter (final (handle_child_death fd id s)) = child_id_counter s.
Proof.
  unfold handle_child_death, poll_unregister.
  destruct (poll s !! fd); [|reflexivity]. simpl.
  destruct (child_death_fds s !! fd); [|reflexivity]. simpl.
  destruct (child_ready_fds s !! id); simpl;
    destruct (child_id_map s !! id); reflexivity.
Qed.

Lemma arm_counter (s : state) :
  child_id_counter (arm notify_child_death_fd stdout_fd s) = child_id_counter s.
Proof.
  unfold arm.
  destruct (output_buf s); destruct (child_death_buf _); reflexivity.
Qed.

(** One event of a poll. *)
Lemma dispatch_numbered (ev : io_event) (s : state) :
  Session.numbered s (Session.dispatch_log stdin_fd os_fork ev s)
    (dispatch notify_child_death_fd stdin_fd stdout_fd os_fork ev s).
Proof.
  unfold Session.dispatch_log, dispatch.
  destruct (ev_fd ev =? stdin_fd).
  { unfold handle_input.
    unfold check_event.
    destruct (has (ev_mask ev) POLLHUP); [apply numbered_nil; reflexivity|].
    destruct (has (ev_mask ev) error_events);
      [apply numbered_nil; reflexivity|].
    destruct (has (ev_mask ev) POLLIN); simpl;
      [|apply numbered_nil; reflexivity].
    destruct (ev_read ev) as [|b d]; [apply numbered_nil; reflexivity|].
    eapply numbered_from; [|apply lines_numbered]. reflexivity. }
  apply numbered_nil.
  destruct (ev_fd ev =? stdout_fd); [apply handle_output_counter|].
  destruct (ev_fd ev =? notify_child_death_fd);
    [apply handle_notify_child_death_counter|].
  destruct (child_death_fds s !! ev_fd ev); [|reflexivity].
  destruct (has (ev_mask ev) POLLHUP); [|reflexivity].
  apply handle_child_death_counter.
Qed.

Lemma numbered_then (s : state) (l1 l2 : state -> list (str * bytes))
  (o1 : outcome) (k : state -> outcome) :
  Session.numbered s (l1 s) o1 ->
  (forall s1, Session.numbered s1 (l2 s1) (k s1)) ->
  Session.numbered s
    (l1 s ++ match o1 with Returns s1 => l2 s1 | Raises _ _ => [] end)
    (then_ o1 k).
Proof.
  intros H1 H2. destruct o1 as [s1|e s1]; simpl.
  - eapply numbered_app; [exact H1 | apply H2].
  - rewrite app_nil_r. exact H1.
Qed.

Lemma dispatch_all_numbered (evs : list io_event) :
  forall s,
    Session.numbered s
      (Session.dispatch_all_log notify_child_death_fd stdin_fd stdout_fd
         os_fork evs s)
      (dispatch_all notify_child_death_fd stdin_fd stdout_fd os_fork evs s).
Proof.
  induction evs as [|ev evs IH]; intros s; simpl.
  - apply numbered_nil. reflexivity.
  - apply (numbered_then s (Session.dispatch_log stdin_fd os_fork ev));
      [apply dispatch_numbered | exact IH].
Qed.

Lemma run_numbered (ticks : list (list io_event)) :
  forall s,
    Session.numbered s
      (Session.run_log notify_child_death_fd stdin_fd stdout_fd os_fork ticks s)
      (run notify_child_death_fd stdin_fd stdout_fd os_fork ticks s).
Proof.
  induction ticks as [|evs ticks IH]; intros s; simpl.
  - apply numbered_nil. reflexivity.
  - apply (numbered_then s
             (fun s => Session.dispatch_all_log notify_child_death_fd stdin_fd
                         stdout_fd os_fork evs
                         (arm notify_child_death_fd stdout_fd s)));
      [|exact IH].
    unfold tick. eapply numbered_from; [|apply dispatch_all_numbered].
    symmetry. apply arm_counter.
Qed.

(** C3.  Let one supervisor run from its start through any turns of its
    loop, whatever the polls report and the operating system answers.  The
    [i]-th child announced by a [CHILD:<child_id>:<pid>] reply to a fork
    command, counting from 0, has the child id [i]: the ids are 0 for the
    first successful fork and strictly increasing, hence unique.  The
    counter of the supervisor has advanced by the number of children
    announced and not more, so failed forks consume no id. *)
Theorem child_ids_count_up_from_zero (opts : option (json * json))
  (ticks : list (list io_event)) :
  let log := Session.run_log notify_child_death_fd stdin_fd stdout_fd os_fork
               ticks (start stdin_fd opts) in
  let o := run notify_child_death_fd stdin_fd stdout_fd os_fork ticks
             (start stdin_fd opts) in
  (forall i c, Session.announced log !! i = Some c ->
               PrewarmProcess.child_id c = Z.of_nat i) /\
  (forall i j c c', (i < j)%nat ->
                    Session.announced log !! i = Some c ->
                    Session.announced log !! j = Some c' ->
                    PrewarmProcess.child_id c < PrewarmProcess.child_id c') /\
  child_id_counter (final o) = Z.of_nat (length (Session.announced log)).
Proof.
  intros log o.
  destruct (run_numbered ticks (start stdin_fd opts)) as [Hi Hc].
  fold log o in Hi, Hc. simpl in Hi, Hc.
  repeat split; [exact Hi | | exact Hc].
  intros i j c c' Hlt Hci Hcj. rewrite (Hi i c Hci), (Hi j c' Hcj). lia.
Qed.

End ChildIds.

(** ** Death detectors *)

Section Detectors.

Import Supervisor.

Context {codec : JsonCodec}.
Variables (notify_child_death_fd stdin_fd stdout_fd : Z).
Variable os_fork : nat -> fork_world.

Abbreviation tracked := (tracked notify_child_death_fd stdin_fd stdout_fd).
Abbreviation handle_line := (handle_line os_fork).
Abbreviation dispatch :=
  (dispatch notify_child_death_fd stdin_fd stdout_fd os_fork).

Hypothesis pipes : pipes_are_new notify_child_death_fd stdin_fd stdout_fd os_fork.

(** A step that leaves the death map, the id map and the counter alone,
    and unregisters no detector, keeps the detectors tracked. *)
Lemma tracked_frame (s s' : state) :
  child_death_fds s' = child_death_fds s ->
  child_id_map s' = child_id_map s ->
  child_id_counter s' = child_id_counter s ->
  (forall fd, fd <> stdout_fd -> fd <> notify_child_death_fd ->
              is_Some (poll s !! fd) -> is_Some (poll s' !! fd)) ->
  tracked s -> tracked s'.
Proof.
  intros Hd Hm Hc Hp H fd id. rewrite Hd, Hm, Hc. intros Hfd.
  destruct (H fd id Hfd) as ((H1 & H2 & H3) & H4 & H5 & H6 & H7).
  repeat split; auto.
Qed.

Lemma start_tracked (opts : option (json * json)) :
  tracked (start stdin_fd opts).
Proof. intros fd id. simpl. rewrite lookup_empty. discriminate. Qed.

(** The detector that [fork] returns is the read end of its pipe. *)
Lemma fork_detector (w : fork_world) (payload : str) (r pid fd : Z)
  (log : list syscall) :
  fork w payload r = (Ok (pid, fd), log) -> fd = (fw_death_pipe w).1.
Proof.
  unfold fork. destruct (read_request _ _) as [[rq|e] log0]; [|discriminate].
  destruct (fw_death_pipe w) as [r0 wr]. destruct (fw_fork w); [|discriminate].
  destruct (has _ _); [|discriminate]. intros [= _ <- _]. reflexivity.
Qed.

Lemma handle_line_tracked (line : str) (s s' : state) :
  tracked s -> handle_line line s = Returns s' -> tracked s'.
Proof.
  intros H. unfold Supervisor.handle_line.
  destruct (Py.partition Py.COLON line) as [[cmd sep] payload].
  destruct (Py.eqb cmd (lit "reload_kitty_config")).
  { unfold reload_kitty_config. simpl.
    destruct (json_loads payload) as [d|]; [|discriminate].
    destruct (Json.getitem d (lit "paths")); [|discriminate].
    destruct (Json.getitem d (lit "overrides")); [|discriminate].
    intros [= <-]. revert H. apply tracked_frame; auto. }
  destruct (Py.eqb cmd (lit "ready")).
  { destruct (Py.int payload) as [child_id|]; [|discriminate].
    destruct (child_ready_fds s !! child_id); [|discriminate].
    intros [= <-]. revert H. apply tracked_frame; auto. }
  destruct (Py.eqb cmd (lit "fork")).
  2:{ destruct (Py.eqb cmd (lit "echo")); intros [= <-]; [|exact H].
      revert H. apply tracked_frame; auto. }
  pose proof (pipes (forks s)) as Hnew.
  destruct (fw_ready_pipe (os_fork (forks s))) as [r wr].
  destruct (fork (os_fork (forks s)) payload r)
    as [[[child_pid child_death_fd]|e] log] eqn:Hfork.
  2:{ destruct (is_Exception e); [|discriminate].
      intros [= <-]. revert H. apply tracked_frame; auto. }
  apply fork_detector in Hfork. rewrite <- Hfork in Hnew. simpl in Hnew.
  intros [= <-] fd id. simpl. intros Hfd.
  apply lookup_insert_Some in Hfd as [[<- <-] | [Hne Hfd]].
  - split; [exact Hnew|]. rewrite !lookup_insert_eq.
    repeat split; eauto; [lia|].
    intros fd' Hfd'. apply lookup_insert_Some in Hfd' as [[<- _] | [_ Hfd']];
      [reflexivity|].
    destruct (H fd' _ Hfd') as (_ & _ & _ & Hlt & _). lia.
  - destruct (H fd id Hfd) as (Hstd & Hpoll & Hmap & Hlt & Huniq).
    split; [exact Hstd|].
    rewrite !lookup_insert_ne by (congruence || lia).
    repeat split; auto; [lia|].
    intros fd' Hfd'. apply lookup_insert_Some in Hfd' as [[_ <-] | [_ Hfd']];
      [lia | auto].
Qed.

Lemma lines_loop_tracked (buf : bytes) :
  forall s s', tracked s -> lines_loop os_fork buf s = Returns s' -> tracked s'.
Proof.
  remember (length buf) as n eqn:Hn. revert buf Hn.
  induction n as [n IH] using lt_wf_ind. intros buf -> s s' H.
  rewrite lines_loop_step.
  destruct (Z.gtb_spec (Py.find Py.NL buf) (-1)) as [Hidx|Hidx].
  2:{ intros [= <-]. revert H. apply tracked_frame; auto. }
  set (rest := Py.slice_from buf (Py.find Py.NL buf + 1)).
  destruct (handle_line _ (set_input_buf rest s)) as [s1|e s1] eqn:Hline;
    [|discriminate].
  apply (IH (length rest)); [|reflexivity|].
  - subst rest. pose proof (find_range Py.NL buf).
    unfold Py.slice_from, Py.clamp_index, Py.len in *. rewrite length_drop.
    destruct (Z.ltb_spec (Py.find Py.NL buf + 1) 0); lia.
  - eapply handle_line_tracked; [|exact Hline].
    revert H. apply tracked_frame; auto.
Qed.

Lemma poll_unregister_tracked (fd : Z) (s s' : state) :
  fd = stdout_fd \/ fd = notify_child_death_fd ->
  tracked s -> poll_unregister fd s = Returns s' -> tracked s'.
Proof.
  intros Hfd H. unfold poll_unregister.
  destruct (poll s !! fd); [|discriminate]. intros [= <-].
  revert H. apply tracked_frame; auto.
  intros fd' H1 H2. simpl. rewrite lookup_delete_ne by (destruct Hfd; congruence).
  exact id.
Qed.

Lemma handle_output_tracked (event n : Z) (s s' : state) :
  tracked s -> handle_output stdout_fd event n s = Returns s' -> tracked s'.
Proof.
  intros H. unfold handle_output.
  destruct (check_event event _); [discriminate|].
  destruct (has event POLLOUT); simpl; [|intros [= <-]; exact H].
  destruct (output_buf s) as [|b out] eqn:Hout; simpl.
  - rewrite Hout. apply poll_unregister_tracked; auto.
  - destruct (n =? 0); [discriminate|]. simpl.
    destruct (Py.slice_from _ n).
    + apply poll_unregister_tracked; auto.
    + intros [= <-]. revert H. apply tracked_frame; auto.
Qed.

Lemma handle_notify_child_death_tracked (event n : Z) (s s' : state) :
  tracked s ->
  handle_notify_child_death notify_child_death_fd event n s = Returns s' ->
  tracked s'.
Proof.
  intros H. unfold handle_notify_child_death.
  destruct (check_event event _); [discriminate|].
  destruct (has event POLLOUT); simpl; [|intros [= <-]; exact H].
  destruct (child_death_buf s) as [|b out] eqn:Hout; simpl.
  - rewrite Hout. apply poll_unregister_tracked; auto.
  - destruct (n =? 0); [discriminate|]. simpl.
    destruct (Py.slice_from _ n).
    + apply poll_unregister_tracked; auto.
    + intros [= <-]. revert H. apply tracked_frame; auto.
Qed.

Lemma dispatch_tracked (ev : io_event) (s s' : state) :
  tracked s -> dispatch ev s = Returns s' -> tracked s'.
Proof.
  intros H. destruct ev as [fd event rd n].
  destruct (child_death_fds s !! fd) as [id|] eqn:Hfd.
  2:{ unfold Supervisor.dispatch. simpl. rewrite Hfd.
      destruct (fd =? stdin_fd).
      { unfold handle_input. destruct (check_event event _); [discriminate|].
        destruct (has event POLLIN); simpl; [|intros [= <-]; exact H].
        destruct rd; [discriminate|]. apply lines_loop_tracked.
        revert H. apply tracked_frame; auto. }
      destruct (fd =? stdout_fd); [apply handle_output_tracked, H|].
      destruct (fd =? notify_child_death_fd);
        [apply handle_notify_child_death_tracked, H|].
      intros [= <-]. exact H. }
  destruct (H fd id Hfd) as ((H1 & H2 & H3) & Hpoll & [pid Hpid] & Hlt & Huniq).
  destruct (has event POLLHUP) eqn:Hhup.
  2:{ unfold Supervisor.dispatch. simpl.
      destruct (Z.eqb_spec fd stdin_fd); [contradiction|].
      destruct (Z.eqb_spec fd stdout_fd); [contradiction|].
      destruct (Z.eqb_spec fd notify_child_death_fd); [contradiction|].
      rewrite Hfd, Hhup. intros [= <-]. exact H. }
  destruct (hang_up_of_a_detector notify_child_death_fd stdin_fd stdout_fd
              os_fork fd event id pid rd n s H1 H2 H3 Hhup Hfd Hpoll Hpid)
    as (s1 & -> & Hd & _ & Hm & _ & Hp & _ & _ & _ & _ & Hc).
  intros [= <-] fd1 id1. rewrite Hd, Hm, Hp, Hc. intros Hfd1.
  apply lookup_delete_Some in Hfd1 as [Hne Hfd1].
  destruct (H fd1 id1 Hfd1) as (Hstd & Hpoll1 & Hmap1 & Hlt1 & Huniq1).
  split; [exact Hstd|]. rewrite !lookup_delete_ne.
  - repeat split; auto.
    intros fd' Hfd'. apply lookup_delete_Some in Hfd' as [_ Hfd']. auto.
  - intros <-. apply Hne. symmetry. apply Huniq, Hfd1.
  - exact Hne.
Qed.

Lemma dispatch_all_tracked (evs : list io_event) :
  forall s s',
    tracked s ->
    dispatch_all notify_child_death_fd stdin_fd stdout_fd os_fork evs s
    = Returns s' -> tracked s'.
Proof.
  induction evs as [|ev evs IH]; intros s s' H; simpl.
  - intros [= <-]. exact H.
  - destruct (dispatch ev s) as [s1|e s1] eqn:Hev; [|discriminate]. simpl.
    apply IH. apply (dispatch_tracked _ _ _ H Hev).
Qed.

Lemma arm_tracked (s : state) :
  tracked s -> tracked (arm notify_child_death_fd stdout_fd s).
Proof.
  unfold arm. intros H.
  assert (forall fd mask s0, tracked s0 -> tracked (poll_register fd mask s0))
    as Hreg.
  { intros fd mask s0. apply tracked_frame; auto.
    intros fd' _ _ Hp. simpl.
    destruct (decide (fd = fd')) as [<-|Hne];
      [rewrite lookup_insert_eq; eauto | rewrite lookup_insert_ne; auto]. }
  destruct (output_buf s); destruct (child_death_buf _); auto.
Qed.

(** Every state of the loop, from its start on, tracks its detectors. *)
Lemma run_tracked (ticks : list (list io_event)) :
  forall s s',
    tracked s ->
    run notify_child_death_fd stdin_fd stdout_fd os_fork ticks s = Returns s' ->
    tracked s'.
Proof.
  induction ticks as [|evs ticks IH]; intros s s' H; simpl.
  - intros [= <-]. exact H.
  - destruct (tick _ _ _ _ evs s) as [s1|e s1] eqn:Hev; [|discriminate]. simpl.
    apply IH. apply (dispatch_all_tracked _ _ _ (arm_tracked s H) Hev).
Qed.

(** C6.  Let the supervisor have run from its start through any turns of
    its loop, and let [poll()] then report an event with [POLLHUP] on [fd],
    a descriptor of the death map, which maps it to [dead_child_id].  Then
    the id map holds a pid for that child and the event is handled without
    an exception: the supervisor unregisters [fd] and removes exactly its
    entry from the death map; it closes the readiness descriptor of the
    child if one is pending and removes it from the readiness map; it
    removes the child from the id map and appends [<pid>] and a newline to
    [child_death_buf]; and the entries of every other child in the three
    maps are as before. *)
Theorem child_death_is_reaped (opts : option (json * json))
  (ticks : list (list io_event)) (s : state)
  (fd event dead_child_id : Z) (rd : bytes) (n : Z) :
  run notify_child_death_fd stdin_fd stdout_fd os_fork ticks
    (start stdin_fd opts) = Returns s ->
  child_death_fds s !! fd = Some dead_child_id ->
  has event POLLHUP = true ->
  exists pid s',
    child_id_map s !! dead_child_id = Some pid /\
    dispatch {| ev_fd := fd; ev_mask := event; ev_read := rd; ev_wrote := n |} s
    = Returns s' /\
    child_death_fds s' = delete fd (child_death_fds s) /\
    child_ready_fds s' = delete dead_child_id (child_ready_fds s) /\
    child_id_map s' = delete dead_child_id (child_id_map s) /\
    child_death_buf s' = child_death_buf s ++ Py.str_of_int pid ++ [Py.NL] /\
    poll s' = delete fd (poll s) /\
    sys s' = sys s ++ [SysPollUnregister fd] ++
             match child_ready_fds s !! dead_child_id with
             | Some ready_fd => [SysClose ready_fd]
             | None => []
             end /\
    (forall fd', fd' <> fd -> child_death_fds s' !! fd' = child_death_fds s !! fd') /\
    (forall id, id <> dead_child_id ->
       child_ready_fds s' !! id = child_ready_fds s !! id /\
       child_id_map s' !! id = child_id_map s !! id) /\
    output_buf s' = output_buf s /\
    child_id_counter s' = child_id_counter s.
Proof.
  intros Hrun Hfd Hhup.
  pose proof (run_tracked ticks _ _ (start_tracked opts) Hrun) as H.
  destruct (H fd _ Hfd) as ((H1 & H2 & H3) & Hpoll & [pid Hpid] & _).
  destruct (hang_up_of_a_detector notify_child_death_fd stdin_fd stdout_fd
              os_fork fd event dead_child_id pid rd n s
              H1 H2 H3 Hhup Hfd Hpoll Hpid) as (s' & Hs').
  exists pid, s'. split; [exact Hpid | exact Hs'].
Qed.

End Detectors.

Section Sending.

Import PrewarmProcess.

Lemma slice_to_from {A} (l : list A) (n : Z) :
  Py.slice_to l n ++ Py.slice_from l n = l.
Proof. unfold Py.slice_to, Py.slice_from. apply take_drop. Qed.

Lemma sent_did_write (data : bytes) (self : t) :
  sent (did [SysWrite (write_to_process_fd self) data] self) = sent self ++ data.
Proof.
  unfold sent. simpl. rewrite omap_app, concat_app. simpl.
  rewrite Z.eqb_refl. simpl. rewrite app_nil_r. reflexivity.
Qed.

(** The events of one poll write a prefix of the buffer, in order, and
    touch nothing but the log. *)
Lemma send_events_sent (evs : list (Z * Z * Z)) (buf : bytes) (self : t) :
  let '(r, self') := send_events evs buf self in
  children self' = children self /\
  poll self' = poll self /\
  write_to_process_fd self' = write_to_process_fd self /\
  match r with
  | Ok buf' => sent self' ++ buf' = sent self ++ buf
  | Raise _ => True
  end.
Proof.
  revert buf self. induction evs as [|[[fd event] n] evs IH]; intros buf self; simpl.
  - repeat split; reflexivity.
  - destruct (has event error_events); [repeat split; reflexivity|].
    destruct ((fd =? write_to_process_fd self) && has event POLLOUT).
    + specialize (IH (Py.slice_from buf n)
                    (did [SysWrite (write_to_process_fd self) (Py.slice_to buf n)] self)).
      destruct (send_events evs _ _) as [r self'].
      destruct IH as (Hc & Hp & Hw & Hs). simpl in Hc, Hp, Hw.
      repeat split; try assumption.
      destruct r as [buf'|]; [|exact I].
      rewrite Hs, sent_did_write, <- app_assoc, slice_to_from. reflexivity.
    + apply IH.
Qed.

Lemma poll_to_send_keeps (yes : bool) (self self' : t) :
  poll_to_send yes self = Ok self' ->
  children self' = children self /\ sent self' = sent self /\
  write_to_process_fd self' = write_to_process_fd self /\
  read_from_process_fd self' = read_from_process_fd self.
Proof.
  unfold poll_to_send. destruct yes.
  - intros [= <-]. unfold sent. simpl. rewrite omap_app. simpl.
    rewrite app_nil_r. repeat split; reflexivity.
  - destruct (poll self !! write_to_process_fd self); [|discriminate].
    intros [= <-]. unfold sent. simpl. rewrite omap_app. simpl.
    rewrite app_nil_r. repeat split; reflexivity.
Qed.

Lemma send_finish_sent (buf : bytes) (self : t) :
  let r := send_finish buf self in
  children (self_of r) = children self /\
  write_to_process_fd (self_of r) = write_to_process_fd self /\
  match r with
  | Returned _ self' => sent self' = sent self /\ buf = []
  | _ => True
  end.
Proof.
  unfold send_finish.
  destruct (poll_to_send false self) as [self'|e] eqn:Hp; simpl.
  - apply poll_to_send_keeps in Hp as (? & ? & ? & ?).
    destruct buf; simpl; repeat split; assumption.
  - repeat split; reflexivity.
Qed.

(** [send_to_prewarm_process] never touches the table of children, and
    when it returns it has written exactly [buf]. *)
Lemma send_to_prewarm_process_sent (ticks : list send_tick) (buf : bytes)
  (timeout : Z) (self : t) :
  let r := send_to_prewarm_process ticks buf timeout self in
  children (self_of r) = children self /\
  write_to_process_fd (self_of r) = write_to_process_fd self /\
  match r with
  | Returned _ self' => sent self' = sent self ++ buf
  | _ => True
  end.
Proof.
  assert (forall buf self,
            let r := send_finish buf self in
            children (self_of r) = children self /\
            write_to_process_fd (self_of r) = write_to_process_fd self /\
            match r with
            | Returned _ self' => sent self' = sent self ++ buf
            | _ => True
            end) as Hfin.
  { intros b0 s0. pose proof (send_finish_sent b0 s0) as H. cbv zeta in *.
    destruct H as (? & ? & H). repeat split; try assumption.
    destruct (send_finish b0 s0); try exact I.
    destruct H as [-> ->]. rewrite app_nil_r. reflexivity. }
  revert buf self. induction ticks as [|tk ticks IH]; intros buf self.
  - destruct buf as [|x buf]; [apply Hfin|].
    simpl. repeat split; reflexivity.
  - destruct buf as [|x buf]; [apply Hfin|].
    cbn [send_to_prewarm_process].
    destruct (snd_elapsed tk <? timeout); [|apply Hfin].
    destruct (poll_to_send true self) as [self1|e] eqn:Hp;
      [|simpl; repeat split; reflexivity].
    apply poll_to_send_keeps in Hp as (Hc1 & Hs1 & Hw1 & _).
    pose proof (send_events_sent (snd_events tk) (x :: buf) self1) as He.
    destruct (send_events (snd_events tk) (x :: buf) self1) as [[buf'|e] self2];
      destruct He as (Hc2 & _ & Hw2 & Hs2);
      [|simpl; repeat split; congruence].
    specialize (IH buf' self2). cbv zeta in IH.
    destruct IH as (Hc3 & Hw3 & Hs3).
    repeat split; try congruence.
    destruct (send_to_prewarm_process ticks buf' timeout self2); try exact I.
    rewrite Hs3, Hs2, Hs1. reflexivity.
Qed.

End Sending.

Section ClientCommands.

Import PrewarmProcess.

(** When the pipe takes the whole frame at once, the frame is sent. *)
Lemma send_at_once (frame : bytes) (n : Z) (self : t) :
  frame <> [] -> Py.len frame <= n ->
  exists self',
    send_to_prewarm_process [writable self n] frame (seconds 2) self
    = Returned tt self'.
Proof.
  intros Hne Hn. destruct frame as [|x frame]; [congruence|].
  cbn [send_to_prewarm_process writable snd_elapsed snd_events].
  change (0 <? seconds 2) with true. cbv iota.
  cbn [poll_to_send send_events].
  change (has POLLOUT error_events) with false. cbv iota.
  cbn [write_to_process_fd did set_poll]. rewrite Z.eqb_refl.
  change (has POLLOUT POLLOUT) with true. cbn [andb].
  rewrite slice_from_all by assumption.
  cbn [send_to_prewarm_process]. unfold send_finish, poll_to_send.
  cbn [poll write_to_process_fd did set_poll].
  rewrite lookup_insert_eq. eexists. reflexivity.
Qed.

(** C9.  [mark_child_as_ready(child_id)] returns false, and leaves the
    client as it was, sending nothing, when [child_id] is not in the table
    of children.  Otherwise it removes [child_id] from the table, and when
    it returns it returns true and has sent exactly the frame
    [ready:<child_id>] with its newline; it does return when the pipe of
    the worker takes the frame.  A second call with the same [child_id]
    returns false and sends nothing. *)
Theorem mark_child_as_ready_once (ticks ticks' : list send_tick)
  (child_id : Z) (self : t) :
  let r := mark_child_as_ready ticks child_id self in
  let frame := lit "ready:" ++ Py.str_of_int child_id ++ [Py.NL] in
  (children self !! child_id = None -> r = Returned false self) /\
  (is_Some (children self !! child_id) ->
     children (self_of r) = delete child_id (children self) /\
     (forall b self', r = Returned b self' ->
                      b = true /\ sent self' = sent self ++ frame) /\
     (forall n, Py.len frame <= n -> ticks = [writable self n] ->
                exists self', r = Returned true self')) /\
  mark_child_as_ready ticks' child_id (self_of r) = Returned false (self_of r).
Proof.
  cbv zeta. unfold mark_child_as_ready.
  destruct (children self !! child_id) as [c|] eqn:Hc.
  - pose proof (send_to_prewarm_process_sent ticks
                  (lit "ready:" ++ Py.str_of_int child_id ++ [Py.NL]) (seconds 2)
                  (set_children (delete child_id (children self)) self)) as Hs.
    cbv zeta in Hs. destruct Hs as (Hch & Hw & Hsent).
    assert (children
              (self_of
                 match
                   send_to_prewarm_process ticks
                     (lit "ready:" ++ Py.str_of_int child_id ++ [Py.NL])
                     (seconds 2)
                     (set_children (delete child_id (children self)) self)
                 with
                 | Returned _ self0 => Returned true self0
                 | Raised e self0 => Raised e self0
                 | Waiting self0 => Waiting self0
                 end) = delete child_id (children self)) as Hdel.
    { destruct (send_to_prewarm_process ticks _ _ _); exact Hch. }
    split; [discriminate|]. split.
    + intros _. split; [exact Hdel|]. split.
      * intros b self' Hr.
        destruct (send_to_prewarm_process ticks _ _ _); try discriminate.
        injection Hr as <- <-. split; [reflexivity | exact Hsent].
      * intros n Hn ->.
        destruct (send_at_once (lit "ready:" ++ Py.str_of_int child_id ++ [Py.NL]) n
                    (set_children (delete child_id (children self)) self))
          as [self' Hsend]; [discriminate | exact Hn |].
        change (writable (set_children (delete child_id (children self)) self) n)
          with (writable self n) in Hsend.
        rewrite Hsend. eexists. reflexivity.
    + rewrite Hdel, lookup_delete_eq. reflexivity.
  - split; [reflexivity|]. split; [intros [? [=]]|].
    simpl. rewrite Hc. reflexivity.
Qed.

(** What [reload_kitty_config] sends, whatever the configuration: the
    text between the quotes of the source, braces included. *)
Lemma reload_sends_the_literal (opts : options) (ticks : list send_tick)
  (self self' : t) :
  worker_started self = true ->
  reload_kitty_config opts ticks self = Returned tt self' ->
  sent self' = sent self ++ lit "reload_kitty_config:{self.prewarm_config}" ++ [Py.NL].
Proof.
  intros Hw Hr. unfold reload_kitty_config in Hr. rewrite Hw in Hr.
  pose proof (send_to_prewarm_process_sent ticks
                (lit "reload_kitty_config:{self.prewarm_config}" ++ [Py.NL])
                (seconds 2) self) as Hs.
  cbv zeta in Hs. rewrite Hr in Hs. apply Hs.
Qed.

End ClientCommands.

(** ** The request in shared memory *)

Section SharedMemoryFacts.
Import SharedMemory.

Lemma byte_of_val (k : Z) : Z.of_N (Byte.to_N (byte_of k)) = k mod 256.
Proof.
  unfold byte_of.
  assert (0 <= k mod 256 < 256) as Hr by (apply Z.mod_pos_bound; lia).
  destruct (Byte.of_N (Z.to_N (k mod 256))) as [b|] eqn:E; simpl.
  - apply Byte.to_of_N in E. rewrite E. lia.
  - apply Byte.of_N_None_iff in E. lia.
Qed.

Lemma unpack_pack_size (n : Z) (prefix : bytes) :
  pack_size n = Ok prefix ->
  unpack_size prefix = n /\ Py.len prefix = num_bytes_for_size.
Proof.
  unfold pack_size.
  destruct (Z.leb_spec 0 n); [|discriminate].
  destruct (Z.ltb_spec n (2 ^ 32)); [|discriminate].
  simpl. intros [= <-]. split; [|reflexivity].
  unfold unpack_size. simpl. rewrite !byte_of_val.
  change (2 ^ 8) with 256. change (2 ^ 16) with 65536. change (2 ^ 24) with 16777216.
  change (2 ^ 32) with 4294967296 in *.
  Z.div_mod_to_equations. lia.
Qed.

(** Writing at the end of what has been written so far. *)
Lemma write_at (a z d : bytes) (nm : str) (u : bool) :
  Py.len d <= Py.len z ->
  write {| name := nm; mmap := a ++ z; pos := Py.len a; unlink_on_exit := u |} d
  = Ok {| name := nm; mmap := (a ++ d) ++ drop (length d) z;
          pos := Py.len (a ++ d); unlink_on_exit := u |}.
Proof.
  intros Hd. unfold write. simpl.
  pose proof (len_nonneg a). pose proof (len_nonneg d).
  destruct (Z.leb_spec 0 (Py.len a)); [|lia].
  rewrite len_app.
  destruct (Z.leb_spec (Py.len a + Py.len d) (Py.len a + Py.len z)); [|lia].
  simpl. f_equal. f_equal.
  - unfold Py.len. rewrite Nat2Z.id, take_app_length, <- app_assoc. f_equal. f_equal.
    rewrite <- Nat2Z.inj_add, Nat2Z.id, drop_app_add'; [reflexivity|reflexivity].
  - rewrite len_app. reflexivity.
Qed.

Lemma read_at (a d z : bytes) (nm : str) (u : bool) :
  read {| name := nm; mmap := a ++ d ++ z; pos := Py.len a; unlink_on_exit := u |}
       (Py.len d)
  = Ok (d, {| name := nm; mmap := a ++ d ++ z; pos := Py.len (a ++ d);
              unlink_on_exit := u |}).
Proof.
  unfold read. simpl.
  pose proof (len_nonneg a). pose proof (len_nonneg d). pose proof (len_nonneg z).
  destruct (Z.leb_spec 0 (Py.len a)); [|lia].
  destruct (Z.leb_spec 0 (Py.len d)); [|lia].
  rewrite !len_app.
  destruct (Z.leb_spec (Py.len a + Py.len d) (Py.len a + (Py.len d + Py.len z))); [|lia].
  simpl. f_equal. f_equal.
  rewrite slice_in_range by (rewrite ?len_app; lia).
  replace (Py.len a + Py.len d - Py.len a) with (Py.len d) by lia.
  unfold Py.len. rewrite !Nat2Z.id, drop_app_length, take_app_length. reflexivity.
Qed.
End SharedMemoryFacts.

Section RoundTrip.

Import PrewarmProcess.

Context {codec : JsonCodec}.

(** Reading a fresh stream to its end returns the bytes it wraps. *)
Lemma readall_fresh (m : bytes) :
  (ReadWrapper.readall (ReadWrapper.init m)).1 = m.
Proof.
  unfold ReadWrapper.readall, ReadWrapper.read, ReadWrapper.init.
  cbn [ReadWrapper.mw ReadWrapper.pos]. change (-1 <? 0) with true. cbv iota.
  pose proof (len_nonneg m).
  rewrite Z.sub_0_r, Z.max_r, Z.add_0_l, Z.min_id by lia.
  destruct (Z.leb_spec (Py.len m) 0).
  - cbn [fst]. destruct m; [reflexivity|]. rewrite len_cons in *.
    pose proof (len_nonneg m). lia.
  - cbn [fst]. rewrite slice_in_range by lia.
    rewrite Z.sub_0_r. unfold Py.len. rewrite Nat2Z.id. simpl.
    apply firstn_all.
Qed.

Lemma fill_region_layout (name : str) (data stdin_data : bytes) (prefix : bytes) :
  stdin_data <> [] ->
  SharedMemory.pack_size (Py.len data) = Ok prefix ->
  fill_region name data (Some stdin_data)
  = Ok {| SharedMemory.name := name;
          SharedMemory.mmap := prefix ++ data ++ stdin_data;
          SharedMemory.pos := Py.len (prefix ++ data ++ stdin_data);
          SharedMemory.unlink_on_exit := true |}.
Proof.
  intros Hne Hpack.
  destruct (unpack_pack_size _ _ Hpack) as [_ Hlen].
  unfold fill_region, SharedMemory.write_data_with_size, SharedMemory.create.
  cbv zeta. rewrite Hpack. cbn [mbind result_bind].
  set (z := replicate _ _).
  assert (length z = (length prefix + length data + length stdin_data)%nat) as Hz.
  { subst z. rewrite length_replicate.
    unfold Py.len, SharedMemory.num_bytes_for_size in *. lia. }
  clearbody z.
  pose proof (write_at [] z prefix name true) as Hw1.
  change (Py.len []) with 0 in Hw1. simpl app in Hw1.
  rewrite Hw1 by (unfold Py.len; lia). clear Hw1.
  cbn [mbind result_bind].
  rewrite (write_at prefix _ data) by (unfold Py.len; rewrite length_drop; lia).
  cbn [mbind result_bind].
  destruct stdin_data as [|x xs] eqn:Hs; [congruence|]. rewrite <- Hs in *.
  rewrite (write_at (prefix ++ data) _ stdin_data)
    by (unfold Py.len; rewrite !length_drop; lia).
  f_equal. f_equal.
  - rewrite (nil_length_inv (drop _ (drop _ (drop _ _))))
      by (rewrite !length_drop; lia).
    rewrite app_nil_r, <- !app_assoc. reflexivity.
  - rewrite <- !app_assoc. reflexivity.
Qed.

Lemma request_stdin_size (tty_name cwd : str) (argv : list str)
  (env : list (str * str)) (stdin_data : bytes) :
  Json.get (request_of tty_name cwd argv env (Some stdin_data))
    (lit "stdin_size") (JNum 0) = Ok (JNum (Py.len stdin_data)).
Proof. reflexivity. Qed.

Lemma read_request_layout (name : str) (data stdin_data prefix : bytes) (cmd : json) :
  SharedMemory.pack_size (Py.len data) = Ok prefix ->
  json_loads data = Some cmd ->
  Json.get cmd (lit "stdin_size") (JNum 0) = Ok (JNum (Py.len stdin_data)) ->
  stdin_data <> [] ->
  read_request (Some (prefix ++ data ++ stdin_data)) name
  = (Ok {| rq_cmd := cmd; rq_sz := JNum (Py.len stdin_data);
           rq_pos := Py.len (prefix ++ data); rq_unlink_on_exit := false |}, []).
Proof.
  intros Hpack Hloads Hget Hne.
  destruct (unpack_pack_size _ _ Hpack) as [Hun Hlen].
  unfold read_request, SharedMemory.read_data_with_size, SharedMemory.attach.
  pose proof (read_at [] prefix (data ++ stdin_data) name true) as Hr1.
  change (Py.len []) with 0 in Hr1. simpl app in Hr1.
  rewrite <- Hlen, Hr1. cbn [mbind result_bind]. rewrite Hun.
  rewrite (read_at prefix data stdin_data).
  rewrite Hloads, Hget. simpl Json.truthy.
  destruct (Z.eqb_spec (Py.len stdin_data) 0) as [H0|H0].
  - destruct stdin_data; [congruence | discriminate].
  - reflexivity.
Qed.

(** C7.  For a request with stdin bytes that are not empty, whose JSON
    fits the size prefix and is read back by [json.loads] as it was
    written: the controller fills a region of exactly
    [header + |json| + |stdin|] bytes with the size prefix, the JSON and
    the stdin bytes, in that order and contiguously; the supervisor reads
    the request back, records the offset that follows the JSON and leaves
    the region in place; and the slice of [stdin_size] bytes at that
    offset, which the child installs as its stdin, is byte for byte what
    the controller supplied, as is what reading that stream to its end
    returns. *)
Theorem stdin_round_trip (name tty_name cwd : str) (argv : list str)
  (env : list (str * str)) (stdin_data : bytes) :
  let cmd := request_of tty_name cwd argv env (Some stdin_data) in
  let data := json_dumps cmd in
  stdin_data <> [] ->
  Py.len data < 2 ^ 32 ->
  json_loads data = Some cmd ->
  exists (prefix : bytes) (shm : SharedMemory.t) (rq : request),
    fill_region name data (Some stdin_data) = Ok shm /\
    SharedMemory.mmap shm = prefix ++ data ++ stdin_data /\
    Py.len prefix = SharedMemory.num_bytes_for_size /\
    SharedMemory.unpack_size prefix = Py.len data /\
    Py.len (SharedMemory.mmap shm)
    = SharedMemory.num_bytes_for_size + Py.len data + Py.len stdin_data /\
    read_request (Some (SharedMemory.mmap shm)) name = (Ok rq, []) /\
    rq_cmd rq = cmd /\
    rq_sz rq = JNum (Py.len stdin_data) /\
    rq_pos rq = SharedMemory.num_bytes_for_size + Py.len data /\
    Py.slice (SharedMemory.mmap shm) (rq_pos rq) (rq_pos rq + Py.len stdin_data)
    = stdin_data /\
    (forall (w : child_world) (wr ready_fd : Z),
       cw_region w = Some (SharedMemory.mmap shm) -> cw_tty w = None ->
       In (SetStdin (ReadWrapper.init stdin_data))
          (fork_in_child w rq wr name ready_fd).1) /\
    (ReadWrapper.readall (ReadWrapper.init stdin_data)).1 = stdin_data.
Proof.
  intros cmd data Hne Hsize Hloads.
  destruct (SharedMemory.pack_size (Py.len data)) as [prefix|e] eqn:Hpack.
  2:{ unfold SharedMemory.pack_size in Hpack. pose proof (len_nonneg data).
      destruct (Z.leb_spec 0 (Py.len data)); [|lia].
      destruct (Z.ltb_spec (Py.len data) (2 ^ 32)); [|lia]. discriminate. }
  destruct (unpack_pack_size _ _ Hpack) as [Hun Hlen].
  eexists prefix, _, _.
  split; [apply (fill_region_layout name data stdin_data prefix Hne Hpack)|].
  cbn [SharedMemory.mmap].
  split; [reflexivity|]. split; [exact Hlen|]. split; [exact Hun|].
  split; [rewrite !len_app, Hlen; lia|].
  split; [apply (read_request_layout name data stdin_data prefix cmd Hpack Hloads);
          [reflexivity | exact Hne]|].
  cbn [rq_cmd rq_sz rq_pos].
  split; [reflexivity|]. split; [reflexivity|].
  split; [rewrite len_app, Hlen; reflexivity|].
  assert (Py.slice (prefix ++ data ++ stdin_data) (Py.len (prefix ++ data))
            (Py.len (prefix ++ data) + Py.len stdin_data) = stdin_data) as Hslice.
  { pose proof (len_nonneg (prefix ++ data)). pose proof (len_nonneg stdin_data).
    rewrite slice_in_range by (rewrite ?app_assoc, ?len_app in *; lia).
    replace (Py.len (prefix ++ data) + Py.len stdin_data - Py.len (prefix ++ data))
      with (Py.len stdin_data) by lia.
    rewrite app_assoc. unfold Py.len. rewrite !Nat2Z.id, drop_app_length.
    apply firstn_all. }
  split; [exact Hslice|].
  split; [|apply readall_fresh].
  intros w wr ready_fd Hregion Htty.
  unfold fork_in_child. cbn [rq_cmd rq_sz rq_pos rq_unlink_on_exit].
  change (Json.get cmd (lit "tty_name") JNull) with (Ok (JStr tty_name)).
  rewrite Htty, Hregion, Hslice.
  destruct (child_main w cmd ready_fd) as [b e].
  destruct stdin_data as [|x xs] eqn:Hs; [congruence|]. rewrite <- Hs in *.
  destruct (Json.truthy (JStr tty_name)); rewrite Hs; rewrite <- Hs; cbn [fst];
    rewrite !in_app_iff; simpl; tauto.
Qed.

End RoundTrip.

(** ** The readiness gate of the child *)

Section ReadinessGate.

Lemma quiet_app (a b : list action) : quiet a -> quiet b -> quiet (a ++ b).
Proof. unfold quiet. rewrite in_app_iff. tauto. Qed.

Lemma quiet_nil : quiet [].
Proof. intros []. Qed.

Lemma quiet_cons (x : action) (l : list action) :
  x <> MainEntryPoint -> quiet l -> quiet (x :: l).
Proof. unfold quiet. simpl. intros ? ? [?|?]; congruence || tauto. Qed.

Ltac quiet := repeat (apply quiet_app || apply quiet_nil ||
                      (apply quiet_cons; [discriminate|])).

(** [child_main] either never reaches the dispatcher, or ends with the
    gate. *)
Lemma child_main_gate (w : child_world) (cmd : json) (ready_fd : Z) :
  let acts := (child_main w cmd ready_fd).1 in
  quiet acts \/ exists pre, acts = pre ++ gate w ready_fd /\ quiet pre.
Proof.
  unfold child_main.
  destruct (Json.get cmd (lit "cwd") JNull) as [cwd|]; [|left; apply quiet_nil].
  destruct (if Json.truthy cwd then _ else _) as [a1|] eqn:H1;
    [|left; apply quiet_nil].
  assert (quiet a1) as Q1.
  { destruct (Json.truthy cwd); [destruct cwd|]; try discriminate;
      injection H1 as <-; quiet. }
  destruct (Json.get cmd (lit "env") JNull) as [env|]; [|left; exact Q1].
  destruct (match env with JNull => _ | _ => _ end) as [a2|] eqn:H2;
    [|left; simpl; quiet; exact Q1].
  assert (quiet a2) as Q2.
  { destruct env; try discriminate; injection H2 as <-; quiet. }
  destruct (Json.get cmd (lit "argv") JNull) as [argv|];
    [|left; simpl; quiet; assumption].
  destruct (if Json.truthy argv then _ else _) as [a3|] eqn:H3;
    [|left; simpl; quiet; assumption].
  assert (quiet a3) as Q3.
  { destruct (Json.truthy argv); [destruct argv|]; try discriminate;
      injection H3 as <-; quiet. }
  right. exists (a1 ++ a2 ++ a3). simpl. split.
  - rewrite <- !app_assoc. reflexivity.
  - quiet; assumption.
Qed.

(** C8.  In what a forked child does from [os.fork()] on, the dispatcher
    entry point is either never invoked, or invoked once, and then the
    three steps before it are: the readiness descriptor is registered for
    [POLLIN | POLLERR | POLLHUP], the poll on it has returned, with at
    least one event, and the readiness descriptor has been closed.  So
    the child runs no user code before it has observed readiness or
    hang-up. *)
Theorem dispatcher_waits_for_readiness (w : child_world) (rq : request)
  (wr : Z) (shm_address : str) (ready_fd : Z) :
  let acts := (fork_in_child w rq wr shm_address ready_fd).1 in
  quiet acts \/
  exists pre post ev evs,
    acts = pre ++ [PollRegister ready_fd (Z.lor (Z.lor POLLIN POLLERR) POLLHUP);
                   PollReturned (ev :: evs);
                   Close ready_fd;
                   MainEntryPoint] ++ post /\
    quiet pre /\ quiet post.
Proof.
  unfold fork_in_child.
  destruct (Json.get (rq_cmd rq) (lit "tty_name") JNull) as [tty_name|];
    [|left; simpl; quiet].
  destruct (if Json.truthy tty_name then _ else _) as [a1|] eqn:H1;
    [|left; simpl; quiet].
  assert (quiet a1) as Q1.
  { destruct (Json.truthy tty_name); [destruct (cw_tty w)|]; try discriminate;
      injection H1 as <-; quiet. }
  pose proof (child_main_gate w (rq_cmd rq) ready_fd) as Hm. cbv zeta in Hm.
  destruct (rq_unlink_on_exit rq).
  - destruct (child_main w (rq_cmd rq) ready_fd) as [b e]. simpl in *.
    destruct Hm as [Hq | (pre & -> & Hq)].
    + left. quiet; assumption.
    + right. exists (SetInheritable wr false :: Setsid :: (a1 ++ [Write wr (lit "1")]) ++ pre),
        [], (cw_poll w).1, (cw_poll w).2.
      split; [|split; [quiet; assumption | apply quiet_nil]].
      unfold gate. simpl. repeat (rewrite <- app_assoc; simpl). reflexivity.
  - destruct (cw_region w) as [region|]; [|left; simpl; quiet; assumption].
    destruct (match rq_sz rq with JNum n => _ | _ => _ end) as [sz|];
      [|left; simpl; quiet; assumption].
    set (stdin_data := Py.slice region (rq_pos rq) (rq_pos rq + sz)).
    set (a := match stdin_data with [] => _ | _ => _ end).
    assert (quiet a) as Qa.
    { subst a. destruct stdin_data; simpl; quiet; assumption. }
    destruct (child_main w (rq_cmd rq) ready_fd) as [b e]. simpl in *.
    destruct Hm as [Hq | (pre & -> & Hq)].
    + left. quiet; assumption.
    + right. exists (a ++ pre), [ResetStdin; ShmUnlink shm_address],
        (cw_poll w).1, (cw_poll w).2.
      split; [|split; quiet; assumption].
      unfold gate. simpl. repeat (rewrite <- app_assoc; simpl). reflexivity.
Qed.

End ReadinessGate.

(** ** The reply to a fork request *)

Section Replies.

Import PrewarmProcess.

Lemma reply_line_record (line : str) (self other : t) :
  reply_line line self
  = ((reply_line line other).1, record (reply_line line other).1 self).
Proof.
  unfold reply_line.
  destruct (Py.startswith (lit "CHILD:") line).
  - destruct (Py.split Py.COLON line) as [|? [|cid [|pid [|? ?]]]]; try reflexivity.
    destruct (Py.int cid); [|reflexivity].
    destruct (Py.int pid); reflexivity.
  - destruct (Py.startswith (lit "ERR:") line); reflexivity.
Qed.

(** A byte that occurs splits the buffer at its first occurrence. *)
Lemma find_split (c : byte) (s : bytes) :
  0 <= Py.find c s ->
  exists a b, s = a ++ c :: b /\ Py.free_of c a.
Proof.
  induction s as [|x s IH]; simpl; [lia|].
  destruct (Byte.eqb x c) eqn:E.
  - intros _. apply byte_dec_bl in E. subst x.
    exists [], s. split; [reflexivity | apply free_of_nil].
  - destruct (Z.ltb_spec (Py.find c s) 0); [lia|]. intros _.
    destruct IH as (a & b & -> & Hf); [lia|].
    exists (x :: a), b. split; [reflexivity|].
    apply free_of_cons. split; assumption.
Qed.

Lemma free_or_split (c : byte) (s : bytes) :
  Py.free_of c s \/ exists a b, s = a ++ c :: b /\ Py.free_of c a.
Proof.
  pose proof (find_range c s).
  destruct (Z.eq_dec (Py.find c s) (-1)); [left; assumption|].
  right. apply find_split. lia.
Qed.

Lemma reply_lines_scan (stream : bytes) (self : t) :
  reply_lines stream self = (scan stream, record (scan stream).1 self).
Proof.
  unfold scan.
  remember (length stream) as n eqn:Hn. revert stream Hn self.
  induction n as [n IH] using lt_wf_ind. intros stream Hn self.
  destruct (free_or_split Py.NL stream) as [Hf | (line & rest & -> & Hf)].
  - rewrite !reply_lines_partial by assumption. reflexivity.
  - rewrite !reply_lines_line by assumption.
    rewrite (reply_line_record line self (init (0, 0))).
    rewrite (reply_line_record line (init (0, 0)) (init (0, 0))).
    destruct (reply_line line (init (0, 0))).1 as [c| e |] eqn:Hv;
      try reflexivity.
    cbn [record fst snd].
    assert (length rest < n)%nat as Hlt
        by (subst n; rewrite length_app; simpl; lia).
    rewrite (IH _ Hlt rest eq_refl self).
    rewrite (IH _ Hlt rest eq_refl (init (0, 0))). reflexivity.
Qed.









Lemma scan_err_frame (msg after : bytes) :
  Py.free_of Py.NL msg ->
  scan (lit "ERR:" ++ msg ++ [Py.NL] ++ after)
  = (Failed (PrewarmProcessFailed msg), after).
Proof. intros H. unfold scan. rewrite reply_lines_err_frame by exact H. reflexivity. Qed.


End Replies.

(** ** The code at concrete inputs *)

Section SupervisorRuns.

Import Supervisor.

(** C1, where the code departs from it.  A supervisor forks a child,
    releases it on [ready:0], and is then sent [ready:0] again, followed by
    [echo:ping].  The second release finds no entry in the readiness map:
    [child_ready_fds.pop(child_id)] raises [KeyError], the exception
    leaves [handle_input] and the loop, and [main] ends with it.  The
    frame is not ignored, and the echo that follows is never answered. *)
Theorem repeated_ready_stops_the_supervisor :
  let input := lit "fork:shm0" ++ [Py.NL] ++ lit "ready:0" ++ [Py.NL] ++
               lit "ready:0" ++ [Py.NL] ++ lit "echo:ping" ++ [Py.NL] in
  exists s,
    Scenario.run Scenario.forks_succeed [[Scenario.stdin_readable input]]
    = Raises (KeyError (lit "0")) s /\
    output_buf s = lit "CHILD:0:4242" ++ [Py.NL] /\
    input_buf s = lit "echo:ping" ++ [Py.NL] /\
    child_ready_fds s = ∅ /\
    leave (KeyError (lit "0")) s = (KeyError (lit "0"), s).
Proof.
  eexists. split; [vm_compute; reflexivity|].
  repeat split.
Qed.

(** The fourth scenario of the specification: the child dies before it
    is released, its death is notified, and the later [ready:0] stops the
    supervisor in the same way. *)
Example ready_after_death_stops_the_supervisor :
  exists s,
    Scenario.run Scenario.forks_succeed
      [[Scenario.stdin_readable (lit "fork:shm0" ++ [Py.NL])];
       [Scenario.hung_up 7];
       [Scenario.stdin_readable
          (lit "ready:0" ++ [Py.NL] ++ lit "echo:ping" ++ [Py.NL])]]
    = Raises (KeyError (lit "0")) s /\
    output_buf s = lit "CHILD:0:4242" ++ [Py.NL] /\
    child_death_buf s = lit "4242" ++ [Py.NL].
Proof.
  eexists. split; [vm_compute; reflexivity|].
  repeat split.
Qed.

(** Three forks, the second of which fails and arrives split over two
    reads, announce the children 0 and 1; an echoed [CHILD:] line is no
    announcement. *)
Example ids_skip_no_number :
  let world n := if Nat.eqb n 1 then Scenario.region_is_missing n
                 else Scenario.forks_succeed n in
  PrewarmProcess.child_id <$>
    Session.announced
      (Session.run_log (codec := AsciiJson.codec) 3 0 1 world
         [[Scenario.stdin_readable (lit "fork:shm0" ++ [Py.NL] ++ lit "fork:sh")];
          [Scenario.stdin_readable
             (lit "m0" ++ [Py.NL] ++ lit "echo:CHILD:7:7" ++ [Py.NL] ++
              lit "fork:shm0" ++ [Py.NL])]]
         (start 0 None))
  = [0; 1].
Proof. vm_compute. reflexivity. Qed.


Lemma child_death_is_reaped_witness :
  let s := final (Scenario.run Scenario.forks_succeed
                    [[Scenario.stdin_readable (lit "fork:shm0" ++ [Py.NL])]]) in
  exists s',
    dispatch (codec := AsciiJson.codec) 3 0 1 Scenario.forks_succeed
      (Scenario.hung_up 7) s = Returns s' /\
    child_death_buf s' = lit "4242" ++ [Py.NL] /\
    child_death_fds s' = delete 7 (child_death_fds s).
Proof.
  intros s.
  assert (pipes_are_new 3 0 1 Scenario.forks_succeed) as Hnew
    by (intros n; simpl; lia).
  destruct (child_death_is_reaped (codec := AsciiJson.codec) 3 0 1
              Scenario.forks_succeed Hnew None
              [[Scenario.stdin_readable (lit "fork:shm0" ++ [Py.NL])]]
              s 7 POLLHUP 0 [] 0)
    as (pid & s' & Hpid & Hrun & Hfds & _ & _ & Hbuf & _);
    [vm_compute; reflexivity | vm_compute; reflexivity | reflexivity |].
  assert (pid = 4242) as -> by (vm_compute in Hpid; congruence).
  exists s'. split; [exact Hrun|]. split; [exact Hbuf | exact Hfds].
Defined.

End SupervisorRuns.

Section ClientRuns.

Import PrewarmProcess.

(** C2, where the code departs from it.  With the worker started and the
    configuration [paths = ["/a"]], [overrides = []], the bytes that
    [reload_kitty_config] sends are the characters between the quotes of
    the source, [{self.prewarm_config}] included, because the string is
    not an f-string; they are not the frame that carries the JSON of the
    configuration.  A supervisor that reads them fails to decode the
    payload and ends with [JSONDecodeError]. *)
Theorem reload_kitty_config_sends_a_placeholder :
  exists self',
    reload_kitty_config Scenario.opts [writable Scenario.client 64] Scenario.client
    = Returned tt self' /\
    sent self' = lit "reload_kitty_config:{self.prewarm_config}" ++ [Py.NL] /\
    prewarm_config (codec := AsciiJson.codec) Scenario.opts
    = lit "{" ++ AsciiJson.quote (lit "paths") ++ lit ": [" ++
      AsciiJson.quote (lit "/a") ++ lit "], " ++
      AsciiJson.quote (lit "overrides") ++ lit ": []}" /\
    sent self' <> lit "reload_kitty_config:" ++
                  prewarm_config (codec := AsciiJson.codec) Scenario.opts ++ [Py.NL] /\
    exists s,
      Scenario.run Scenario.forks_succeed [[Scenario.stdin_readable (sent self')]]
      = Supervisor.Raises (JSONDecodeError (lit "Expecting value")) s.
Proof.
  eexists. split; [vm_compute; reflexivity|].
  repeat split.
  - vm_compute. discriminate.
  - eexists. vm_compute. reflexivity.
Qed.

Lemma mark_child_as_ready_once_witness :
  exists self',
    mark_child_as_ready [writable Scenario.client_with_child 64] 0
      Scenario.client_with_child
    = Returned true self'.
Proof.
  destruct (mark_child_as_ready_once
              [writable Scenario.client_with_child 64] [] 0
              Scenario.client_with_child) as (_ & H & _).
  destruct H as (_ & _ & H); [eexists; vm_compute; reflexivity|].
  apply (H 64); [vm_compute; discriminate | reflexivity].
Defined.



Lemma stdin_round_trip_witness :
  exists shm rq,
    fill_region Scenario.shm_name
      (AsciiJson.dumps
         (request_of Scenario.tty_name Scenario.cwd Scenario.argv
            Scenario.env (Some (lit "hello"))))
      (Some (lit "hello")) = Ok shm /\
    read_request (codec := AsciiJson.codec) (Some (SharedMemory.mmap shm))
      Scenario.shm_name = (Ok rq, []) /\
    Py.slice (SharedMemory.mmap shm) (rq_pos rq) (rq_pos rq + 5) = lit "hello".
Proof.
  destruct (stdin_round_trip (codec := AsciiJson.codec) Scenario.shm_name
              Scenario.tty_name Scenario.cwd Scenario.argv Scenario.env
              (lit "hello"))
    as (prefix & shm & rq & Hfill & _ & _ & _ & _ & Hread & _ & _ & _ & Hslice & _);
    [discriminate | vm_compute; reflexivity | vm_compute; reflexivity |].
  exists shm, rq. split; [exact Hfill|]. split; [exact Hread | exact Hslice].
Defined.

(** The child of the second scenario of the specification installs
    [hello] as its stdin and enters the dispatcher behind the gate. *)
Example child_with_stdin_reaches_the_dispatcher :
  let region := Scenario.region_of (Some (lit "hello")) in
  exists rq,
    read_request (codec := AsciiJson.codec) (Some region) Scenario.shm_name
    = (Ok rq, []) /\
    (fork_in_child (Scenario.released (Some region)) rq 8 Scenario.shm_name 5).1
    = [SetInheritable 8 false; Setsid; FlushStd;
       EstablishControllingTty (JStr Scenario.tty_name);
       Write 8 (lit "1"); ShmAttach Scenario.shm_name;
       SetStdin (ReadWrapper.init (lit "hello"));
       Chdir Scenario.cwd; EnvironClear;
       EnvironUpdate [(lit "X", JStr (lit "1"))];
       SetArgv (JList [JStr (lit "cmd"); JStr (lit "--flag")])] ++
      gate (Scenario.released (Some region)) 5 ++
      [ResetStdin; ShmUnlink Scenario.shm_name].
Proof.
  eexists. split; vm_compute; reflexivity.
Qed.

End ClientRuns.

(** * Further properties of the code *)

(** ** Poll events *)

Section Events.

Import Supervisor.

Lemma has_lor (event a b : Z) :
  has event (Z.lor a b) = has event a || has event b.
Proof.
  unfold has. rewrite Z.land_lor_distr_r.
  destruct (Z.eqb_spec (Z.land event a) 0) as [Ha|Ha];
    destruct (Z.eqb_spec (Z.land event b) 0) as [Hb|Hb];
    destruct (Z.eqb_spec (Z.lor (Z.land event a) (Z.land event b)) 0) as [H|H];
    try reflexivity; exfalso.
  - apply H. apply Z.lor_eq_0_iff. split; assumption.
  - apply Z.lor_eq_0_iff in H. tauto.
  - apply Z.lor_eq_0_iff in H. tauto.
  - apply Z.lor_eq_0_iff in H. tauto.
Qed.

Lemma has_error_events (event : Z) :
  has event error_events
  = has event POLLERR || has event POLLNVAL || has event POLLHUP.
Proof. unfold error_events. rewrite !has_lor. reflexivity. Qed.

(** X1.  [check_event] sorts every event mask into one of three cases, the
    hang-up first: with [POLLHUP] set it raises [SystemExit(0)], also when
    [POLLERR] or [POLLNVAL] are set with it; without [POLLHUP] but with
    [POLLERR] or [POLLNVAL] it raises [SystemExit(err_msg)], whose exit
    status is 1; and it returns exactly for the masks without any of the
    three bits. *)
Theorem check_event_sorts_events (event : Z) (err_msg : str) :
  check_event event err_msg
  = (if has event POLLHUP then Some (SystemExit 0 [])
     else if has event POLLERR || has event POLLNVAL
          then Some (SystemExit 1 err_msg)
          else None) /\
  (check_event event err_msg = None <-> has event error_events = false).
Proof.
  unfold check_event. rewrite has_error_events.
  destruct (has event POLLHUP), (has event POLLERR), (has event POLLNVAL);
    simpl; split; try reflexivity; split; congruence.
Qed.

End Events.

(** ** Reading into a buffer *)

Section ReadInto.

Import ReadWrapper.

(** A bounded read of a wrapper whose position is within its view. *)
Lemma read_bounded (self : MemoryViewReadWrapperBytes) (n : Z) :
  0 <= pos self <= Py.len (mw self) -> 0 <= n ->
  let k := Z.min n (Py.len (mw self) - pos self) in
  read self (Some n)
  = (take (Z.to_nat k) (drop (Z.to_nat (pos self)) (mw self)),
     {| mw := mw self; pos := pos self + k |}).
Proof.
  intros Hp Hn k. unfold read.
  destruct (Z.ltb_spec n 0); [lia|]. cbn [mw pos].
  replace (Z.min (Py.len (mw self)) (pos self + n)) with (pos self + k) by lia.
  destruct (Z.leb_spec (pos self + k) (pos self)).
  - replace k with 0 by lia. reflexivity.
  - rewrite slice_in_range by lia. do 3 f_equal. lia.
Qed.

(** X2.  [readinto(b)] on a wrapper whose position is within its view
    copies [n = min(len(b), len(mw) - pos)] bytes, the next [n] of the
    view, to the front of [b], leaves the rest of [b] and its length as
    they were, advances the position by [n] and returns [n]. *)
Theorem readinto_fills_the_front (self : MemoryViewReadWrapperBytes)
  (b : bytes) :
  0 <= pos self <= Py.len (mw self) ->
  let '(b', n, self') := readinto self b in
  n = Z.min (Py.len b) (Py.len (mw self) - pos self) /\
  Py.len b' = Py.len b /\
  Py.slice_to b' n = Py.slice (mw self) (pos self) (pos self + n) /\
  Py.slice_from b' n = Py.slice_from b n /\
  mw self' = mw self /\
  pos self' = pos self + n.
Proof.
  intros Hp. unfold readinto.
  pose proof (len_nonneg b) as Hb.
  rewrite (read_bounded self (Py.len b) Hp Hb). cbv zeta.
  set (k := Z.min (Py.len b) (Py.len (mw self) - pos self)).
  set (d := take (Z.to_nat k) (drop (Z.to_nat (pos self)) (mw self))).
  assert (Py.len d = k) as Hd.
  { subst d. unfold Py.len in *. rewrite length_take, length_drop. lia. }
  rewrite Hd. cbn [mw pos].
  assert (Py.len (Py.slice_from b k) = Py.len b - k) as Hrest.
  { unfold Py.slice_from. rewrite clamp_index_in_range by lia.
    unfold Py.len in *. rewrite length_drop. lia. }
  repeat split.
  - rewrite len_app, Hd, Hrest. lia.
  - pose proof (slice_to_app d (Py.slice_from b k)) as H. rewrite Hd in H.
    rewrite H, slice_in_range by lia. subst d. do 2 f_equal. lia.
  - pose proof (slice_from_app d (Py.slice_from b k)) as H. rewrite Hd in H.
    exact H.
Qed.

(** X3.  Two bounded reads in a row return, together, what one read of
    the sum of their sizes returns, and leave the wrapper where that read
    leaves it. *)
Theorem reads_in_a_row_add_up (self : MemoryViewReadWrapperBytes) (a b : Z) :
  0 <= pos self <= Py.len (mw self) -> 0 <= a -> 0 <= b ->
  let '(got1, self1) := read self (Some a) in
  let '(got2, self2) := read self1 (Some b) in
  read self (Some (a + b)) = (got1 ++ got2, self2).
Proof.
  intros Hp Ha Hb.
  rewrite (read_bounded self a Hp Ha). cbv zeta.
  set (k1 := Z.min a (Py.len (mw self) - pos self)).
  rewrite (read_bounded {| mw := mw self; pos := pos self + k1 |} b)
    by (cbn [mw pos]; lia). cbv zeta. cbn [mw pos].
  set (k2 := Z.min b (Py.len (mw self) - (pos self + k1))).
  rewrite (read_bounded self (a + b) Hp) by lia. cbv zeta.
  replace (Z.min (a + b) (Py.len (mw self) - pos self)) with (k1 + k2) by lia.
  f_equal; [|f_equal; lia].
  replace (Z.to_nat (pos self + k1))
    with (Z.to_nat (pos self) + Z.to_nat k1)%nat by lia.
  rewrite <- drop_drop.
  replace (Z.to_nat (k1 + k2)) with (Z.to_nat k1 + Z.to_nat k2)%nat by lia.
  symmetry. apply take_take_drop.
Qed.

Lemma readinto_fills_the_front_witness :
  let '(b', n, self') := readinto (init (lit "hello")) (lit "........") in
  n = 5 /\ Py.slice_to b' n = lit "hello" /\ Py.slice_from b' n = lit "...".
Proof.
  pose proof (readinto_fills_the_front (init (lit "hello")) (lit "........")
                ltac:(vm_compute; split; discriminate)) as H.
  destruct (readinto (init (lit "hello")) (lit "........")) as [[b' n] self'].
  destruct H as (Hn & _ & Hto & Hfrom & _).
  vm_compute in Hn. subst n. split; [reflexivity|]. split.
  - rewrite Hto. reflexivity.
  - rewrite Hfrom. reflexivity.
Defined.

Lemma reads_in_a_row_add_up_witness :
  read (init (lit "hello")) (Some 7)
  = (lit "he" ++ lit "llo", mk (lit "hello") 5).
Proof.
  exact (reads_in_a_row_add_up (init (lit "hello")) 2 5
           ltac:(vm_compute; split; discriminate)
           ltac:(discriminate) ltac:(discriminate)).
Defined.

End ReadInto.

(** ** The command line and the descriptors of the client *)

Section ClientLifecycle.

Import PrewarmProcess.

Lemma startswith_prefix (p s : str) :
  Py.startswith p s = true <-> exists t, s = p ++ t.
Proof.
  split.
  - revert s. induction p as [|x p IH]; intros s; simpl; [eauto|].
    destruct s as [|y s]; [discriminate|].
    intros H. apply andb_true_iff in H as [Hx Hp].
    apply byte_dec_bl in Hx as ->.
    destruct (IH s Hp) as [t ->]. eauto.
  - intros [t ->]. apply startswith_app.
Qed.

Lemma list_eqb_eq (a b : list str) : list_eqb a b = true <-> a = b.
Proof.
  revert b. induction a as [|x a IH]; intros [|y b]; simpl;
    try (split; [discriminate | congruence]); [tauto|].
  rewrite andb_true_iff, IH, eqb_eq. split.
  - intros [-> ->]. reflexivity.
  - intros [= -> ->]. split; reflexivity.
Qed.

Lemma slice_to_take {A} (l : list A) (n : Z) :
  0 <= n -> Py.slice_to l n = take (Z.to_nat n) l.
Proof.
  intros Hn. unfold Py.slice_to, Py.clamp_index.
  destruct (Z.ltb_spec n 0); [lia|].
  destruct (Z.le_ge_cases n (Py.len l)).
  - rewrite Z.min_l by lia. reflexivity.
  - rewrite Z.min_r by lia. unfold Py.len in *. rewrite Nat2Z.id, firstn_all.
    symmetry. apply take_ge. lia.
Qed.

(** X4.  [is_prewarmed_argv] accepts exactly the lists that start with
    the kitty executable and [+runpy] and whose third element starts
    with [from kitty.prewarm import main; main(]; in particular it rejects
    every list of two elements or fewer, and it accepts the command line
    with which [ensure_worker] starts the worker, whatever the
    descriptor. *)
Theorem is_prewarmed_argv_accepts_the_worker (kitty_exe : str)
  (argv : list str) (self : t) :
  (is_prewarmed_argv kitty_exe argv = true <->
   exists tail rest,
     argv = kitty_exe :: lit "+runpy" ::
            (lit "from kitty.prewarm import main; main(" ++ tail) :: rest) /\
  ((length argv <= 2)%nat -> is_prewarmed_argv kitty_exe argv = false) /\
  is_prewarmed_argv kitty_exe (worker_argv kitty_exe self) = true.
Proof.
  assert (is_prewarmed_argv kitty_exe argv = true <->
          exists tail rest,
            argv = kitty_exe :: lit "+runpy" ::
                   (lit "from kitty.prewarm import main; main(" ++ tail) :: rest)
    as Hiff.
  { unfold is_prewarmed_argv. split.
    - destruct (list_eqb _ _) eqn:Heq; [|discriminate]. cbn [negb].
      apply list_eqb_eq in Heq. rewrite slice_to_take in Heq by lia.
      destruct argv as [|a [|b [|c rest]]]; try discriminate.
      injection Heq as -> ->. intros H. apply andb_true_iff in H as [_ H].
      cbn [lookup list_lookup] in H.
      apply startswith_prefix in H as [tail ->]. eauto.
    - intros (tail & rest & ->). rewrite slice_to_take by lia.
      replace (list_eqb _ _) with true
        by (symmetry; apply list_eqb_eq; reflexivity).
      cbn [negb]. apply andb_true_iff. split.
      + apply Z.gtb_lt. rewrite !len_cons. pose proof (len_nonneg rest). lia.
      + apply startswith_app. }
  split; [exact Hiff|]. split.
  - intros Hlen. destruct (is_prewarmed_argv kitty_exe argv); [|reflexivity].
    destruct (proj1 Hiff eq_refl) as (tail & rest & ->). simpl in Hlen. lia.
  - unfold worker_argv.
    replace (is_prewarmed_argv _ _) with
      (is_prewarmed_argv kitty_exe
         (kitty_exe :: lit "+runpy" ::
          (lit "from kitty.prewarm import main; main(" ++
           (Py.str_of_int (in_worker_fd self) ++ lit ")")) :: [])).
    + unfold is_prewarmed_argv. rewrite slice_to_take by lia.
      replace (list_eqb _ _) with true
        by (symmetry; apply list_eqb_eq; reflexivity).
      cbn [negb]. apply andb_true_iff. split; [reflexivity|].
      apply startswith_app.
    + reflexivity.
Qed.

(** X5.  [take_from_worker_fd] hands the descriptor over once: it returns
    it and leaves -1 behind, so a second call returns -1.  [__del__] on a
    client that still holds a descriptor closes it first and then does
    exactly what it does on the client from which the descriptor was
    taken, so a descriptor that was taken is not closed by [__del__]. *)
Theorem taken_descriptor_is_not_closed (from_worker : option Z)
  (wait_expires : bool) (self : t) :
  let '(fd, self') := take_from_worker_fd self in
  fd = from_worker_fd self /\
  (take_from_worker_fd self').1 = -1 /\
  (del from_worker wait_expires self').1
  = (match from_worker with Some f => [DelClose f] | None => [] end) ++
    (if worker_started self then
       [DelClose (write_to_process_fd self); DelClose (read_from_process_fd self);
        DelWait] ++ (if wait_expires then [DelKill] else [])
     else []) /\
  (del from_worker wait_expires self).1
  = (if from_worker_fd self >? -1 then [DelClose (from_worker_fd self)] else []) ++
    (del from_worker wait_expires self').1 /\
  (del from_worker wait_expires self).2
  = (if from_worker_fd self >? -1 then self' else self).
Proof.
  unfold take_from_worker_fd, del. cbn [fst snd from_worker_fd].
  change (-1 >? -1) with false. cbv iota.
  unfold worker_started. cbn [in_worker_fd write_to_process_fd read_from_process_fd].
  destruct (from_worker_fd self >? -1); cbn [fst snd app];
    repeat split; reflexivity.
Qed.

End ClientLifecycle.

(** ** The configuration of the worker *)

Section Configuration.

Import Supervisor.

Context {codec : JsonCodec}.
Variable os_fork : nat -> fork_world.

Lemma reload_line (payload : str) (s : state) :
  handle_line os_fork (lit "reload_kitty_config:" ++ payload) s
  = reload_kitty_config (set_config (Some payload) s).
Proof.
  unfold handle_line.
  change (lit "reload_kitty_config:" ++ payload)
    with (lit "reload_kitty_config" ++ Py.COLON :: payload).
  rewrite partition_command by reflexivity. reflexivity.
Qed.

(** X6.  The configuration that the client serialises in [prewarm_config]
    is the one the supervisor installs, when [json.loads] reads back what
    [json.dumps] wrote: with it in [KITTY_PREWARM_CONFIG], as
    [ensure_worker] puts it there for the start of the worker,
    [reload_kitty_config()] passes the paths and the overrides of the
    client to [set_kitty_opts] and removes the variable; and a line
    [reload_kitty_config:<that text>] does the same, the colons inside the
    JSON text notwithstanding. *)
Theorem configuration_reaches_the_worker (opts : PrewarmProcess.options)
  (s : state) :
  json_loads (PrewarmProcess.prewarm_config opts) = Some (PrewarmProcess.config_value opts) ->
  let installed :=
    set_kitty_opts
      (Some (JList (JStr <$> PrewarmProcess.config_paths opts),
             JList (JStr <$> PrewarmProcess.config_overrides opts)))
      (set_config None s) in
  reload_kitty_config (set_config (Some (PrewarmProcess.prewarm_config opts)) s)
  = Returns installed /\
  handle_line os_fork
    (lit "reload_kitty_config:" ++ PrewarmProcess.prewarm_config opts) s
  = Returns installed.
Proof.
  intros Hloads installed.
  assert (reload_kitty_config
            (set_config (Some (PrewarmProcess.prewarm_config opts)) s)
          = Returns installed) as H.
  { unfold reload_kitty_config. cbn [KITTY_PREWARM_CONFIG set_config].
    rewrite Hloads. reflexivity. }
  split; [exact H|]. rewrite reload_line. exact H.
Qed.

(** X7.  [reload_kitty_config()] pops [KITTY_PREWARM_CONFIG] before it
    parses it: without the variable it raises [KeyError] and changes
    nothing; with it, whatever the text holds, the variable is unset
    afterwards, so a second call in a row always raises [KeyError].  A line
    [reload_kitty_config:<payload>] whose payload is not JSON is not
    survived: [JSONDecodeError] leaves the loop over the lines with the
    options and the output as they were and the lines that follow
    unhandled. *)
Theorem reload_consumes_the_variable (s : state) (payload rest : bytes) :
  (KITTY_PREWARM_CONFIG s = None ->
   reload_kitty_config s = Raises (KeyError (lit "'KITTY_PREWARM_CONFIG'")) s) /\
  KITTY_PREWARM_CONFIG (final (reload_kitty_config s)) = None /\
  reload_kitty_config (final (reload_kitty_config s))
  = Raises (KeyError (lit "'KITTY_PREWARM_CONFIG'")) (final (reload_kitty_config s)) /\
  (Py.free_of Py.NL payload -> json_loads payload = None ->
   lines_loop os_fork
     (lit "reload_kitty_config:" ++ payload ++ [Py.NL] ++ rest) s
   = Raises (JSONDecodeError (lit "Expecting value"))
       (set_config None (set_input_buf rest s))).
Proof.
  assert (KITTY_PREWARM_CONFIG (final (reload_kitty_config s)) = None) as Hnone.
  { unfold reload_kitty_config.
    destruct (KITTY_PREWARM_CONFIG s) as [v|] eqn:Hv; [|exact Hv].
    destruct (json_loads v) as [d|]; [|reflexivity].
    destruct (Json.getitem d (lit "paths")); [|reflexivity].
    destruct (Json.getitem d (lit "overrides")); reflexivity. }
  split; [|split; [exact Hnone|split]].
  - intros H. unfold reload_kitty_config. rewrite H. reflexivity.
  - unfold reload_kitty_config at 1. rewrite Hnone. reflexivity.
  - intros Hfree Hloads.
    change (lit "reload_kitty_config:" ++ payload ++ [Py.NL] ++ rest)
      with ((lit "reload_kitty_config:" ++ payload) ++ Py.NL :: rest).
    rewrite lines_loop_line.
    + rewrite reload_line. unfold reload_kitty_config.
      cbn [KITTY_PREWARM_CONFIG set_config]. rewrite Hloads. reflexivity.
    + apply free_of_app. split; [reflexivity | exact Hfree].
Qed.

End Configuration.

(** ** What a send writes *)

Section SendingMore.

Import PrewarmProcess.

(** The events of one poll write a prefix of the buffer, also when an
    error event ends them. *)
Lemma send_events_prefix (evs : list (Z * Z * Z)) (buf : bytes) (self : t) :
  let '(r, self') := send_events evs buf self in
  exists rest,
    sent self' ++ rest = sent self ++ buf /\
    match r with
    | Ok buf' => rest = buf'
    | Raise e =>
        e = PrewarmProcessFailed
              (lit "Failed doing I/O with prewarm process: {event}")
    end.
Proof.
  revert buf self. induction evs as [|[[fd event] n] evs IH]; intros buf self; simpl.
  - exists buf. split; reflexivity.
  - destruct (has event error_events); [exists buf; split; reflexivity|].
    destruct ((fd =? write_to_process_fd self) && has event POLLOUT); [|apply IH].
    specialize (IH (Py.slice_from buf n)
                  (did [SysWrite (write_to_process_fd self) (Py.slice_to buf n)] self)).
    destruct (send_events evs _ _) as [r self'].
    destruct IH as (rest & Hs & Hr). exists rest. split; [|exact Hr].
    rewrite Hs, sent_did_write, <- app_assoc, slice_to_from. reflexivity.
Qed.

Lemma send_finish_prefix (buf : bytes) (self : t) :
  let r := send_finish buf self in
  sent (self_of r) = sent self /\
  match r with
  | Returned _ self' =>
      buf = [] /\ poll self' !! write_to_process_fd self' = None
  | Raised e _ =>
      e = PrewarmProcessFailed (lit "Timed out waiting to write to prewarm process") ->
      buf <> []
  | Waiting _ => False
  end.
Proof.
  unfold send_finish.
  destruct (poll_to_send false self) as [self'|e] eqn:Hp; cbn [self_of].
  - pose proof Hp as Hk. apply poll_to_send_keeps in Hk as (_ & Hs & _ & _).
    unfold poll_to_send in Hp.
    destruct (poll self !! write_to_process_fd self); [|discriminate].
    injection Hp as <-.
    destruct buf; cbn [self_of]; (split; [exact Hs|]).
    + split; [reflexivity|]. cbn [poll write_to_process_fd did set_poll].
      apply lookup_delete_eq.
    + intros _. discriminate.
  - split; [reflexivity|]. unfold poll_to_send in Hp.
    destruct (poll self !! write_to_process_fd self); [discriminate|].
    injection Hp as <-. discriminate.
Qed.

(** Once a send has returned, the write descriptor is not polled. *)
Lemma send_returned_unpolled (ticks : list send_tick) (buf : bytes)
  (timeout : Z) (self : t) (u : unit) (self' : t) :
  send_to_prewarm_process ticks buf timeout self = Returned u self' ->
  poll self' !! write_to_process_fd self' = None.
Proof.
  assert (forall b0 s0, send_finish b0 s0 = Returned u self' ->
                        poll self' !! write_to_process_fd self' = None) as Hfin.
  { intros b0 s0 H. pose proof (send_finish_prefix b0 s0) as Hp. cbv zeta in Hp.
    rewrite H in Hp. apply Hp. }
  revert buf self. induction ticks as [|tk ticks IH]; intros buf self.
  - destruct buf as [|x buf]; [apply Hfin | discriminate].
  - destruct buf as [|x buf]; [apply Hfin|].
    cbn [send_to_prewarm_process].
    destruct (snd_elapsed tk <? timeout); [|apply Hfin].
    destruct (poll_to_send true self) as [self1|e]; [|discriminate].
    destruct (send_events (snd_events tk) (x :: buf) self1) as [[buf'|e] self2];
      [apply IH | discriminate].
Qed.

(** X8.  However [send_to_prewarm_process] ends, what it has written to
    the worker is a prefix of the buffer: the bytes go out in order, none
    twice and none skipped, whatever counts [os.write] returns.  When it
    returns, all of the buffer is written and the write descriptor is no
    longer polled; when it raises its time-out error, some of the buffer
    is not written. *)
Theorem send_writes_a_prefix (ticks : list send_tick) (buf : bytes)
  (timeout : Z) (self : t) :
  let r := send_to_prewarm_process ticks buf timeout self in
  exists rest,
    sent (self_of r) ++ rest = sent self ++ buf /\
    match r with
    | Returned _ self' =>
        rest = [] /\ poll self' !! write_to_process_fd self' = None
    | Raised e _ =>
        e = PrewarmProcessFailed (lit "Timed out waiting to write to prewarm process") ->
        rest <> []
    | Waiting _ => rest <> []
    end.
Proof.
  assert (forall buf self,
            let r := send_finish buf self in
            exists rest,
              sent (self_of r) ++ rest = sent self ++ buf /\
              match r with
              | Returned _ self' =>
                  rest = [] /\ poll self' !! write_to_process_fd self' = None
              | Raised e _ =>
                  e = PrewarmProcessFailed
                        (lit "Timed out waiting to write to prewarm process") ->
                  rest <> []
              | Waiting _ => rest <> []
              end) as Hfin.
  { intros b0 s0. pose proof (send_finish_prefix b0 s0) as H. cbv zeta in *.
    destruct H as (Hs & H). exists b0. rewrite Hs. split; [reflexivity|].
    destruct (send_finish b0 s0); [| exact H | contradiction].
    destruct H as [-> H]. split; [reflexivity | exact H]. }
  revert buf self. induction ticks as [|tk ticks IH]; intros buf self.
  - destruct buf as [|x buf]; [apply Hfin|].
    simpl. exists (x :: buf). split; [reflexivity | discriminate].
  - destruct buf as [|x buf]; [apply Hfin|].
    cbn [send_to_prewarm_process].
    destruct (snd_elapsed tk <? timeout); [|apply Hfin].
    destruct (poll_to_send true self) as [self1|e] eqn:Hp; [|discriminate].
    apply poll_to_send_keeps in Hp as (_ & Hs1 & _ & _).
    pose proof (send_events_prefix (snd_events tk) (x :: buf) self1) as He.
    destruct (send_events (snd_events tk) (x :: buf) self1) as [[buf'|e] self2];
      destruct He as (rest & Hs2 & Hr).
    + subst rest. specialize (IH buf' self2). cbv zeta in IH.
      destruct IH as (rest & Hs3 & Hm). exists rest. split; [|exact Hm].
      rewrite Hs3, Hs2, Hs1. reflexivity.
    + cbn [self_of]. exists rest. split; [congruence|]. subst e. intros [=].
Qed.

(** X9.  A send of the empty buffer never polls: it goes straight to
    [poll.unregister], which raises [KeyError] when the write descriptor is
    not registered, and nothing is written.  The descriptor is not
    registered in a client that has just started its worker, nor after any
    send that returned. *)
Theorem empty_send_raises_KeyError (ticks : list send_tick) (timeout : Z)
  (pipe spawn : Z * Z) (self : t) :
  (poll self !! write_to_process_fd self = None ->
   send_to_prewarm_process ticks [] timeout self
   = Raised (KeyError (Py.str_of_int (write_to_process_fd self))) self) /\
  (spawn.1 <> spawn.2 ->
   let fresh := ensure_worker spawn (init pipe) in
   poll fresh !! write_to_process_fd fresh = None) /\
  (forall buf u self',
     send_to_prewarm_process ticks buf timeout self = Returned u self' ->
     send_to_prewarm_process ticks [] timeout self'
     = Raised (KeyError (Py.str_of_int (write_to_process_fd self'))) self').
Proof.
  assert (forall s0 : t,
            poll s0 !! write_to_process_fd s0 = None ->
            send_to_prewarm_process ticks [] timeout s0
            = Raised (KeyError (Py.str_of_int (write_to_process_fd s0))) s0) as Hempty.
  { intros s0 H. destruct ticks; cbn [send_to_prewarm_process];
      unfold send_finish, poll_to_send; rewrite H; reflexivity. }
  split; [apply Hempty|]. split.
  - intros Hne fresh. subst fresh. unfold ensure_worker, worker_started, init.
    cbn [in_worker_fd]. destruct (pipe.2 =? -1).
    + cbn [poll write_to_process_fd]. apply lookup_empty.
    + cbn [poll write_to_process_fd]. apply lookup_singleton_ne. congruence.
  - intros buf u self' Hret. apply Hempty.
    apply (send_returned_unpolled ticks buf timeout self u self' Hret).
Qed.

End SendingMore.
(** ** Frames from one process to the other *)

Section RoundTrips.

Import Supervisor.

Context {codec : JsonCodec}.
Variable os_fork : nat -> fork_world.

(** The log of [read_request] holds nothing but the unlinking of the
    region. *)
Lemma read_request_log (region : option bytes) (shm_address : str) :
  forall c, In c (read_request region shm_address).2 -> c = SysShmUnlink shm_address.
Proof.
  unfold read_request. destruct region as [region|]; [|intros c []].
  destruct (SharedMemory.read_data_with_size _) as [[data shm]|e];
    [|intros c [<-|[]]; reflexivity].
  destruct (json_loads data) as [cmd|]; [|intros c [<-|[]]; reflexivity].
  destruct (Json.get cmd (lit "stdin_size") (JNum 0)) as [sz|e];
    [|intros c [<-|[]]; reflexivity].
  destruct (Json.truthy sz); [intros c []|intros c [<-|[]]; reflexivity].
Qed.

(** X10.  The text of an error that makes [fork] fail in the supervisor
    is the text of the error that the client raises: for every exception
    [e] of [fork], the supervisor answers the [fork:] line with one frame,
    and the reply loop of the client reads that frame as
    [PrewarmProcessFailed(str(e))] with the newlines of [str(e)] turned
    into spaces and its colons kept, and reads nothing after it.  No child
    id is consumed. *)
Theorem fork_error_reaches_the_client (payload : str) (s : state) (e : exc)
  (log : list syscall) :
  fork (os_fork (forks s)) payload (fw_ready_pipe (os_fork (forks s))).1
  = (Raise e, log) ->
  exists s',
    handle_line os_fork (lit "fork:" ++ payload) s = Returns s' /\
    output_buf s' = output_buf s ++ Session.emitted s s' /\
    PrewarmProcess.scan (Session.emitted s s')
    = (PrewarmProcess.Failed
         (PrewarmProcessFailed (Py.replace Py.NL Py.SPACE (exc_str e))), []) /\
    child_id_counter s' = child_id_counter s.
Proof.
  intros Hfork. rewrite fork_line. cbv zeta. rewrite Hfork.
  rewrite (fork_raises_Exception _ _ _ e) by (rewrite Hfork; reflexivity).
  eexists. split; [reflexivity|].
  set (frame := lit "ERR:" ++ Py.replace Py.NL Py.SPACE (exc_str e) ++ [Py.NL]).
  assert (forall s1 s2, output_buf s2 = output_buf s1 ++ frame ->
                        Session.emitted s1 s2 = frame) as Hem.
  { intros s1 s2 H. unfold Session.emitted. rewrite H. apply drop_app_length. }
  rewrite (Hem s _) by reflexivity.
  split; [reflexivity|]. split; [|reflexivity].
  subst frame.
  change (lit "ERR:" ++ Py.replace Py.NL Py.SPACE (exc_str e) ++ [Py.NL])
    with (lit "ERR:" ++ Py.replace Py.NL Py.SPACE (exc_str e) ++ [Py.NL] ++ []).
  apply scan_err_frame. apply replace_free. discriminate.
Qed.

(** X11.  The frame that [mark_child_as_ready] of the client sends is the
    frame that releases the child in the supervisor: when the call has
    returned true, the bytes it wrote to the worker, read by the supervisor
    while that child is pending, make it write one byte to the readiness
    descriptor of exactly that child, close it and drop the entry, and
    leave nothing in the input buffer. *)
Theorem ready_frame_releases_the_child (stdin_fd : Z)
  (ticks : list PrewarmProcess.send_tick)
  (child_id cfd : Z) (self self' : PrewarmProcess.t) (s : state) :
  PrewarmProcess.mark_child_as_ready ticks child_id self
  = PrewarmProcess.Returned true self' ->
  child_ready_fds s !! child_id = Some cfd ->
  input_buf s = [] ->
  let frame := drop (length (PrewarmProcess.sent self)) (PrewarmProcess.sent self') in
  frame = lit "ready:" ++ Py.str_of_int child_id ++ [Py.NL] /\
  exists s',
    handle_input stdin_fd os_fork POLLIN frame s = Returns s' /\
    sys s' = sys s ++ [SysRead stdin_fd DEFAULT_BUFFER_SIZE;
                       SysWrite cfd (lit "1"); SysClose cfd] /\
    child_ready_fds s' = delete child_id (child_ready_fds s) /\
    input_buf s' = [] /\
    output_buf s' = output_buf s.
Proof.
  intros Hcall Hfd Hbuf frame.
  assert (frame = lit "ready:" ++ Py.str_of_int child_id ++ [Py.NL]) as Hframe.
  { subst frame. unfold PrewarmProcess.mark_child_as_ready in Hcall.
    destruct (PrewarmProcess.children self !! child_id); [|discriminate].
    pose proof (send_to_prewarm_process_sent ticks
                  (lit "ready:" ++ Py.str_of_int child_id ++ [Py.NL])
                  (PrewarmProcess.seconds 2)
                  (PrewarmProcess.set_children
                     (delete child_id (PrewarmProcess.children self)) self)) as Hs.
    cbv zeta in Hs. destruct Hs as (_ & _ & Hs).
    destruct (PrewarmProcess.send_to_prewarm_process ticks _ _ _);
      try discriminate.
    injection Hcall as <-. rewrite Hs.
    change (PrewarmProcess.sent (PrewarmProcess.set_children
                                   (delete child_id (PrewarmProcess.children self)) self))
      with (PrewarmProcess.sent self).
    apply drop_app_length. }
  split; [exact Hframe|]. rewrite Hframe.
  rewrite handle_input_reads by (assumption || discriminate).
  change (lit "ready:" ++ Py.str_of_int child_id ++ [Py.NL])
    with ((lit "ready:" ++ Py.str_of_int child_id) ++ Py.NL :: []).
  rewrite lines_loop_line.
  2:{ apply free_of_app. split; [reflexivity|].
      apply str_of_int_free. reflexivity. }
  rewrite (ready_releases_pending_child os_fork _ child_id cfd)
    by (apply int_str_of_int || exact Hfd).
  rewrite lines_loop_partial by reflexivity.
  eexists. split; [reflexivity|].
  cbn [sys did set_child_ready_fds set_input_buf child_ready_fds input_buf output_buf].
  rewrite <- app_assoc. repeat split; reflexivity.
Qed.

(** The exception [fork] ends with when [os.fork()] raises [OSError]. *)
Lemma fork_syscall_failure (w : fork_world) (shm_address : str) (r : Z)
  (rq : request) (log0 : list syscall) :
  read_request (fw_region w) shm_address = (Ok rq, log0) ->
  fw_fork w = None ->
  exists msg log,
    fork w shm_address r = (Raise (UnboundLocalError msg), log) /\
    In (SysPipe (fw_death_pipe w).1 (fw_death_pipe w).2) log /\
    forall fd, ~ In (SysClose fd) log.
Proof.
  intros Hrq Hfork. unfold fork. rewrite Hrq, Hfork.
  pose proof (read_request_log (fw_region w) shm_address) as Hlog.
  rewrite Hrq in Hlog. cbn [snd] in Hlog.
  destruct (fw_death_pipe w) as [r0 wr]. do 2 eexists. split; [reflexivity|].
  cbn [fst snd]. split.
  - apply in_or_app. left. apply in_or_app. right. left. reflexivity.
  - intros fd Hin.
    apply in_app_or in Hin as [Hin|Hin];
      [apply in_app_or in Hin as [Hin|Hin]|].
    + apply Hlog in Hin. discriminate.
    + destruct Hin as [|[|[]]]; discriminate.
    + destruct (Json.truthy (rq_sz rq)); [destruct Hin as [|[]]; discriminate|].
      destruct Hin.
Qed.

(** X12.  When [os.fork()] raises [OSError] the error itself is swallowed:
    [fork] goes on to read [child_pid], which was never bound, and fails
    with [UnboundLocalError]; it has created the death pipe by then and
    closes neither of its ends.  The supervisor reports the failure to the
    client as an [ERR:] frame that carries the text of the
    [UnboundLocalError], consumes no child id, and goes on. *)
Theorem failed_fork_syscall_is_reported (payload : str) (s : state)
  (rq : request) (log0 : list syscall) :
  let w := os_fork (forks s) in
  read_request (fw_region w) payload = (Ok rq, log0) ->
  fw_fork w = None ->
  exists msg log s',
    fork w payload (fw_ready_pipe w).1 = (Raise (UnboundLocalError msg), log) /\
    In (SysPipe (fw_death_pipe w).1 (fw_death_pipe w).2) log /\
    (forall fd, ~ In (SysClose fd) log) /\
    handle_line os_fork (lit "fork:" ++ payload) s = Returns s' /\
    output_buf s'
    = output_buf s ++ lit "ERR:" ++ Py.replace Py.NL Py.SPACE msg ++ [Py.NL] /\
    child_id_counter s' = child_id_counter s /\
    child_ready_fds s' = child_ready_fds s.
Proof.
  intros w Hrq Hfork.
  destruct (fork_syscall_failure w payload (fw_ready_pipe w).1 rq log0 Hrq Hfork)
    as (msg & log & Hf & Hpipe & Hclose).
  exists msg, log. eexists. split; [exact Hf|].
  split; [exact Hpipe|]. split; [exact Hclose|].
  rewrite fork_line. cbv zeta. fold w. rewrite Hf. cbn [is_Exception].
  split; [reflexivity|]. repeat split.
Qed.

End RoundTrips.

(** ** The request in the child *)

Section ChildRequest.

Import PrewarmProcess.

(** X13.  The child applies the request that [__call__] built: run on the
    dictionary of the client, [child_main] changes to its [cwd] unless that
    is empty, replaces the environment by its [env], also by an empty one,
    sets [sys.argv] to its [argv] unless that is empty, and then passes the
    readiness gate into the dispatcher; it ends with [SystemExit(0)] when
    the dispatcher returns, and with the exception of the dispatcher
    otherwise. *)
Theorem child_applies_the_request (w : child_world) (tty_name cwd : str)
  (argv : list str) (env : list (str * str)) (stdin_data : option bytes)
  (ready_fd : Z) :
  child_main w (request_of tty_name cwd argv env stdin_data) ready_fd
  = ((match cwd with [] => [] | _ => [Chdir cwd] end) ++
     [EnvironClear; EnvironUpdate ((fun kv => (kv.1, JStr kv.2)) <$> env)] ++
     (match argv with [] => [] | _ => [SetArgv (JList (JStr <$> argv))] end) ++
     gate w ready_fd,
     match cw_main w with Some e => e | None => SystemExit 0 [] end).
Proof.
  unfold child_main, request_of, Json.get.
  cbn [app Json.lookup].
  change (Py.eqb (lit "tty_name") (lit "cwd")) with false.
  change (Py.eqb (lit "cwd") (lit "cwd")) with true.
  change (Py.eqb (lit "tty_name") (lit "env")) with false.
  change (Py.eqb (lit "cwd") (lit "env")) with false.
  change (Py.eqb (lit "argv") (lit "env")) with false.
  change (Py.eqb (lit "env") (lit "env")) with true.
  change (Py.eqb (lit "tty_name") (lit "argv")) with false.
  change (Py.eqb (lit "cwd") (lit "argv")) with false.
  change (Py.eqb (lit "argv") (lit "argv")) with true.
  cbv iota.
  destruct cwd as [|c cwd], argv as [|a argv]; reflexivity.
Qed.

End ChildRequest.

(** ** The stream of commands *)

Section CommandStream.

Import Supervisor.

Context {codec : JsonCodec}.
Variable os_fork : nat -> fork_world.

Abbreviation handle_line := (handle_line os_fork).
Abbreviation lines_loop := (lines_loop os_fork).

(** A command is handled the same whatever the input buffer holds. *)
Lemma handle_line_input_buf (line : str) (x : bytes) (s : state) :
  handle_line line (set_input_buf x s)
  = match handle_line line s with
    | Returns s' => Returns (set_input_buf x s')
    | Raises e s' => Raises e (set_input_buf x s')
    end.
Proof.
  unfold Supervisor.handle_line.
  destruct (Py.partition Py.COLON line) as [[cmd sep] payload].
  destruct (Py.eqb cmd (lit "reload_kitty_config")).
  { unfold reload_kitty_config. cbn [KITTY_PREWARM_CONFIG set_config].
    destruct (json_loads payload) as [d|]; [|reflexivity].
    destruct (Json.getitem d (lit "paths")); [|reflexivity].
    destruct (Json.getitem d (lit "overrides")); reflexivity. }
  destruct (Py.eqb cmd (lit "ready")).
  { destruct (Py.int payload) as [child_id|]; [|reflexivity].
    change (child_ready_fds (set_input_buf x s)) with (child_ready_fds s).
    destruct (child_ready_fds s !! child_id); reflexivity. }
  destruct (Py.eqb cmd (lit "fork")).
  { change (forks (set_input_buf x s)) with (forks s).
    destruct (fw_ready_pipe (os_fork (forks s))) as [r wr].
    destruct (fork (os_fork (forks s)) payload r)
      as [[[child_pid child_death_fd]|e] log]; [reflexivity|].
    destruct (is_Exception e); reflexivity. }
  destruct (Py.eqb cmd (lit "echo")); reflexivity.
Qed.

(** The loop over the lines does not read the input buffer of the state:
    it works on the bytes it is given. *)
Lemma lines_loop_input_buf (buf x : bytes) (s : state) :
  lines_loop buf (set_input_buf x s) = lines_loop buf s.
Proof. rewrite !lines_loop_step. reflexivity. Qed.

(** X14.  How the bytes of the controller are cut into reads does not
    matter to the loop over the lines: when the loop has handled the bytes
    [b1] and returned, running it on what it left in the input buffer
    followed by the bytes [b2] ends as running it once on [b1] followed by
    [b2] would have ended, in the same state or with the same exception. *)
Theorem commands_do_not_depend_on_the_reads (b1 b2 : bytes) :
  forall s s1,
    lines_loop b1 s = Returns s1 ->
    lines_loop (input_buf s1 ++ b2) s1 = lines_loop (b1 ++ b2) s.
Proof.
  remember (length b1) as n eqn:Hn. revert b1 Hn.
  induction n as [n IH] using lt_wf_ind. intros b1 -> s s1.
  destruct (free_or_split Py.NL b1) as [Hfree | (line & rest & -> & Hfree)].
  - rewrite (lines_loop_partial os_fork b1 s Hfree). intros [= <-].
    cbn [input_buf set_input_buf]. apply lines_loop_input_buf.
  - rewrite (lines_loop_line os_fork line rest s Hfree).
    rewrite <- app_assoc, <- app_comm_cons.
    rewrite (lines_loop_line os_fork line (rest ++ b2) s Hfree).
    rewrite !handle_line_input_buf.
    destruct (handle_line line s) as [s0|e s0]; [|discriminate].
    intros Hrest. rewrite lines_loop_input_buf.
    rewrite lines_loop_input_buf in Hrest.
    apply (IH (length rest)); [|reflexivity|exact Hrest].
    rewrite length_app. simpl. lia.
Qed.


End CommandStream.

(** ** The replies on stdout *)

Section Replies2.

Import Supervisor.

Context {codec : JsonCodec}.
Variables (notify_child_death_fd stdin_fd stdout_fd : Z).
Variable os_fork : nat -> fork_world.

Abbreviation handle_line := (handle_line os_fork).
Abbreviation replies := (Session.replies stdout_fd).
Abbreviation ready_apart := (Session.ready_apart stdout_fd).
Abbreviation delivers := (Session.delivers stdout_fd).

(** What [os.pipe()] can answer in [handle_input], and the descriptor that
    [main] is given: stdout stays open, so neither is stdout. *)
Hypothesis ready_pipes : forall n, (fw_ready_pipe (os_fork n)).2 <> stdout_fd.
Hypothesis notify_apart : notify_child_death_fd <> stdout_fd.

Lemma written_did (fd : Z) (l : list syscall) (s : state) :
  (forall d, ~ In (SysWrite fd d) l) ->
  Session.written fd (did l s) = Session.written fd s.
Proof.
  intros H. unfold Session.written. cbn [sys did].
  rewrite omap_app, concat_app.
  replace (omap _ l) with (@nil bytes); [simpl; apply app_nil_r|].
  symmetry. induction l as [|c l IH]; [reflexivity|].
  assert (forall d, ~ In (SysWrite fd d) l) as Hl
    by (intros d Hd; apply (H d); right; exact Hd).
  specialize (IH Hl).
  destruct c as [| | |fd' d| | | | |]; try exact IH.
  cbn [omap list_omap]. destruct (Z.eqb_spec fd' fd) as [->|]; [|exact IH].
  exfalso. apply (H d). left. reflexivity.
Qed.

Lemma written_did_write (fd : Z) (d : bytes) (s : state) :
  Session.written fd (did [SysWrite fd d] s) = Session.written fd s ++ d.
Proof.
  unfold Session.written. cbn [sys did]. rewrite omap_app, concat_app. simpl.
  rewrite Z.eqb_refl. simpl. rewrite app_nil_r. reflexivity.
Qed.

(** [fork] writes to no descriptor of the supervisor. *)
Lemma fork_log_writes (w : fork_world) (payload : str) (r fd : Z) (d : bytes) :
  ~ In (SysWrite fd d) (fork w payload r).2.
Proof.
  unfold fork.
  pose proof (read_request_log (fw_region w) payload) as Hlog.
  destruct (read_request (fw_region w) payload) as [[rq|e] log]; cbn [snd] in *.
  2:{ intros H. apply Hlog in H. discriminate. }
  destruct (fw_death_pipe w) as [r0 wr].
  destruct (fw_fork w) as [pid|]; [destruct (has (fw_event w) POLLIN)|];
    cbn [snd]; rewrite ?in_app_iff; simpl;
    try destruct (Json.truthy (rq_sz rq)); simpl;
    intros H; decompose [or] H; try discriminate; try contradiction;
    match goal with H0 : In _ log |- _ => apply Hlog in H0; discriminate end.
Qed.

(** One command: the replies grow by what it emits. *)
Lemma handle_line_replies (line : str) (s : state) :
  ready_apart s ->
  match handle_line line s with
  | Returns s' =>
      replies s' = replies s ++ Session.emitted s s' /\ ready_apart s'
  | Raises _ s' => replies s' = replies s
  end.
Proof.
  intros Hap. unfold Supervisor.handle_line.
  destruct (Py.partition Py.COLON line) as [[cmd sep] payload].
  assert (forall s' : state,
            sys s' = sys s -> output_buf s' = output_buf s ->
            replies s' = replies s ++ Session.emitted s s') as Hsame.
  { intros s' Hs Ho. unfold Session.replies, Session.emitted, Session.written.
    rewrite Hs, Ho, drop_all, app_nil_r. reflexivity. }
  destruct (Py.eqb cmd (lit "reload_kitty_config")).
  { unfold reload_kitty_config. cbn [KITTY_PREWARM_CONFIG set_config].
    destruct (json_loads payload) as [d|]; [|reflexivity].
    destruct (Json.getitem d (lit "paths")); [|reflexivity].
    destruct (Json.getitem d (lit "overrides")); [|reflexivity].
    split; [apply Hsame; reflexivity | exact Hap]. }
  destruct (Py.eqb cmd (lit "ready")).
  { destruct (Py.int payload) as [child_id|]; [|reflexivity].
    destruct (child_ready_fds s !! child_id) as [cfd|] eqn:Hfd; [|reflexivity].
    pose proof (Hap _ _ Hfd) as Hne. split.
    - unfold Session.replies, Session.emitted. rewrite written_did.
      + cbn [output_buf did set_child_ready_fds]. rewrite drop_all, app_nil_r.
        reflexivity.
      + intros d [H|[H|[]]]; [congruence | discriminate].
    - intros id fd. cbn [child_ready_fds did set_child_ready_fds].
      intros H. apply lookup_delete_Some in H as [_ H]. exact (Hap _ _ H). }
  destruct (Py.eqb cmd (lit "fork")).
  2:{ destruct (Py.eqb cmd (lit "echo")).
      - split; [|exact Hap]. unfold Session.replies, Session.emitted.
        cbn [output_buf set_output_buf]. rewrite drop_app_length.
        rewrite app_assoc. reflexivity.
      - split; [apply Hsame; reflexivity | exact Hap]. }
  pose proof (ready_pipes (forks s)) as Hnew.
  destruct (fw_ready_pipe (os_fork (forks s))) as [r wr]. cbn [snd] in Hnew.
  pose proof (fork_log_writes (os_fork (forks s)) payload r stdout_fd) as Hlog.
  destruct (fork (os_fork (forks s)) payload r)
    as [[[child_pid child_death_fd]|e] log]; cbn [snd] in Hlog.
  - split.
    + unfold Session.replies, Session.emitted.
      cbn [output_buf did set_output_buf poll_register set_poll
           set_child_death_fds set_child_ready_fds set_child_id_map
           set_child_id_counter set_forks].
      rewrite drop_app_length, app_assoc. f_equal.
      rewrite written_did by (intros d [H|[]]; discriminate).
      unfold Session.written.
      cbn [sys did set_output_buf poll_register set_poll
           set_child_death_fds set_child_ready_fds set_child_id_map
           set_child_id_counter set_forks].
      change (concat (omap _ (((sys s ++ [SysPipe r wr; SysSetInheritable wr false])
                                 ++ log) ++ [SysPollRegister child_death_fd POLLIN])))
        with (Session.written stdout_fd
                (did [SysPollRegister child_death_fd POLLIN]
                   (did log (did [SysPipe r wr; SysSetInheritable wr false] s)))).
      rewrite !written_did; [reflexivity | | exact Hlog |];
        intros d H; simpl in H; decompose [or] H; discriminate || contradiction.
    + intros id fd.
      cbn [child_ready_fds did set_output_buf poll_register set_poll
           set_child_death_fds set_child_ready_fds set_child_id_map
           set_child_id_counter set_forks].
      intros H. apply lookup_insert_Some in H as [[_ <-] | [_ H]];
        [exact Hnew | exact (Hap _ _ H)].
  - destruct (is_Exception e).
    + split; [|exact Hap].
      unfold Session.replies, Session.emitted.
      cbn [output_buf did set_output_buf set_forks].
      rewrite drop_app_length, app_assoc. f_equal.
      rewrite written_did by (intros d [H|[]]; discriminate).
      change (Session.written stdout_fd (set_output_buf _ ?x))
        with (Session.written stdout_fd x).
      rewrite !written_did; [reflexivity | | exact Hlog];
        intros d H; simpl in H; decompose [or] H; discriminate || contradiction.
    + unfold Session.replies. cbn [output_buf did set_forks]. f_equal.
      rewrite !written_did; [reflexivity | | exact Hlog |];
        intros d H; simpl in H; decompose [or] H; discriminate || contradiction.
Qed.

Lemma delivers_nil (s : state) (o : outcome) :
  replies (final o) = replies s ->
  (ready_apart s -> ready_apart (final o)) ->
  delivers s [] o.
Proof.
  intros Hr Ha Hap. split; [rewrite Hr; simpl; rewrite app_nil_r; reflexivity|].
  intros s' ->. exact (Ha Hap).
Qed.

Lemma delivers_from (s s0 : state) (log : list (str * bytes)) (o : outcome) :
  replies s = replies s0 -> (ready_apart s -> ready_apart s0) ->
  delivers s0 log o -> delivers s log o.
Proof.
  intros Hr Ha H Hap. destruct (H (Ha Hap)) as [H1 H2].
  split; [rewrite H1, Hr; reflexivity | exact H2].
Qed.

Lemma delivers_then (s : state) (l1 l2 : state -> list (str * bytes))
  (o1 : outcome) (k : state -> outcome) :
  delivers s (l1 s) o1 ->
  (forall s1, delivers s1 (l2 s1) (k s1)) ->
  delivers s
    (l1 s ++ match o1 with Returns s1 => l2 s1 | Raises _ _ => [] end)
    (then_ o1 k).
Proof.
  intros H1 H2 Hap. destruct (H1 Hap) as [Hr Ha].
  destruct o1 as [s1|e s1]; simpl in *.
  - destruct (H2 s1 (Ha s1 eq_refl)) as [Hr2 Ha2].
    split; [|exact Ha2].
    rewrite Hr2, Hr, fmap_app, concat_app, app_assoc. reflexivity.
  - rewrite app_nil_r. split; [exact Hr | discriminate].
Qed.

(** The loop over the lines of the input buffer. *)
Lemma lines_delivers (buf : bytes) :
  forall s, delivers s (Session.lines_log os_fork buf s) (lines_loop os_fork buf s).
Proof.
  remember (length buf) as n eqn:Hn. revert buf Hn.
  induction n as [n IH] using lt_wf_ind. intros buf -> s.
  rewrite lines_log_step, lines_loop_step.
  destruct (Z.gtb_spec (Py.find Py.NL buf) (-1)) as [Hidx|Hidx];
    [|apply delivers_nil; [reflexivity | exact id]].
  set (rest := Py.slice_from buf (Py.find Py.NL buf + 1)).
  intros Hap.
  pose proof (handle_line_replies (Py.slice_to buf (Py.find Py.NL buf))
                (set_input_buf rest s) Hap) as Hline.
  destruct (handle_line _ (set_input_buf rest s)) as [s'|e s'].
  - destruct Hline as [Hr Ha].
    assert (length rest < length buf)%nat as Hlt.
    { subst rest. pose proof (find_range Py.NL buf).
      unfold Py.slice_from, Py.clamp_index, Py.len in *. rewrite length_drop.
      destruct (Z.ltb_spec (Py.find Py.NL buf + 1) 0); lia. }
    destruct (IH (length rest) Hlt rest eq_refl s' Ha) as [Hr2 Ha2].
    split; [|exact Ha2]. rewrite Hr2, Hr.
    cbn [fmap list_fmap concat snd].
    rewrite <- app_assoc. reflexivity.
  - simpl. rewrite app_nil_r. split; [exact Hline | discriminate].
Qed.

Lemma poll_unregister_replies (fd : Z) (s : state) :
  replies (final (poll_unregister fd s)) = replies s /\
  (ready_apart s -> ready_apart (final (poll_unregister fd s))).
Proof.
  unfold poll_unregister. destruct (poll s !! fd); [|split; [reflexivity | exact id]].
  split; [|exact id]. unfold Session.replies. cbn [final].
  rewrite written_did by (intros d [H|[]]; discriminate). reflexivity.
Qed.

Lemma slice_to_zero {A} (l : list A) : Py.slice_to l 0 = [].
Proof.
  unfold Py.slice_to, Py.clamp_index. simpl.
  rewrite Z.min_l by apply len_nonneg. reflexivity.
Qed.

Lemma handle_output_replies (event n : Z) (s : state) :
  replies (final (handle_output stdout_fd event n s)) = replies s /\
  (ready_apart s -> ready_apart (final (handle_output stdout_fd event n s))).
Proof.
  unfold handle_output.
  destruct (check_event event _); [split; [reflexivity | exact id]|].
  destruct (has event POLLOUT); cbn [negb]; [|split; [reflexivity | exact id]].
  destruct (output_buf s) as [|b out] eqn:Hout; cbn [then_].
  - rewrite Hout. apply poll_unregister_replies.
  - destruct (Z.eqb_spec n 0) as [->|Hn]; cbn [then_ final].
    + split; [|exact id]. unfold Session.replies.
      rewrite written_did_write, slice_to_zero, app_nil_r. reflexivity.
    + cbn [output_buf set_output_buf did]. rewrite !Hout.
      assert (replies (set_output_buf (Py.slice_from (b :: out) n)
                         (did [SysWrite stdout_fd (Py.slice_to (b :: out) n)] s))
              = replies s) as Hr.
      { unfold Session.replies.
        change (Session.written stdout_fd (set_output_buf _ ?x))
          with (Session.written stdout_fd x).
        rewrite written_did_write. cbn [output_buf set_output_buf].
        rewrite <- app_assoc, slice_to_from, Hout. reflexivity. }
      destruct (Py.slice_from (b :: out) n) eqn:Hrest.
      * destruct (poll_unregister_replies stdout_fd
                    (set_output_buf []
                       (did [SysWrite stdout_fd (Py.slice_to (b :: out) n)] s)))
          as [H1 H2].
        split; [rewrite H1; exact Hr | exact H2].
      * split; [exact Hr | exact id].
Qed.

Lemma handle_notify_child_death_replies (event n : Z) (s : state) :
  let o := handle_notify_child_death notify_child_death_fd event n s in
  replies (final o) = replies s /\ (ready_apart s -> ready_apart (final o)).
Proof.
  unfold handle_notify_child_death.
  destruct (check_event event _); [split; [reflexivity | exact id]|].
  destruct (has event POLLOUT); cbn [negb]; [|split; [reflexivity | exact id]].
  destruct (child_death_buf s) as [|b out] eqn:Hout; cbn [then_].
  - rewrite Hout. apply poll_unregister_replies.
  - assert (forall x, replies (did [SysWrite notify_child_death_fd x] s) = replies s)
      as Hw.
    { intros x. unfold Session.replies.
      rewrite written_did by (intros d [H|[]]; congruence). reflexivity. }
    destruct (Z.eqb_spec n 0) as [->|Hn]; cbn [then_ final].
    + split; [apply Hw | exact id].
    + cbn [child_death_buf set_child_death_buf did]. rewrite !Hout.
      destruct (Py.slice_from (b :: out) n) eqn:Hrest.
      * destruct (poll_unregister_replies notify_child_death_fd
                    (set_child_death_buf []
                       (did [SysWrite notify_child_death_fd
                               (Py.slice_to (b :: out) n)] s)))
          as [H1 H2].
        split; [rewrite H1; apply Hw | exact H2].
      * split; [apply Hw | exact id].
Qed.

Lemma handle_child_death_replies (fd cid : Z) (s : state) :
  replies (final (handle_child_death fd cid s)) = replies s /\
  (ready_apart s -> ready_apart (final (handle_child_death fd cid s))).
Proof.
  unfold handle_child_death, poll_unregister.
  destruct (poll s !! fd); [|split; [reflexivity | exact id]]. cbn [then_].
  cbn [child_death_fds did set_poll].
  assert (replies (did [SysPollUnregister fd] (set_poll (delete fd (poll s)) s))
          = replies s) as Hr.
  { unfold Session.replies.
    rewrite written_did by (intros d [H|[]]; discriminate). reflexivity. }
  destruct (child_death_fds s !! fd); [|split; [exact Hr | exact id]].
  cbn [child_ready_fds set_child_death_fds did set_poll].
  destruct (child_ready_fds s !! cid) as [x_fd|] eqn:Hx;
    cbn [child_id_map set_child_ready_fds set_child_death_fds did set_poll];
    destruct (child_id_map s !! cid); cbn [final];
    (split;
     [ unfold Session.replies;
       repeat (change (Session.written stdout_fd (set_child_death_buf _ ?x))
                 with (Session.written stdout_fd x)
               || change (Session.written stdout_fd (set_child_id_map _ ?x))
                    with (Session.written stdout_fd x));
       try (rewrite written_did by (intros d [H|[]]; discriminate));
       exact Hr
     | intros Hap i f H;
       cbn [child_ready_fds set_child_death_buf set_child_id_map did
            set_child_ready_fds set_child_death_fds set_poll] in H;
       try (apply lookup_delete_Some in H as [_ H]); exact (Hap _ _ H) ]).
Qed.

(** One event of a poll. *)
Lemma dispatch_delivers (ev : io_event) (s : state) :
  delivers s (Session.dispatch_log stdin_fd os_fork ev s)
    (dispatch notify_child_death_fd stdin_fd stdout_fd os_fork ev s).
Proof.
  unfold Session.dispatch_log, dispatch.
  destruct (ev_fd ev =? stdin_fd).
  { unfold handle_input, check_event.
    destruct (has (ev_mask ev) POLLHUP);
      [apply delivers_nil; [reflexivity | exact id]|].
    destruct (has (ev_mask ev) error_events);
      [apply delivers_nil; [reflexivity | exact id]|].
    destruct (has (ev_mask ev) POLLIN); cbn [negb];
      [|apply delivers_nil; [reflexivity | exact id]].
    assert (replies (did [SysRead stdin_fd DEFAULT_BUFFER_SIZE] s) = replies s)
      as Hr.
    { unfold Session.replies.
      rewrite written_did by (intros d [H|[]]; discriminate). reflexivity. }
    destruct (ev_read ev) as [|b d];
      [apply delivers_nil; [exact Hr | exact id]|].
    eapply delivers_from; [| |apply lines_delivers];
      [symmetry; exact Hr | exact id]. }
  destruct (ev_fd ev =? stdout_fd);
    [apply delivers_nil; apply handle_output_replies|].
  destruct (ev_fd ev =? notify_child_death_fd);
    [apply delivers_nil; apply handle_notify_child_death_replies|].
  destruct (child_death_fds s !! ev_fd ev);
    [|apply delivers_nil; [reflexivity | exact id]].
  destruct (has (ev_mask ev) POLLHUP);
    [|apply delivers_nil; [reflexivity | exact id]].
  apply delivers_nil; apply handle_child_death_replies.
Qed.

Lemma dispatch_all_delivers (evs : list io_event) :
  forall s,
    delivers s
      (Session.dispatch_all_log notify_child_death_fd stdin_fd stdout_fd
         os_fork evs s)
      (dispatch_all notify_child_death_fd stdin_fd stdout_fd os_fork evs s).
Proof.
  induction evs as [|ev evs IH]; intros s; simpl.
  - apply delivers_nil; [reflexivity | exact id].
  - apply (delivers_then s (Session.dispatch_log stdin_fd os_fork ev));
      [apply dispatch_delivers | exact IH].
Qed.

Lemma arm_replies (s : state) :
  replies (arm notify_child_death_fd stdout_fd s) = replies s /\
  (ready_apart s -> ready_apart (arm notify_child_death_fd stdout_fd s)).
Proof.
  assert (forall fd mask s0, replies (poll_register fd mask s0) = replies s0)
    as Hreg.
  { intros fd mask s0. unfold poll_register, Session.replies.
    rewrite written_did by (intros d [H|[]]; discriminate). reflexivity. }
  unfold arm.
  destruct (output_buf s); destruct (child_death_buf _);
    rewrite ?Hreg; (split; [reflexivity | exact id]).
Qed.

Lemma run_delivers (ticks : list (list io_event)) :
  forall s,
    delivers s
      (Session.run_log notify_child_death_fd stdin_fd stdout_fd os_fork ticks s)
      (run notify_child_death_fd stdin_fd stdout_fd os_fork ticks s).
Proof.
  induction ticks as [|evs ticks IH]; intros s; simpl.
  - apply delivers_nil; [reflexivity | exact id].
  - apply (delivers_then s
             (fun s => Session.dispatch_all_log notify_child_death_fd stdin_fd
                         stdout_fd os_fork evs
                         (arm notify_child_death_fd stdout_fd s)));
      [|exact IH].
    unfold tick. destruct (arm_replies s) as [Hr Ha].
    eapply delivers_from; [| |apply dispatch_all_delivers];
      [symmetry; exact Hr | exact Ha].
Qed.

(** X16.  The replies of the supervisor reach stdout in order, none lost
    and none twice, however short the writes are: after any run of the
    loop from its start, whether it goes on or has raised, the bytes
    written to stdout so far, followed by the bytes still in [output_buf],
    are the replies to the lines handled, one after the other in the order
    of the lines.  Nothing else is ever written to stdout. *)
Theorem replies_reach_stdout_in_order (opts : option (json * json))
  (ticks : list (list io_event)) :
  let o := run notify_child_death_fd stdin_fd stdout_fd os_fork ticks
             (start stdin_fd opts) in
  let log := Session.run_log notify_child_death_fd stdin_fd stdout_fd os_fork
               ticks (start stdin_fd opts) in
  Session.written stdout_fd (final o) ++ output_buf (final o)
  = concat (snd <$> log).
Proof.
  intros o log.
  destruct (run_delivers ticks (start stdin_fd opts)) as [H _].
  { intros id fd. simpl. rewrite lookup_empty. discriminate. }
  exact H.
Qed.

End Replies2.

(** ** The death notices *)

Section Notices.

Import Supervisor.

Context {codec : JsonCodec}.
Variables (notify_child_death_fd stdin_fd stdout_fd : Z).
Variable os_fork : nat -> fork_world.

Abbreviation handle_line := (handle_line os_fork).
Abbreviation notices := (Session.notices notify_child_death_fd).
Abbreviation ready_off_notify := (Session.ready_off_notify notify_child_death_fd).
Abbreviation notifies := (Session.notifies notify_child_death_fd).

(** What [os.pipe()] can answer in [handle_input], and the descriptor of
    stdout: the notification descriptor stays open, so neither is it. *)
Hypothesis ready_pipes :
  forall n, (fw_ready_pipe (os_fork n)).2 <> notify_child_death_fd.
Hypothesis stdout_apart : stdout_fd <> notify_child_death_fd.

Ltac no_write := intros ? H; simpl in H; decompose [or] H;
                 congruence || contradiction.

(** A command writes no notice and touches none that waits. *)
Lemma handle_line_notices (line : str) (s : state) :
  ready_off_notify s ->
  notices (final (handle_line line s)) = notices s /\
  (forall s', handle_line line s = Returns s' -> ready_off_notify s').
Proof.
  intros Hap. unfold Supervisor.handle_line.
  destruct (Py.partition Py.COLON line) as [[cmd sep] payload].
  destruct (Py.eqb cmd (lit "reload_kitty_config")).
  { unfold reload_kitty_config. cbn [KITTY_PREWARM_CONFIG set_config].
    destruct (json_loads payload) as [d|];
      [|split; [reflexivity | discriminate]].
    destruct (Json.getitem d (lit "paths"));
      [|split; [reflexivity | discriminate]].
    destruct (Json.getitem d (lit "overrides"));
      [|split; [reflexivity | discriminate]].
    split; [reflexivity | intros s' [= <-]; exact Hap]. }
  destruct (Py.eqb cmd (lit "ready")).
  { destruct (Py.int payload) as [child_id|];
      [|split; [reflexivity | discriminate]].
    destruct (child_ready_fds s !! child_id) as [cfd|] eqn:Hfd;
      [|split; [reflexivity | discriminate]].
    pose proof (Hap _ _ Hfd) as Hne. split.
    - unfold Session.notices. cbn [final].
      rewrite written_did by no_write. reflexivity.
    - intros s' [= <-] id fd. cbn [child_ready_fds did set_child_ready_fds].
      intros H. apply lookup_delete_Some in H as [_ H]. exact (Hap _ _ H). }
  destruct (Py.eqb cmd (lit "fork")).
  2:{ destruct (Py.eqb cmd (lit "echo"));
        (split; [reflexivity | intros s' [= <-]; exact Hap]). }
  pose proof (ready_pipes (forks s)) as Hnew.
  destruct (fw_ready_pipe (os_fork (forks s))) as [r wr]. cbn [snd] in Hnew.
  pose proof (fork_log_writes (os_fork (forks s)) payload r
                notify_child_death_fd) as Hlog.
  assert (forall x : state,
            sys x = (sys s ++ [SysPipe r wr; SysSetInheritable wr false]) ++
                    (fork (os_fork (forks s)) payload r).2 ->
            Session.written notify_child_death_fd x
            = Session.written notify_child_death_fd s) as Hw.
  { intros x Hx. unfold Session.written at 1. rewrite Hx.
    change (concat (omap _ ((sys s ++ [SysPipe r wr; SysSetInheritable wr false])
                              ++ (fork (os_fork (forks s)) payload r).2)))
      with (Session.written notify_child_death_fd
              (did (fork (os_fork (forks s)) payload r).2
                 (did [SysPipe r wr; SysSetInheritable wr false] s))).
    rewrite !written_did; [reflexivity | no_write | exact Hlog]. }
  destruct (fork (os_fork (forks s)) payload r)
    as [[[child_pid child_death_fd]|e] log]; cbn [snd] in Hlog, Hw.
  - split.
    + unfold Session.notices. cbn [final].
      rewrite written_did by no_write.
      change (Session.written notify_child_death_fd (set_output_buf _ ?x))
        with (Session.written notify_child_death_fd x).
      unfold poll_register. rewrite written_did by no_write.
      rewrite Hw by reflexivity. reflexivity.
    + intros s' [= <-] id fd.
      cbn [child_ready_fds did set_output_buf poll_register set_poll
           set_child_death_fds set_child_ready_fds set_child_id_map
           set_child_id_counter set_forks].
      intros H. apply lookup_insert_Some in H as [[_ <-] | [_ H]];
        [exact Hnew | exact (Hap _ _ H)].
  - destruct (is_Exception e).
    + split; [|intros s' [= <-]; exact Hap].
      unfold Session.notices. cbn [final].
      rewrite written_did by no_write.
      change (Session.written notify_child_death_fd (set_output_buf _ ?x))
        with (Session.written notify_child_death_fd x).
      rewrite Hw by reflexivity. reflexivity.
    + split; [|discriminate].
      unfold Session.notices. cbn [final].
      rewrite written_did by no_write.
      rewrite Hw by reflexivity. reflexivity.
Qed.

Lemma lines_loop_notices (buf : bytes) :
  forall s,
    ready_off_notify s ->
    notices (final (lines_loop os_fork buf s)) = notices s /\
    (forall s', lines_loop os_fork buf s = Returns s' -> ready_off_notify s').
Proof.
  remember (length buf) as n eqn:Hn. revert buf Hn.
  induction n as [n IH] using lt_wf_ind. intros buf -> s Hap.
  rewrite lines_loop_step.
  destruct (Z.gtb_spec (Py.find Py.NL buf) (-1)) as [Hidx|Hidx];
    [|split; [reflexivity | intros s' [= <-]; exact Hap]].
  set (rest := Py.slice_from buf (Py.find Py.NL buf + 1)).
  destruct (handle_line_notices (Py.slice_to buf (Py.find Py.NL buf))
              (set_input_buf rest s) Hap) as [Hr Ha].
  destruct (handle_line _ (set_input_buf rest s)) as [s'|e s'];
    [|split; [exact Hr | discriminate]].
  assert (length rest < length buf)%nat as Hlt.
  { subst rest. pose proof (find_range Py.NL buf).
    unfold Py.slice_from, Py.clamp_index, Py.len in *. rewrite length_drop.
    destruct (Z.ltb_spec (Py.find Py.NL buf + 1) 0); lia. }
  destruct (IH (length rest) Hlt rest eq_refl s' (Ha s' eq_refl)) as [Hr2 Ha2].
  split; [rewrite Hr2; exact Hr | exact Ha2].
Qed.

Lemma poll_unregister_notices (fd : Z) (s : state) :
  notices (final (poll_unregister fd s)) = notices s.
Proof.
  unfold poll_unregister. destruct (poll s !! fd); [|reflexivity].
  unfold Session.notices. cbn [final].
  rewrite written_did by no_write. reflexivity.
Qed.

Lemma handle_output_notices (event n : Z) (s : state) :
  notices (final (handle_output stdout_fd event n s)) = notices s.
Proof.
  unfold handle_output.
  destruct (check_event event _); [reflexivity|].
  destruct (has event POLLOUT); cbn [negb]; [|reflexivity].
  assert (forall x, notices (did [SysWrite stdout_fd x] s) = notices s) as Hw.
  { intros x. unfold Session.notices.
    rewrite written_did by no_write. reflexivity. }
  destruct (output_buf s) as [|b out] eqn:Hout; cbn [then_].
  - rewrite Hout. apply poll_unregister_notices.
  - destruct (Z.eqb_spec n 0) as [->|Hn]; cbn [then_ final]; [apply Hw|].
    cbn [output_buf set_output_buf did]. rewrite !Hout.
    destruct (Py.slice_from (b :: out) n);
      [rewrite poll_unregister_notices|]; apply Hw.
Qed.

Lemma handle_notify_child_death_notices (event n : Z) (s : state) :
  notices (final (handle_notify_child_death notify_child_death_fd event n s))
  = notices s.
Proof.
  unfold handle_notify_child_death.
  destruct (check_event event _); [reflexivity|].
  destruct (has event POLLOUT); cbn [negb]; [|reflexivity].
  destruct (child_death_buf s) as [|b out] eqn:Hout; cbn [then_].
  - rewrite Hout. apply poll_unregister_notices.
  - destruct (Z.eqb_spec n 0) as [->|Hn]; cbn [then_ final].
    + unfold Session.notices.
      rewrite written_did_write, slice_to_zero, app_nil_r. reflexivity.
    + cbn [child_death_buf set_child_death_buf did]. rewrite !Hout.
      assert (notices (set_child_death_buf (Py.slice_from (b :: out) n)
                         (did [SysWrite notify_child_death_fd
                                 (Py.slice_to (b :: out) n)] s))
              = notices s) as Hr.
      { unfold Session.notices.
        change (Session.written notify_child_death_fd (set_child_death_buf _ ?x))
          with (Session.written notify_child_death_fd x).
        rewrite written_did_write. cbn [child_death_buf set_child_death_buf].
        rewrite <- app_assoc, slice_to_from, Hout. reflexivity. }
      destruct (Py.slice_from (b :: out) n) eqn:Hrest;
        [rewrite poll_unregister_notices|]; exact Hr.
Qed.

Lemma writers_ready_fds (event n : Z) (s : state) :
  child_ready_fds (final (handle_output stdout_fd event n s))
  = child_ready_fds s /\
  child_ready_fds
    (final (handle_notify_child_death notify_child_death_fd event n s))
  = child_ready_fds s.
Proof.
  unfold handle_output, handle_notify_child_death, poll_unregister.
  destruct (check_event event _), (check_event event _);
    destruct (has event POLLOUT); cbn [negb final then_];
    try (split; reflexivity);
    destruct (output_buf s) eqn:Ho, (child_death_buf s) eqn:Hc;
    cbn [then_ final]; rewrite ?Ho, ?Hc;
    destruct (n =? 0); cbn [then_ final output_buf child_death_buf
                            set_output_buf set_child_death_buf did];
    rewrite ?Ho, ?Hc;
    repeat match goal with
           | |- context [match ?x with _ => _ end] => destruct x
           end; split; reflexivity.
Qed.

(** The death of a child grows the notices by the notice for its pid,
    when it is handled to the end. *)
Lemma handle_child_death_notices (fd cid : Z) (s : state) :
  notices (final (handle_child_death fd cid s))
  = notices s ++
    concat (Session.notice <$>
              match handle_child_death fd cid s with
              | Returns _ => option_list (child_id_map s !! cid)
              | Raises _ _ => []
              end) /\
  (ready_off_notify s -> ready_off_notify (final (handle_child_death fd cid s))).
Proof.
  unfold handle_child_death, poll_unregister.
  destruct (poll s !! fd);
    [|split; [simpl; rewrite app_nil_r; reflexivity | exact id]].
  cbn [then_]. cbn [child_death_fds did set_poll].
  assert (notices (did [SysPollUnregister fd] (set_poll (delete fd (poll s)) s))
          = notices s) as Hr.
  { unfold Session.notices.
    rewrite written_did by no_write. reflexivity. }
  destruct (child_death_fds s !! fd);
    [|split; [simpl; rewrite app_nil_r; exact Hr | exact id]].
  cbn [child_ready_fds set_child_death_fds did set_poll].
  destruct (child_ready_fds s !! cid) as [x_fd|] eqn:Hx;
    cbn [child_id_map set_child_ready_fds set_child_death_fds did set_poll];
    destruct (child_id_map s !! cid) as [pid|]; cbn [final option_list];
    (split;
     [ unfold Session.notices, Session.notice, Session.written;
       cbn [sys child_death_buf set_child_death_buf set_child_id_map did
            set_child_ready_fds set_child_death_fds set_poll];
       rewrite ?omap_app, ?concat_app;
       cbn [omap list_omap concat app fmap list_fmap option_list option_rect];
       rewrite ?app_nil_r; repeat rewrite <- app_assoc; reflexivity
     | intros Hap i f H;
       cbn [child_ready_fds set_child_death_buf set_child_id_map did
            set_child_ready_fds set_child_death_fds set_poll] in H;
       try (apply lookup_delete_Some in H as [_ H]); exact (Hap _ _ H) ]).
Qed.

Lemma notifies_nil (s : state) (o : outcome) :
  notices (final o) = notices s ->
  (ready_off_notify s -> ready_off_notify (final o)) ->
  notifies s [] o.
Proof.
  intros Hr Ha Hap. split; [rewrite Hr; simpl; rewrite app_nil_r; reflexivity|].
  intros s' ->. exact (Ha Hap).
Qed.

Lemma notifies_then (s : state) (l1 l2 : state -> list Z)
  (o1 : outcome) (k : state -> outcome) :
  notifies s (l1 s) o1 ->
  (forall s1, notifies s1 (l2 s1) (k s1)) ->
  notifies s
    (l1 s ++ match o1 with Returns s1 => l2 s1 | Raises _ _ => [] end)
    (then_ o1 k).
Proof.
  intros H1 H2 Hap. destruct (H1 Hap) as [Hr Ha].
  destruct o1 as [s1|e s1]; simpl in *.
  - destruct (H2 s1 (Ha s1 eq_refl)) as [Hr2 Ha2].
    split; [|exact Ha2].
    rewrite Hr2, Hr, fmap_app, concat_app, app_assoc. reflexivity.
  - rewrite app_nil_r. split; [exact Hr | discriminate].
Qed.

(** One event of a poll. *)
Lemma dispatch_notifies (ev : io_event) (s : state) :
  notifies s
    (Session.dispatch_deaths notify_child_death_fd stdin_fd stdout_fd ev s)
    (dispatch notify_child_death_fd stdin_fd stdout_fd os_fork ev s).
Proof.
  unfold Session.dispatch_deaths, dispatch.
  destruct (ev_fd ev =? stdin_fd); cbn [orb].
  { intros Hap. unfold handle_input, check_event.
    destruct (has (ev_mask ev) POLLHUP);
      [apply notifies_nil; [reflexivity | exact id | exact Hap]|].
    destruct (has (ev_mask ev) error_events);
      [apply notifies_nil; [reflexivity | exact id | exact Hap]|].
    destruct (has (ev_mask ev) POLLIN); cbn [negb];
      [|apply notifies_nil; [reflexivity | exact id | exact Hap]].
    assert (notices (did [SysRead stdin_fd DEFAULT_BUFFER_SIZE] s) = notices s)
      as Hr.
    { unfold Session.notices. rewrite written_did by no_write. reflexivity. }
    destruct (ev_read ev) as [|b d];
      [apply notifies_nil; [exact Hr | exact id | exact Hap]|].
    destruct (lines_loop_notices (input_buf s ++ b :: d)
                (did [SysRead stdin_fd DEFAULT_BUFFER_SIZE] s) Hap) as [H1 H2].
    split; [|exact H2].
    cbn [input_buf did]. simpl. rewrite app_nil_r, H1. exact Hr. }
  destruct (ev_fd ev =? stdout_fd); cbn [orb].
  { apply notifies_nil; [apply handle_output_notices|].
    intros Hap i f. rewrite (proj1 (writers_ready_fds _ _ _)). apply Hap. }
  destruct (ev_fd ev =? notify_child_death_fd); cbn [orb].
  { apply notifies_nil; [apply handle_notify_child_death_notices|].
    intros Hap i f. rewrite (proj2 (writers_ready_fds _ _ _)). apply Hap. }
  destruct (child_death_fds s !! ev_fd ev) as [cid|];
    [|apply notifies_nil; [reflexivity | exact id]].
  destruct (has (ev_mask ev) POLLHUP);
    [|apply notifies_nil; [reflexivity | exact id]].
  intros Hap. destruct (handle_child_death_notices (ev_fd ev) cid s) as [H1 H2].
  split; [exact H1 | intros s' Hs'; rewrite Hs' in H2; exact (H2 Hap)].
Qed.

Lemma dispatch_all_notifies (evs : list io_event) :
  forall s,
    notifies s
      (Session.dispatch_all_deaths notify_child_death_fd stdin_fd stdout_fd
         os_fork evs s)
      (dispatch_all notify_child_death_fd stdin_fd stdout_fd os_fork evs s).
Proof.
  induction evs as [|ev evs IH]; intros s; simpl.
  - apply notifies_nil; [reflexivity | exact id].
  - apply (notifies_then s
             (Session.dispatch_deaths notify_child_death_fd stdin_fd stdout_fd ev));
      [apply dispatch_notifies | exact IH].
Qed.

Lemma arm_notices (s : state) :
  notices (arm notify_child_death_fd stdout_fd s) = notices s.
Proof.
  assert (forall fd mask s0, notices (poll_register fd mask s0) = notices s0)
    as Hreg.
  { intros fd mask s0. unfold poll_register, Session.notices.
    rewrite written_did by no_write. reflexivity. }
  unfold arm.
  destruct (output_buf s); destruct (child_death_buf _);
    rewrite ?Hreg; reflexivity.
Qed.

Lemma arm_ready_fds (s : state) :
  child_ready_fds (arm notify_child_death_fd stdout_fd s) = child_ready_fds s.
Proof.
  unfold arm. destruct (output_buf s); destruct (child_death_buf _); reflexivity.
Qed.

Lemma run_notifies (ticks : list (list io_event)) :
  forall s,
    notifies s
      (Session.run_deaths notify_child_death_fd stdin_fd stdout_fd os_fork ticks s)
      (run notify_child_death_fd stdin_fd stdout_fd os_fork ticks s).
Proof.
  induction ticks as [|evs ticks IH]; intros s; simpl.
  - apply notifies_nil; [reflexivity | exact id].
  - apply (notifies_then s
             (fun s => Session.dispatch_all_deaths notify_child_death_fd stdin_fd
                         stdout_fd os_fork evs
                         (arm notify_child_death_fd stdout_fd s)));
      [|exact IH].
    unfold tick. intros Hap.
    destruct (dispatch_all_notifies evs (arm notify_child_death_fd stdout_fd s))
      as [H1 H2].
    { intros i f. rewrite arm_ready_fds. apply Hap. }
    split; [rewrite H1, arm_notices; reflexivity | exact H2].
Qed.

(** X17.  The deaths of the children reach the notification descriptor
    in order, none lost and none twice, however short the writes are:
    after any run of the loop from its start, whether it goes on or has
    raised, the bytes written to the notification descriptor so far,
    followed by the bytes still in [child_death_buf], are the lines
    [<pid>] of the children whose hang-up was handled, one after the other
    in the order of the hang-ups.  Nothing else is ever written to that
    descriptor. *)
Theorem deaths_are_notified_in_order (opts : option (json * json))
  (ticks : list (list io_event)) :
  let o := run notify_child_death_fd stdin_fd stdout_fd os_fork ticks
             (start stdin_fd opts) in
  let pids := Session.run_deaths notify_child_death_fd stdin_fd stdout_fd
                os_fork ticks (start stdin_fd opts) in
  Session.written notify_child_death_fd (final o) ++ child_death_buf (final o)
  = concat (Session.notice <$> pids).
Proof.
  intros o pids.
  destruct (run_notifies ticks (start stdin_fd opts)) as [H _].
  { intros i f. simpl. rewrite lookup_empty. discriminate. }
  exact H.
Qed.

End Notices.

(** ** The account of the children *)

Section Account.

Import Supervisor.

Context {codec : JsonCodec}.
Variables (notify_child_death_fd stdin_fd stdout_fd : Z).
Variable os_fork : nat -> fork_world.

Abbreviation accounted := (accounted os_fork).
Abbreviation handle_line := (handle_line os_fork).
Abbreviation dispatch :=
  (dispatch notify_child_death_fd stdin_fd stdout_fd os_fork).

Hypothesis pipes : pipes_are_new notify_child_death_fd stdin_fd stdout_fd os_fork.
Hypothesis distinct : detectors_are_distinct os_fork.

(** A step that leaves the three maps and the count of the forks alone,
    and unregisters at most stdout and the notification descriptor, keeps
    the account. *)
Lemma accounted_frame (s s' : state) :
  child_death_fds s' = child_death_fds s ->
  child_id_map s' = child_id_map s ->
  child_ready_fds s' = child_ready_fds s ->
  forks s' = forks s ->
  (forall fd, fd <> stdout_fd -> fd <> notify_child_death_fd ->
              is_Some (poll s !! fd) -> is_Some (poll s' !! fd)) ->
  accounted s -> accounted s'.
Proof.
  intros Hd Hm Hr Hf Hp (H1 & H2 & H3). unfold Supervisor.accounted.
  rewrite Hd, Hm, Hr, Hf. repeat split; [|exact H2|exact H3].
  intros id pid Hid. destruct (H1 id pid Hid) as (fd & Hfd & Hpoll).
  exists fd. split; [exact Hfd|].
  destruct (H3 fd id Hfd) as (n & _ & ->).
  destruct (pipes n) as (_ & Hout & Hnot). apply Hp; assumption.
Qed.

Lemma handle_line_accounted (line : str) (s s' : state) :
  accounted s -> handle_line line s = Returns s' -> accounted s'.
Proof.
  intros H. unfold Supervisor.handle_line.
  destruct (Py.partition Py.COLON line) as [[cmd sep] payload].
  destruct (Py.eqb cmd (lit "reload_kitty_config")).
  { unfold reload_kitty_config. simpl.
    destruct (json_loads payload) as [d|]; [|discriminate].
    destruct (Json.getitem d (lit "paths")); [|discriminate].
    destruct (Json.getitem d (lit "overrides")); [|discriminate].
    intros [= <-]. revert H. apply accounted_frame; auto. }
  destruct (Py.eqb cmd (lit "ready")).
  { destruct (Py.int payload) as [child_id|]; [|discriminate].
    destruct (child_ready_fds s !! child_id); [|discriminate].
    intros [= <-]. destruct H as (H1 & H2 & H3).
    repeat split; [exact H1 | | exact H3].
    intros id fd. cbn [child_ready_fds child_id_map did set_child_ready_fds].
    intros Hid. apply lookup_delete_Some in Hid as [_ Hid]. exact (H2 _ _ Hid). }
  destruct (Py.eqb cmd (lit "fork")).
  2:{ destruct (Py.eqb cmd (lit "echo")); intros [= <-]; [|exact H].
      revert H. apply accounted_frame; auto. }
  destruct (fw_ready_pipe (os_fork (forks s))) as [r wr].
  destruct (fork (os_fork (forks s)) payload r)
    as [[[child_pid child_death_fd]|e] log] eqn:Hfork.
  2:{ destruct (is_Exception e); [|discriminate].
      intros [= <-]. destruct H as (H1 & H2 & H3).
      repeat split; [exact H1 | exact H2 |].
      intros fd id Hfd. destruct (H3 fd id Hfd) as (n & Hn & ->).
      exists n. split; [simpl; lia | reflexivity]. }
  apply fork_detector in Hfork.
  intros [= <-]. destruct H as (H1 & H2 & H3).
  assert (forall fd id, child_death_fds s !! fd = Some id ->
                        fd <> child_death_fd) as Hfresh.
  { intros fd id Hfd. destruct (H3 fd id Hfd) as (n & Hn & ->).
    rewrite Hfork. intros Heq. apply distinct in Heq. lia. }
  repeat split.
  - intros id pid. simpl. intros Hid.
    apply lookup_insert_Some in Hid as [[<- <-] | [Hne Hid]].
    + exists child_death_fd. rewrite !lookup_insert_eq. eauto.
    + destruct (H1 id pid Hid) as (fd & Hfd & Hpoll).
      pose proof (Hfresh fd id Hfd) as Hnew.
      exists fd. rewrite !lookup_insert_ne by congruence. eauto.
  - intros id fd. simpl. intros Hid.
    apply lookup_insert_Some in Hid as [[<- <-] | [Hne Hid]].
    + rewrite lookup_insert_eq. eauto.
    + rewrite lookup_insert_ne by congruence. exact (H2 _ _ Hid).
  - intros fd id. simpl. intros Hfd.
    apply lookup_insert_Some in Hfd as [[<- <-] | [Hne Hfd]].
    + exists (forks s). split; [lia | exact Hfork].
    + destruct (H3 fd id Hfd) as (n & Hn & ->).
      exists n. split; [lia | reflexivity].
Qed.

Lemma lines_loop_accounted (buf : bytes) :
  forall s s', accounted s -> lines_loop os_fork buf s = Returns s' ->
               accounted s'.
Proof.
  remember (length buf) as n eqn:Hn. revert buf Hn.
  induction n as [n IH] using lt_wf_ind. intros buf -> s s' H.
  rewrite lines_loop_step.
  destruct (Z.gtb_spec (Py.find Py.NL buf) (-1)) as [Hidx|Hidx].
  2:{ intros [= <-]. revert H. apply accounted_frame; auto. }
  set (rest := Py.slice_from buf (Py.find Py.NL buf + 1)).
  destruct (handle_line _ (set_input_buf rest s)) as [s1|e s1] eqn:Hline;
    [|discriminate].
  apply (IH (length rest)); [|reflexivity|].
  - subst rest. pose proof (find_range Py.NL buf).
    unfold Py.slice_from, Py.clamp_index, Py.len in *. rewrite length_drop.
    destruct (Z.ltb_spec (Py.find Py.NL buf + 1) 0); lia.
  - eapply handle_line_accounted; [|exact Hline].
    revert H. apply accounted_frame; auto.
Qed.

Lemma poll_unregister_accounted (fd : Z) (s s' : state) :
  fd = stdout_fd \/ fd = notify_child_death_fd ->
  accounted s -> poll_unregister fd s = Returns s' -> accounted s'.
Proof.
  intros Hfd H. unfold poll_unregister.
  destruct (poll s !! fd); [|discriminate]. intros [= <-].
  revert H. apply accounted_frame; auto.
  intros fd' H1 H2. simpl. rewrite lookup_delete_ne by (destruct Hfd; congruence).
  exact id.
Qed.

Lemma writers_accounted (event n : Z) (s s' : state) :
  accounted s ->
  handle_output stdout_fd event n s = Returns s' \/
  handle_notify_child_death notify_child_death_fd event n s = Returns s' ->
  accounted s'.
Proof.
  intros H [Hret|Hret]; revert Hret;
    unfold handle_output, handle_notify_child_death;
    (destruct (check_event event _); [discriminate|]);
    (destruct (has event POLLOUT); simpl; [|intros [= <-]; exact H]).
  - destruct (output_buf s) as [|b out] eqn:Hout; simpl.
    + rewrite Hout. apply poll_unregister_accounted; auto.
    + destruct (n =? 0); [discriminate|]. simpl.
      destruct (Py.slice_from _ n).
      * apply poll_unregister_accounted; auto.
      * intros [= <-]. revert H. apply accounted_frame; auto.
  - destruct (child_death_buf s) as [|b out] eqn:Hout; simpl.
    + rewrite Hout. apply poll_unregister_accounted; auto.
    + destruct (n =? 0); [discriminate|]. simpl.
      destruct (Py.slice_from _ n).
      * apply poll_unregister_accounted; auto.
      * intros [= <-]. revert H. apply accounted_frame; auto.
Qed.

Lemma handle_child_death_accounted (fd cid : Z) (s s' : state) :
  child_death_fds s !! fd = Some cid ->
  accounted s -> handle_child_death fd cid s = Returns s' -> accounted s'.
Proof.
  intros Hfd (H1 & H2 & H3). unfold handle_child_death, poll_unregister.
  destruct (poll s !! fd); [|discriminate]. cbn [then_].
  cbn [child_death_fds did set_poll]. rewrite Hfd.
  cbn [child_ready_fds set_child_death_fds did set_poll].
  assert (forall s0 : state,
            child_death_fds s0 = delete fd (child_death_fds s) ->
            child_id_map s0 = delete cid (child_id_map s) ->
            child_ready_fds s0 = delete cid (child_ready_fds s) ->
            poll s0 = delete fd (poll s) -> forks s0 = forks s ->
            accounted s0) as Hacc.
  { intros s0 Hd Hm Hr Hp Hf. unfold Supervisor.accounted.
    rewrite Hd, Hm, Hr, Hp, Hf. repeat split.
    - intros i pid Hi. apply lookup_delete_Some in Hi as [Hne Hi].
      destruct (H1 i pid Hi) as (fd' & Hfd' & Hpoll).
      assert (fd' <> fd) as Hne' by congruence.
      exists fd'. rewrite !lookup_delete_ne by congruence. eauto.
    - intros i f Hi. apply lookup_delete_Some in Hi as [Hne Hi].
      rewrite lookup_delete_ne by congruence. exact (H2 _ _ Hi).
    - intros fd' i Hi. apply lookup_delete_Some in Hi as [_ Hi].
      exact (H3 _ _ Hi). }
  destruct (child_ready_fds s !! cid) as [x_fd|] eqn:Hx;
    cbn [child_id_map set_child_ready_fds set_child_death_fds did set_poll];
    (destruct (child_id_map s !! cid); [|discriminate]);
    intros [= <-]; apply Hacc; try reflexivity.
  cbn [child_ready_fds set_child_death_buf set_child_id_map
       set_child_death_fds did set_poll].
  symmetry. apply delete_id. exact Hx.
Qed.

Lemma dispatch_accounted (ev : io_event) (s s' : state) :
  accounted s -> dispatch ev s = Returns s' -> accounted s'.
Proof.
  intros H. unfold Supervisor.dispatch.
  destruct (ev_fd ev =? stdin_fd).
  { unfold handle_input. destruct (check_event _ _); [discriminate|].
    destruct (has (ev_mask ev) POLLIN); simpl; [|intros [= <-]; exact H].
    destruct (ev_read ev); [discriminate|]. apply lines_loop_accounted.
    revert H. apply accounted_frame; auto. }
  destruct (ev_fd ev =? stdout_fd);
    [intros Hret; apply (writers_accounted _ _ _ _ H (or_introl Hret))|].
  destruct (ev_fd ev =? notify_child_death_fd);
    [intros Hret; apply (writers_accounted _ _ _ _ H (or_intror Hret))|].
  destruct (child_death_fds s !! ev_fd ev) as [cid|] eqn:Hfd;
    [|intros [= <-]; exact H].
  destruct (has (ev_mask ev) POLLHUP); [|intros [= <-]; exact H].
  apply handle_child_death_accounted; assumption.
Qed.

Lemma dispatch_all_accounted (evs : list io_event) :
  forall s s',
    accounted s ->
    dispatch_all notify_child_death_fd stdin_fd stdout_fd os_fork evs s
    = Returns s' -> accounted s'.
Proof.
  induction evs as [|ev evs IH]; intros s s' H; simpl.
  - intros [= <-]. exact H.
  - destruct (dispatch ev s) as [s1|e s1] eqn:Hev; [|discriminate]. simpl.
    apply IH. apply (dispatch_accounted _ _ _ H Hev).
Qed.

Lemma arm_accounted (s : state) :
  accounted s -> accounted (arm notify_child_death_fd stdout_fd s).
Proof.
  unfold arm. intros H.
  assert (forall fd mask s0, accounted s0 -> accounted (poll_register fd mask s0))
    as Hreg.
  { intros fd mask s0. apply accounted_frame; auto.
    intros fd' _ _ Hp. simpl.
    destruct (decide (fd = fd')) as [<-|Hne];
      [rewrite lookup_insert_eq; eauto | rewrite lookup_insert_ne; auto]. }
  destruct (output_buf s); destruct (child_death_buf _); auto.
Qed.

Lemma run_accounted (ticks : list (list io_event)) :
  forall s s',
    accounted s ->
    run notify_child_death_fd stdin_fd stdout_fd os_fork ticks s = Returns s' ->
    accounted s'.
Proof.
  induction ticks as [|evs ticks IH]; intros s s' H; simpl.
  - intros [= <-]. exact H.
  - destruct (tick _ _ _ _ evs s) as [s1|e s1] eqn:Hev; [|discriminate]. simpl.
    apply IH. apply (dispatch_all_accounted _ _ _ (arm_accounted s H) Hev).
Qed.

(** X18.  No child is lost sight of.  In every state that the loop
    reaches from its start, every child whose pid the supervisor holds has
    a death detector in the death map that is registered with the poll, so
    its death will be seen; and every child that awaits its release is one
    whose pid the supervisor holds, so the readiness descriptor of a child
    that has died is not kept. *)
Theorem every_child_is_watched (opts : option (json * json))
  (ticks : list (list io_event)) (s : state) :
  run notify_child_death_fd stdin_fd stdout_fd os_fork ticks
    (start stdin_fd opts) = Returns s ->
  (forall id pid, child_id_map s !! id = Some pid ->
     exists fd, child_death_fds s !! fd = Some id /\ is_Some (poll s !! fd)) /\
  (forall id fd, child_ready_fds s !! id = Some fd ->
     is_Some (child_id_map s !! id)).
Proof.
  intros Hrun.
  assert (accounted (start stdin_fd opts)) as H0.
  { repeat split; intros ? ?; simpl; rewrite lookup_empty; discriminate. }
  destruct (run_accounted ticks _ _ H0 Hrun) as (H1 & H2 & _).
  split; assumption.
Qed.

End Account.

(** ** The end of the supervisor *)

Section Leaving.

Import Supervisor.

Context {codec : JsonCodec}.
Variables (notify_child_death_fd stdin_fd stdout_fd : Z).
Variable os_fork : nat -> fork_world.

(** X19.  The end of the input ends the supervisor cleanly.  When a poll
    reports first, on stdin, a hang-up, or a readable stdin whose read
    returns no byte, the loop is left by [SystemExit(0)] at once: the other
    events of that poll are not handled, what waits in [output_buf] is not
    written any more, and [main] closes every readiness descriptor that is
    still pending on its way out, without changing the exit status. *)
Theorem end_of_input_stops_the_supervisor (s : state) (mask : Z) (d : bytes)
  (evs : list io_event) (ticks : list (list io_event)) :
  has mask POLLHUP = true \/
  (has mask error_events = false /\ has mask POLLIN = true /\ d = []) ->
  let ev := {| ev_fd := stdin_fd; ev_mask := mask; ev_read := d; ev_wrote := 0 |} in
  exists s',
    run notify_child_death_fd stdin_fd stdout_fd os_fork ((ev :: evs) :: ticks) s
    = Raises (SystemExit 0 []) s' /\
    output_buf s' = output_buf s /\
    Session.written stdout_fd s' = Session.written stdout_fd s /\
    child_ready_fds s' = child_ready_fds s /\
    (leave (SystemExit 0 []) s').1 = SystemExit 0 [] /\
    forall id fd, child_ready_fds s !! id = Some fd ->
                  In (SysClose fd) (sys (leave (SystemExit 0 []) s').2).
Proof.
  intros Hend ev.
  assert (forall s' : state,
            child_ready_fds s' = child_ready_fds s ->
            forall id fd, child_ready_fds s !! id = Some fd ->
                          In (SysClose fd) (sys (leave (SystemExit 0 []) s').2))
    as Hclose.
  { intros s' Hfds id fd Hfd. cbn [leave snd sys did]. rewrite Hfds.
    apply in_or_app. right. apply list_elem_of_In.
    apply list_elem_of_fmap. exists fd. split; [reflexivity|].
    apply list_elem_of_fmap. exists (id, fd). split; [reflexivity|].
    apply elem_of_map_to_list. exact Hfd. }
  assert (Session.written stdout_fd (arm notify_child_death_fd stdout_fd s)
          = Session.written stdout_fd s /\
          output_buf (arm notify_child_death_fd stdout_fd s) = output_buf s)
    as [Hw Ho].
  { assert (forall fd m s0,
              Session.written stdout_fd (poll_register fd m s0)
              = Session.written stdout_fd s0) as Hreg.
    { intros fd m s0. unfold poll_register.
      rewrite written_did by (intros ? [H|[]]; discriminate). reflexivity. }
    unfold arm. split.
    - destruct (output_buf s); destruct (child_death_buf _);
        rewrite ?Hreg; reflexivity.
    - destruct (output_buf s) eqn:Hout; destruct (child_death_buf _);
        cbn [output_buf poll_register did set_poll]; congruence. }
  cbn [run tick dispatch_all then_]. unfold tick. cbn [dispatch_all].
  unfold dispatch. cbn [ev ev_fd ev_mask ev_read]. rewrite Z.eqb_refl.
  unfold handle_input, check_event.
  destruct Hend as [Hhup | (Herr & Hin & ->)].
  - rewrite Hhup. cbn [then_]. eexists. split; [reflexivity|].
    split; [exact Ho|]. split; [exact Hw|].
    split; [apply arm_ready_fds|]. split; [reflexivity|].
    apply Hclose, arm_ready_fds.
  - assert (has mask POLLHUP = false) as Hhup.
    { rewrite has_error_events in Herr.
      destruct (has mask POLLHUP); [|reflexivity].
      rewrite orb_true_r in Herr. discriminate. }
    rewrite Hhup, Herr, Hin. cbn [negb then_]. eexists. split; [reflexivity|].
    split; [exact Ho|]. split.
    { rewrite written_did by (intros ? [H|[]]; discriminate). exact Hw. }
    split; [apply arm_ready_fds|]. split; [reflexivity|].
    apply Hclose. cbn [child_ready_fds did]. apply arm_ready_fds.
Qed.

End Leaving.

(** ** What the loop polls for writing *)

Section Polling.

Import Supervisor.

Context {codec : JsonCodec}.
Variables (notify_child_death_fd stdin_fd stdout_fd : Z).
Variable os_fork : nat -> fork_world.

Abbreviation busy := (busy notify_child_death_fd stdout_fd).
Abbreviation handle_line := (handle_line os_fork).
Abbreviation dispatch :=
  (dispatch notify_child_death_fd stdin_fd stdout_fd os_fork).

(** The three descriptors of [main] are different, and [os.pipe()] answers
    none of them. *)
Hypothesis pipes : pipes_are_new notify_child_death_fd stdin_fd stdout_fd os_fork.
Hypothesis std_apart :
  stdin_fd <> stdout_fd /\ stdin_fd <> notify_child_death_fd /\
  stdout_fd <> notify_child_death_fd.

(** A step that registers nothing with the poll and shortens neither
    buffer keeps the two registrations justified. *)
Lemma busy_frame (s s' : state) :
  (forall fd, is_Some (poll s' !! fd) -> is_Some (poll s !! fd)) ->
  (output_buf s <> [] -> output_buf s' <> []) ->
  (child_death_buf s <> [] -> child_death_buf s' <> []) ->
  busy s -> busy s'.
Proof. intros Hp Ho Hc [H1 H2]. split; auto. Qed.

Lemma grows {A} (l l' : list A) : l <> [] -> l ++ l' <> [].
Proof. destruct l; [congruence | discriminate]. Qed.

Lemma handle_line_busy (line : str) (s s' : state) :
  busy s -> handle_line line s = Returns s' -> busy s'.
Proof.
  intros H. unfold Supervisor.handle_line.
  destruct (Py.partition Py.COLON line) as [[cmd sep] payload].
  destruct (Py.eqb cmd (lit "reload_kitty_config")).
  { unfold reload_kitty_config. simpl.
    destruct (json_loads payload) as [d|]; [|discriminate].
    destruct (Json.getitem d (lit "paths")); [|discriminate].
    destruct (Json.getitem d (lit "overrides")); [|discriminate].
    intros [= <-]. exact H. }
  destruct (Py.eqb cmd (lit "ready")).
  { destruct (Py.int payload) as [child_id|]; [|discriminate].
    destruct (child_ready_fds s !! child_id); [|discriminate].
    intros [= <-]. exact H. }
  destruct (Py.eqb cmd (lit "fork")).
  2:{ destruct (Py.eqb cmd (lit "echo")); intros [= <-]; [|exact H].
      revert H. apply busy_frame; auto. apply grows. }
  pose proof (pipes (forks s)) as Hnew.
  destruct (fw_ready_pipe (os_fork (forks s))) as [r wr].
  destruct (fork (os_fork (forks s)) payload r)
    as [[[child_pid child_death_fd]|e] log] eqn:Hfork.
  2:{ destruct (is_Exception e); [|discriminate].
      intros [= <-]. revert H. apply busy_frame; auto. apply grows. }
  apply fork_detector in Hfork. rewrite <- Hfork in Hnew. simpl in Hnew.
  destruct Hnew as (_ & Hout & Hnot).
  intros [= <-]. destruct H as [H1 H2]. split; simpl.
  - rewrite lookup_insert_ne by congruence. intros Hp. apply grows. auto.
  - rewrite lookup_insert_ne by congruence. exact H2.
Qed.

Lemma lines_loop_busy (buf : bytes) :
  forall s s', busy s -> lines_loop os_fork buf s = Returns s' -> busy s'.
Proof.
  remember (length buf) as n eqn:Hn. revert buf Hn.
  induction n as [n IH] using lt_wf_ind. intros buf -> s s' H.
  rewrite lines_loop_step.
  destruct (Z.gtb_spec (Py.find Py.NL buf) (-1)) as [Hidx|Hidx];
    [|intros [= <-]; exact H].
  set (rest := Py.slice_from buf (Py.find Py.NL buf + 1)).
  destruct (handle_line _ (set_input_buf rest s)) as [s1|e s1] eqn:Hline;
    [|discriminate].
  apply (IH (length rest)); [|reflexivity|].
  - subst rest. pose proof (find_range Py.NL buf).
    unfold Py.slice_from, Py.clamp_index, Py.len in *. rewrite length_drop.
    destruct (Z.ltb_spec (Py.find Py.NL buf + 1) 0); lia.
  - eapply handle_line_busy; [|exact Hline]. exact H.
Qed.

Lemma handle_output_busy (event n : Z) (s s' : state) :
  busy s -> handle_output stdout_fd event n s = Returns s' -> busy s'.
Proof.
  destruct std_apart as (_ & _ & Hne).
  intros [H1 H2]. unfold handle_output, poll_unregister.
  destruct (check_event event _); [discriminate|].
  destruct (has event POLLOUT); simpl; [|intros [= <-]; split; assumption].
  destruct (output_buf s) as [|b out] eqn:Hout; simpl.
  - rewrite Hout. destruct (poll s !! stdout_fd) eqn:Hp; [|discriminate].
    exfalso. apply H1; [eauto | reflexivity].
  - destruct (n =? 0); [discriminate|]. simpl.
    destruct (Py.slice_from _ n) eqn:Hrest.
    + destruct (poll s !! stdout_fd); [|discriminate]. intros [= <-].
      split; simpl.
      * rewrite lookup_delete_eq. intros [? [=]].
      * rewrite lookup_delete_ne by congruence. exact H2.
    + intros [= <-]. split; simpl; [discriminate | exact H2].
Qed.

Lemma handle_notify_child_death_busy (event n : Z) (s s' : state) :
  busy s ->
  handle_notify_child_death notify_child_death_fd event n s = Returns s' ->
  busy s'.
Proof.
  destruct std_apart as (_ & _ & Hne).
  intros [H1 H2]. unfold handle_notify_child_death, poll_unregister.
  destruct (check_event event _); [discriminate|].
  destruct (has event POLLOUT); simpl; [|intros [= <-]; split; assumption].
  destruct (child_death_buf s) as [|b out] eqn:Hout; simpl.
  - rewrite Hout. destruct (poll s !! notify_child_death_fd) eqn:Hp;
      [|discriminate].
    exfalso. apply H2; [eauto | reflexivity].
  - destruct (n =? 0); [discriminate|]. simpl.
    destruct (Py.slice_from _ n) eqn:Hrest.
    + destruct (poll s !! notify_child_death_fd); [|discriminate]. intros [= <-].
      split; simpl.
      * rewrite lookup_delete_ne by congruence. exact H1.
      * rewrite lookup_delete_eq. intros [? [=]].
    + intros [= <-]. split; simpl; [exact H1 | discriminate].
Qed.

Lemma handle_child_death_busy (fd cid : Z) (s s' : state) :
  busy s -> handle_child_death fd cid s = Returns s' -> busy s'.
Proof.
  intros H. unfold handle_child_death, poll_unregister.
  destruct (poll s !! fd); [|discriminate]. cbn [then_].
  cbn [child_death_fds did set_poll].
  destruct (child_death_fds s !! fd); [|discriminate].
  cbn [child_ready_fds set_child_death_fds did set_poll].
  destruct (child_ready_fds s !! cid);
    cbn [child_id_map set_child_ready_fds set_child_death_fds did set_poll];
    (destruct (child_id_map s !! cid); [|discriminate]);
    intros [= <-]; revert H; apply busy_frame; simpl; auto;
    try apply grows;
    intros fd' Hp; destruct (decide (fd' = fd)) as [->|Hne];
    [rewrite lookup_delete_eq in Hp; destruct Hp as [? [=]]
    |rewrite lookup_delete_ne in Hp by congruence; exact Hp
    |rewrite lookup_delete_eq in Hp; destruct Hp as [? [=]]
    |rewrite lookup_delete_ne in Hp by congruence; exact Hp].
Qed.

Lemma dispatch_busy (ev : io_event) (s s' : state) :
  busy s -> dispatch ev s = Returns s' -> busy s'.
Proof.
  intros H. unfold Supervisor.dispatch.
  destruct (ev_fd ev =? stdin_fd).
  { unfold handle_input. destruct (check_event _ _); [discriminate|].
    destruct (has (ev_mask ev) POLLIN); simpl; [|intros [= <-]; exact H].
    destruct (ev_read ev); [discriminate|]. apply lines_loop_busy. exact H. }
  destruct (ev_fd ev =? stdout_fd); [apply handle_output_busy, H|].
  destruct (ev_fd ev =? notify_child_death_fd);
    [apply handle_notify_child_death_busy, H|].
  destruct (child_death_fds s !! ev_fd ev); [|intros [= <-]; exact H].
  destruct (has (ev_mask ev) POLLHUP); [|intros [= <-]; exact H].
  apply handle_child_death_busy, H.
Qed.

Lemma dispatch_all_busy (evs : list io_event) :
  forall s s',
    busy s ->
    dispatch_all notify_child_death_fd stdin_fd stdout_fd os_fork evs s
    = Returns s' -> busy s'.
Proof.
  induction evs as [|ev evs IH]; intros s s' H; simpl.
  - intros [= <-]. exact H.
  - destruct (dispatch ev s) as [s1|e s1] eqn:Hev; [|discriminate]. simpl.
    apply IH. apply (dispatch_busy _ _ _ H Hev).
Qed.

(** At the head of a turn the registrations are brought up to date. *)
Lemma arm_busy (s : state) :
  busy s ->
  let s' := arm notify_child_death_fd stdout_fd s in
  (is_Some (poll s' !! stdout_fd) <-> output_buf s' <> []) /\
  (is_Some (poll s' !! notify_child_death_fd) <-> child_death_buf s' <> []).
Proof.
  destruct std_apart as (_ & _ & Hne).
  intros [H1 H2]. unfold arm, poll_register.
  destruct (output_buf s) as [|b out] eqn:Hout;
    cbn [child_death_buf did set_poll];
    destruct (child_death_buf s) as [|c cdb] eqn:Hcdb;
    cbn [poll output_buf child_death_buf did set_poll];
    rewrite ?Hout, ?Hcdb, ?lookup_insert_eq;
    rewrite ?lookup_insert_ne by congruence;
    rewrite ?lookup_insert_eq;
    (split;
     (split;
      [ intros Hp; first [discriminate | auto]
      | intros Hb; first [congruence | eauto] ])).
Qed.

Lemma run_busy (ticks : list (list io_event)) :
  forall s s',
    busy s ->
    run notify_child_death_fd stdin_fd stdout_fd os_fork ticks s = Returns s' ->
    busy s'.
Proof.
  induction ticks as [|evs ticks IH]; intros s s' H; simpl.
  - intros [= <-]. exact H.
  - destruct (tick _ _ _ _ evs s) as [s1|e s1] eqn:Hev; [|discriminate]. simpl.
    apply IH. unfold tick in Hev.
    apply (dispatch_all_busy _ _ _ (conj (proj1 (proj1 (arm_busy s H)))
                                        (proj1 (proj2 (arm_busy s H)))) Hev).
Qed.

(** X20.  The loop never polls a descriptor for writing with nothing to
    write to it, so [poll()] is never woken for nothing.  Whenever the loop
    comes to call [poll()], after any turns from its start, stdout is
    registered with the poll exactly when [output_buf] is not empty, and
    the notification descriptor exactly when [child_death_buf] is not
    empty. *)
Theorem nothing_is_polled_for_nothing (opts : option (json * json))
  (ticks : list (list io_event)) (s : state) :
  run notify_child_death_fd stdin_fd stdout_fd os_fork ticks
    (start stdin_fd opts) = Returns s ->
  let polled := arm notify_child_death_fd stdout_fd s in
  (is_Some (poll polled !! stdout_fd) <-> output_buf polled <> []) /\
  (is_Some (poll polled !! notify_child_death_fd) <->
   child_death_buf polled <> []).
Proof.
  intros Hrun. apply arm_busy.
  apply (fun H0 => run_busy ticks _ _ H0 Hrun).
  destruct std_apart as (H1 & H2 & _).
  split; simpl; rewrite lookup_singleton_ne by congruence; intros [? [=]].
Qed.

End Polling.

(** ** The table of children of the client *)

Section ChildrenTable.

Import PrewarmProcess.

Context {codec : JsonCodec}.

Lemma record_children (v : verdict) (self other : t) :
  children self = children other ->
  children (record v self) = children (record v other).
Proof. intros H. destruct v; simpl; congruence. Qed.

(** The events of one poll change the table only by recording the child
    of their verdict. *)
Lemma reply_events_children (evs : list (Z * Z * bytes)) :
  forall buf self,
    children (reply_events evs buf self).2
    = children (record (reply_events evs buf self).1.1 self).
Proof.
  induction evs as [|[[fd event] d] evs IH]; intros buf self; [reflexivity|].
  cbn [reply_events].
  destruct (has event error_events); [reflexivity|].
  destruct ((fd =? read_from_process_fd self) && has event POLLIN); [|apply IH].
  rewrite reply_lines_scan.
  destruct (scan (buf ++ d)) as [[c|e|] rest] eqn:Hscan; cbn [fst snd];
    try reflexivity.
  cbn [record]. rewrite IH. apply record_children. reflexivity.
Qed.

Lemma await_reply_children (ticks : list reply_tick) :
  forall buf self,
    match await_reply ticks buf self with
    | Returned c self' => children self' = <[child_id c := c]> (children self)
    | Raised _ self' | Waiting self' => children self' = children self
    end.
Proof.
  induction ticks as [|tk ticks IH]; intros buf self; [reflexivity|].
  cbn [await_reply].
  destruct (rpl_elapsed tk <? seconds 2); [|reflexivity].
  pose proof (reply_events_children (rpl_events tk) buf self) as H.
  destruct (reply_events (rpl_events tk) buf self) as [[[c|e|] rest] self1];
    cbn [fst snd record] in H; try exact H.
  specialize (IH rest self1).
  destruct (await_reply ticks rest self1); congruence.
Qed.

(** X21.  [__call__] changes the table of children only when it returns:
    then the table holds the child it returns under its id, and is
    otherwise as before; when the call raises, for whatever reason, the
    table is as it was before the call. *)
Theorem call_records_only_the_child_it_returns (w : call_world) (tty_fd : Z)
  (argv : list str) (cwd : str) (env : option (list (str * str)))
  (stdin_data : option bytes) (self : t) :
  match call w tty_fd argv cwd env stdin_data self with
  | Returned c self' =>
      children self' = <[child_id c := c]> (children self) /\
      children self' !! child_id c = Some c
  | Raised _ self' | Waiting self' => children self' = children self
  end.
Proof.
  assert (match call w tty_fd argv cwd env stdin_data self with
          | Returned c self' => children self' = <[child_id c := c]> (children self)
          | Raised _ self' | Waiting self' => children self' = children self
          end) as H.
  { unfold call.
    assert (children (ensure_worker (os_spawn w) self) = children self) as He
      by (unfold ensure_worker; destruct (worker_started self); reflexivity).
    destruct (os_ttyname w) as [tty_name|e]; [|exact He].
    destruct (fill_region _ _ _) as [shm|e]; [|exact He].
    unfold exchange, wait_for_reply.
    pose proof (send_to_prewarm_process_sent (os_send w)
                  (lit "fork:" ++ SharedMemory.name shm ++ [Py.NL]) (seconds 2)
                  (ensure_worker (os_spawn w) self)) as Hs.
    cbv zeta in Hs. destruct Hs as (Hc & _ & _).
    destruct (send_to_prewarm_process _ _ _ _) as [u self1|e self1|self1];
      cbn [self_of] in Hc.
    - pose proof (await_reply_children (os_reply w) [] self1) as Ha.
      destruct (await_reply (os_reply w) [] self1) as [c self2|e self2|self2];
        cbn [SharedMemory.unlink_on_exit SharedMemory.set_unlink_on_exit];
        try destruct (SharedMemory.unlink_on_exit shm);
        cbn [children did]; congruence.
    - destruct (SharedMemory.unlink_on_exit shm); cbn [children did]; congruence.
    - congruence. }
  destruct (call w tty_fd argv cwd env stdin_data self); try exact H.
  split; [exact H|]. rewrite H. apply lookup_insert_eq.
Qed.

End ChildrenTable.

(** ** A send that makes progress *)

Section SendingProgress.

Import PrewarmProcess.

Lemma slice_from_shorter (buf : bytes) (n : Z) :
  1 <= n -> buf <> [] -> Py.len (Py.slice_from buf n) <= Py.len buf - 1.
Proof.
  intros Hn Hb. unfold Py.slice_from, Py.clamp_index, Py.len.
  destruct (Z.ltb_spec n 0); [lia|]. rewrite length_drop.
  destruct buf; [congruence|]. simpl length. lia.
Qed.

Lemma send_makes_progress (timeout : Z) (ticks : list send_tick) :
  forall buf self,
    Forall (takes (write_to_process_fd self) timeout) ticks ->
    Py.len buf <= Py.len ticks ->
    buf <> [] \/ is_Some (poll self !! write_to_process_fd self) ->
    exists self', send_to_prewarm_process ticks buf timeout self
                  = Returned tt self'.
Proof.
  assert (forall self : t,
            is_Some (poll self !! write_to_process_fd self) ->
            exists self', send_finish [] self = Returned tt self') as Hfin.
  { intros self [m Hm]. unfold send_finish, poll_to_send. rewrite Hm. eauto. }
  induction ticks as [|tk ticks IH]; intros buf self Hall Hlen Hstate.
  - assert (buf = []) as ->.
    { destruct buf as [|x buf]; [reflexivity|].
      rewrite len_cons in Hlen. pose proof (len_nonneg buf).
      change (Py.len []) with 0 in Hlen. lia. }
    destruct Hstate as [?|Hp]; [congruence|]. apply Hfin, Hp.
  - destruct buf as [|x buf].
    { destruct Hstate as [?|Hp]; [congruence|].
      cbn [send_to_prewarm_process]. apply Hfin, Hp. }
    apply Forall_cons in Hall as [(Hel & n & Hn & Hev) Hall].
    cbn [send_to_prewarm_process].
    destruct (Z.ltb_spec (snd_elapsed tk) timeout); [|lia].
    cbn [poll_to_send]. rewrite Hev. cbn [send_events].
    change (has POLLOUT error_events) with false. cbv iota.
    cbn [write_to_process_fd did set_poll]. rewrite Z.eqb_refl.
    change (has POLLOUT POLLOUT) with true. cbn [andb].
    apply IH.
    + exact Hall.
    + pose proof (slice_from_shorter (x :: buf) n Hn ltac:(discriminate)).
      rewrite !len_cons in *. lia.
    + right. cbn [poll write_to_process_fd did set_poll].
      rewrite lookup_insert_eq. eauto.
Qed.

(** X22.  A send gets through when the worker keeps reading: if the
    buffer is not empty and, for as many turns as it has bytes, each turn
    of the loop starts before the time is up and finds the pipe writable
    with [os.write] taking at least one byte, then
    [send_to_prewarm_process] returns, and it has written the whole
    buffer, in order. *)
Theorem send_gets_through (timeout : Z) (ticks : list send_tick)
  (buf : bytes) (self : t) :
  buf <> [] ->
  Forall (takes (write_to_process_fd self) timeout) ticks ->
  Py.len buf <= Py.len ticks ->
  exists self',
    send_to_prewarm_process ticks buf timeout self = Returned tt self' /\
    sent self' = sent self ++ buf /\
    children self' = children self.
Proof.
  intros Hbuf Hall Hlen.
  destruct (send_makes_progress timeout ticks buf self Hall Hlen (or_introl Hbuf))
    as [self' Hret].
  exists self'. split; [exact Hret|].
  pose proof (send_to_prewarm_process_sent ticks buf timeout self) as H.
  cbv zeta in H. rewrite Hret in H. cbn [self_of] in H.
  destruct H as (Hc & _ & Hs). split; assumption.
Qed.

End SendingProgress.

(** ** The stdin of the child *)

Section ChildStdin.

Lemma child_main_sets_no_stdin (w : child_world) (cmd : json) (ready_fd : Z)
  (stream : ReadWrapper.MemoryViewReadWrapperBytes) :
  ~ In (SetStdin stream) (child_main w cmd ready_fd).1.
Proof.
  unfold child_main.
  destruct (Json.get cmd (lit "cwd") JNull) as [cwd|]; [|intros []].
  destruct (if Json.truthy cwd then _ else _) as [a1|] eqn:H1; [|intros []].
  assert (~ In (SetStdin stream) a1) as Q1.
  { destruct (Json.truthy cwd); [destruct cwd|]; try discriminate;
      injection H1 as <-; simpl; intuition (discriminate || eauto). }
  destruct (Json.get cmd (lit "env") JNull) as [env|]; [|exact Q1].
  destruct (match env with JNull => _ | _ => _ end) as [a2|] eqn:H2.
  2:{ cbn [fst]. rewrite in_app_iff. simpl. intuition (discriminate || eauto). }
  assert (~ In (SetStdin stream) a2) as Q2.
  { destruct env; try discriminate; injection H2 as <-; simpl;
      intuition (discriminate || eauto). }
  destruct (Json.get cmd (lit "argv") JNull) as [argv|].
  2:{ cbn [fst]. rewrite in_app_iff. tauto. }
  destruct (if Json.truthy argv then _ else _) as [a3|] eqn:H3.
  2:{ cbn [fst]. rewrite in_app_iff. tauto. }
  assert (~ In (SetStdin stream) a3) as Q3.
  { destruct (Json.truthy argv); [destruct argv|]; try discriminate;
      injection H3 as <-; simpl; intuition (discriminate || eauto). }
  cbn [fst]. rewrite !in_app_iff. simpl. intuition (discriminate || eauto).
Qed.

(** X23.  The child sets its stdin around the dispatcher.  When a forked
    child installs a stream as [sys.stdin], it does so once, before
    anything of [child_main] and so before the dispatcher can run, the
    stream stands at position 0 of a view that is not empty, and after
    [child_main] has ended, by whatever exception, [sys.stdin] is set back
    to [sys.__stdin__]. *)
Theorem stdin_is_set_around_the_dispatcher (w : child_world) (rq : request)
  (wr : Z) (shm_address : str) (ready_fd : Z)
  (stream : ReadWrapper.MemoryViewReadWrapperBytes) :
  In (SetStdin stream) (fork_in_child w rq wr shm_address ready_fd).1 ->
  exists pre tail,
    (fork_in_child w rq wr shm_address ready_fd).1
    = pre ++ [SetStdin stream] ++ (child_main w (rq_cmd rq) ready_fd).1 ++
      ResetStdin :: tail /\
    quiet pre /\
    (forall other, ~ In (SetStdin other) pre) /\
    (forall other, ~ In (SetStdin other) tail) /\
    ReadWrapper.pos stream = 0 /\ ReadWrapper.mw stream <> [].
Proof.
  unfold fork_in_child.
  destruct (Json.get (rq_cmd rq) (lit "tty_name") JNull) as [tty_name|];
    [|simpl; intuition (discriminate || eauto)].
  destruct (if Json.truthy tty_name then _ else _) as [a1|] eqn:H1;
    [|simpl; intuition (discriminate || eauto)].
  assert (quiet a1 /\ forall other, ~ In (SetStdin other) a1) as [Q1 N1].
  { destruct (Json.truthy tty_name); [destruct (cw_tty w)|]; try discriminate;
      injection H1 as <-; (split; [|intros other]); unfold quiet; simpl;
      intuition (discriminate || eauto). }
  pose proof (child_main_sets_no_stdin w (rq_cmd rq) ready_fd) as Nb.
  set (a := [SetInheritable wr false; Setsid] ++ a1 ++ [Write wr (lit "1")]).
  assert (quiet a /\ forall other, ~ In (SetStdin other) a) as [Qa Na].
  { subst a. split; [|intros other]; unfold quiet in *;
      simpl; rewrite in_app_iff; simpl; specialize (N1 other) || idtac;
      intuition (discriminate || eauto). }
  destruct (rq_unlink_on_exit rq).
  { destruct (child_main w (rq_cmd rq) ready_fd) as [b e]. cbn [fst] in *.
    rewrite in_app_iff. intros [H|H]; [destruct (Na _ H) | destruct (Nb _ H)]. }
  destruct (cw_region w) as [region|];
    [|cbn [fst]; intros H; destruct (Na _ H)].
  destruct (match rq_sz rq with JNum n => _ | _ => _ end) as [sz|].
  2:{ cbn [fst]. rewrite !in_app_iff. simpl.
      intros [[H|H]|H]; [destruct (Na _ H) | |]; intuition (discriminate || eauto). }
  destruct (Py.slice region (rq_pos rq) (rq_pos rq + sz)) as [|x data] eqn:Hdata;
    destruct (child_main w (rq_cmd rq) ready_fd) as [b e]; cbn [fst] in *.
  - rewrite !in_app_iff. simpl.
    intros [[H|H]|[H|H]];
      [destruct (Na _ H) | | destruct (Nb _ H) |]; intuition (discriminate || eauto).
  - rewrite !in_app_iff. simpl. intros Hin.
    assert (stream = ReadWrapper.init (x :: data)) as ->.
    { destruct Hin as [[[H|H]|H]|[H|H]].
      - destruct (Na _ H).
      - destruct H as [H|[]]; discriminate.
      - destruct H as [[= <-]|[]]; reflexivity.
      - destruct (Nb _ H).
      - destruct H as [H|[H|[]]]; discriminate. }
    exists (a ++ [ShmAttach shm_address]), [ShmUnlink shm_address].
    split; [repeat (rewrite <- app_assoc; simpl); reflexivity|].
    split; [apply quiet_app; [exact Qa | apply quiet_cons; [discriminate | apply quiet_nil]]|].
    split.
    { intros other Hin'. apply in_app_iff in Hin' as [H|[H|[]]];
        [exact (Na _ H) | discriminate]. }
    split; [intros other [H|[]]; discriminate|].
    split; [reflexivity | discriminate].
Qed.

End ChildStdin.

(** ** The further properties at concrete inputs *)

Section FurtherRuns.

Import Supervisor.

Lemma configuration_reaches_the_worker_witness :
  kitty_opts
    (final (handle_line (codec := AsciiJson.codec) Scenario.forks_succeed
              (lit "reload_kitty_config:" ++
               PrewarmProcess.prewarm_config (codec := AsciiJson.codec) Scenario.opts)
              (start 0 None)))
  = Some (JList [JStr (lit "/a")], JList []).
Proof.
  destruct (configuration_reaches_the_worker (codec := AsciiJson.codec)
              Scenario.forks_succeed Scenario.opts (start 0 None))
    as [_ H]; [vm_compute; reflexivity|].
  rewrite H. reflexivity.
Defined.

Lemma fork_error_reaches_the_client_witness :
  exists s',
    handle_line (codec := AsciiJson.codec) Scenario.region_is_missing
      (lit "fork:" ++ lit "a:b") (start 0 None) = Returns s' /\
    PrewarmProcess.scan (Session.emitted (start 0 None) s')
    = (PrewarmProcess.Failed (PrewarmProcessFailed (lit "a:b")), []).
Proof.
  destruct (fork_error_reaches_the_client (codec := AsciiJson.codec)
              Scenario.region_is_missing (lit "a:b") (start 0 None)
              (FileNotFoundError (lit "a:b")) [] eq_refl)
    as (s' & Hline & _ & Hscan & _).
  exists s'. split; [exact Hline | exact Hscan].
Defined.

Lemma ready_frame_releases_the_child_witness :
  let s := final (Scenario.run Scenario.forks_succeed
                    [[Scenario.stdin_readable (lit "fork:shm0" ++ [Py.NL])]]) in
  let self' := PrewarmProcess.self_of
                 (PrewarmProcess.mark_child_as_ready
                    [PrewarmProcess.writable Scenario.client_with_child 64] 0
                    Scenario.client_with_child) in
  exists s',
    handle_input (codec := AsciiJson.codec) 0 Scenario.forks_succeed POLLIN
      (drop (length (PrewarmProcess.sent Scenario.client_with_child))
         (PrewarmProcess.sent self')) s = Returns s' /\
    child_ready_fds s' = ∅.
Proof.
  intros s self'.
  destruct (ready_frame_releases_the_child (codec := AsciiJson.codec)
              Scenario.forks_succeed 0
              [PrewarmProcess.writable Scenario.client_with_child 64]
              0 6 Scenario.client_with_child self' s)
    as (_ & s' & Hin & _ & Hfds & _);
    [vm_compute; reflexivity | vm_compute; reflexivity | reflexivity |].
  exists s'. split; [exact Hin|]. rewrite Hfds. vm_compute. reflexivity.
Defined.

Lemma failed_fork_syscall_is_reported_witness :
  let world (_ : nat) :=
    {| fw_ready_pipe := (5, 6); fw_region := Some (Scenario.region_of None);
       fw_death_pipe := (7, 8); fw_fork := None; fw_event := POLLIN |} in
  exists msg s',
    handle_line (codec := AsciiJson.codec) world (lit "fork:shm0") (start 0 None)
    = Returns s' /\
    output_buf s' = lit "ERR:" ++ Py.replace Py.NL Py.SPACE msg ++ [Py.NL] /\
    child_id_counter s' = 0.
Proof.
  intros world.
  assert (exists rq log0,
            read_request (codec := AsciiJson.codec)
              (Some (Scenario.region_of None)) (lit "shm0") = (Ok rq, log0))
    as (rq & log0 & Hrq) by (do 2 eexists; vm_compute; reflexivity).
  destruct (failed_fork_syscall_is_reported (codec := AsciiJson.codec) world
              (lit "shm0") (start 0 None) rq log0 Hrq eq_refl)
    as (msg & log & s' & _ & _ & _ & Hline & Hout & Hcnt & _).
  exists msg, s'. split; [exact Hline|]. split; [exact Hout | exact Hcnt].
Defined.

Lemma commands_do_not_depend_on_the_reads_witness :
  let s1 := final (lines_loop (codec := AsciiJson.codec) Scenario.forks_succeed
                     (lit "echo:a" ++ [Py.NL] ++ lit "ech") (start 0 None)) in
  input_buf s1 = lit "ech" /\
  output_buf (final (lines_loop (codec := AsciiJson.codec) Scenario.forks_succeed
                       (input_buf s1 ++ lit "o:b" ++ [Py.NL]) s1))
  = lit "a" ++ [Py.NL] ++ lit "b" ++ [Py.NL].
Proof.
  intros s1. split; [vm_compute; reflexivity|].
  rewrite (commands_do_not_depend_on_the_reads (codec := AsciiJson.codec)
             Scenario.forks_succeed (lit "echo:a" ++ [Py.NL] ++ lit "ech")
             (lit "o:b" ++ [Py.NL]) (start 0 None) s1)
    by (vm_compute; reflexivity).
  vm_compute. reflexivity.
Defined.

Lemma replies_reach_stdout_in_order_witness :
  let ticks :=
    [[Scenario.stdin_readable (lit "fork:shm0" ++ [Py.NL])];
     [{| ev_fd := 1; ev_mask := POLLOUT; ev_read := []; ev_wrote := 5 |}];
     [Scenario.stdin_readable (lit "echo:hi" ++ [Py.NL])]] in
  let s := final (Scenario.run Scenario.forks_succeed ticks) in
  Session.written 1 s = lit "CHILD" /\
  Session.written 1 s ++ output_buf s
  = lit "CHILD:0:4242" ++ [Py.NL] ++ lit "hi" ++ [Py.NL].
Proof.
  intros ticks s. split; [vm_compute; reflexivity|].
  unfold s, Scenario.run.
  rewrite (replies_reach_stdout_in_order (codec := AsciiJson.codec) 3 0 1
             Scenario.forks_succeed
             ltac:(intros n; simpl; lia) ltac:(lia) None ticks).
  vm_compute. reflexivity.
Defined.

Lemma deaths_are_notified_in_order_witness :
  let ticks :=
    [[Scenario.stdin_readable (lit "fork:shm0" ++ [Py.NL])];
     [Scenario.hung_up 7];
     [{| ev_fd := 3; ev_mask := POLLOUT; ev_read := []; ev_wrote := 2 |}]] in
  let s := final (Scenario.run Scenario.forks_succeed ticks) in
  Session.written 3 s = lit "42" /\
  Session.written 3 s ++ child_death_buf s = lit "4242" ++ [Py.NL].
Proof.
  intros ticks s. split; [vm_compute; reflexivity|].
  unfold s, Scenario.run.
  rewrite (deaths_are_notified_in_order (codec := AsciiJson.codec) 3 0 1
             Scenario.forks_succeed
             ltac:(intros n; simpl; lia) ltac:(lia) None ticks).
  vm_compute. reflexivity.
Defined.

Lemma every_child_is_watched_witness :
  let world n :=
    {| fw_ready_pipe := (5, 6); fw_region := Some (Scenario.region_of None);
       fw_death_pipe := (7 + 2 * Z.of_nat n, 8 + 2 * Z.of_nat n);
       fw_fork := Some (4242 + Pos.of_nat n)%positive; fw_event := POLLIN |} in
  let ticks :=
    [[Scenario.stdin_readable
        (lit "fork:shm0" ++ [Py.NL] ++ lit "fork:shm0" ++ [Py.NL])];
     [Scenario.hung_up 7]] in
  let s := final (run (codec := AsciiJson.codec) 3 0 1 world ticks (start 0 None)) in
  exists fd, child_death_fds s !! fd = Some 1 /\ is_Some (poll s !! fd).
Proof.
  intros world ticks s.
  destruct (every_child_is_watched (codec := AsciiJson.codec) 3 0 1 world
              ltac:(intros n; simpl; lia)
              ltac:(intros n m H; simpl in H; lia)
              None ticks s ltac:(vm_compute; reflexivity)) as [H _].
  apply (H 1 4243). vm_compute. reflexivity.
Defined.

Lemma end_of_input_stops_the_supervisor_witness :
  let s := final (Scenario.run Scenario.forks_succeed
                    [[Scenario.stdin_readable (lit "fork:shm0" ++ [Py.NL])]]) in
  exists s',
    run (codec := AsciiJson.codec) 3 0 1 Scenario.forks_succeed
      [[Scenario.stdin_readable []]] s = Raises (SystemExit 0 []) s' /\
    output_buf s' = lit "CHILD:0:4242" ++ [Py.NL] /\
    In (SysClose 6) (sys (leave (SystemExit 0 []) s').2).
Proof.
  intros s.
  destruct (end_of_input_stops_the_supervisor (codec := AsciiJson.codec) 3 0 1
              Scenario.forks_succeed s POLLIN [] [] []
              (or_intror (conj eq_refl (conj eq_refl eq_refl))))
    as (s' & Hrun & Hout & _ & _ & _ & Hclose).
  exists s'. split; [exact Hrun|]. split.
  - rewrite Hout. vm_compute. reflexivity.
  - apply (Hclose 0 6). vm_compute. reflexivity.
Defined.

Lemma nothing_is_polled_for_nothing_witness :
  let s := final (Scenario.run Scenario.forks_succeed
                    [[Scenario.stdin_readable (lit "fork:shm0" ++ [Py.NL])]]) in
  is_Some (poll (arm 3 1 s) !! 1) /\ ~ is_Some (poll (arm 3 1 s) !! 3).
Proof.
  intros s.
  destruct (nothing_is_polled_for_nothing (codec := AsciiJson.codec) 3 0 1
              Scenario.forks_succeed
              ltac:(intros n; simpl; lia) ltac:(lia) None
              [[Scenario.stdin_readable (lit "fork:shm0" ++ [Py.NL])]] s
              ltac:(vm_compute; reflexivity)) as [[_ Hout] [Hnot _]].
  split.
  - apply Hout. vm_compute. discriminate.
  - intros Hp. apply Hnot in Hp. apply Hp. vm_compute. reflexivity.
Defined.

Lemma send_gets_through_witness :
  let tk := {| PrewarmProcess.snd_elapsed := 0;
               PrewarmProcess.snd_events := [(10, POLLOUT, 3)] |} in
  exists self',
    PrewarmProcess.send_to_prewarm_process (replicate 8 tk)
      (lit "ready:0" ++ [Py.NL]) (PrewarmProcess.seconds 2) Scenario.client
    = PrewarmProcess.Returned tt self' /\
    PrewarmProcess.sent self' = lit "ready:0" ++ [Py.NL].
Proof.
  intros tk.
  destruct (send_gets_through (PrewarmProcess.seconds 2) (replicate 8 tk)
              (lit "ready:0" ++ [Py.NL]) Scenario.client)
    as (self' & Hret & Hsent & _).
  - discriminate.
  - apply Forall_replicate. split; [reflexivity|].
    exists 3. split; [lia | reflexivity].
  - vm_compute. discriminate.
  - exists self'. split; [exact Hret|]. rewrite Hsent. reflexivity.
Defined.


Lemma stdin_is_set_around_the_dispatcher_witness :
  let w := {| cw_tty := None; cw_region := Some (lit "hello");
              cw_poll := ((5, POLLIN), []); cw_main := None |} in
  let rq := {| rq_cmd := JDict []; rq_sz := JNum 5; rq_pos := 0;
               rq_unlink_on_exit := false |} in
  exists pre tail,
    (fork_in_child w rq 8 Scenario.shm_name 5).1
    = pre ++ [SetStdin (ReadWrapper.init (lit "hello"))] ++
      (child_main w (JDict []) 5).1 ++ ResetStdin :: tail /\
    quiet pre.
Proof.
  intros w rq.
  destruct (stdin_is_set_around_the_dispatcher w rq 8 Scenario.shm_name 5
              (ReadWrapper.init (lit "hello")))
    as (pre & tail & Hacts & Hq & _).
  - vm_compute. do 4 right. left. reflexivity.
  - exists pre, tail. split; [exact Hacts | exact Hq].
Defined.

End FurtherRuns.
